(** * Recurring PayPal subscriptions: plan resolution, verification,
      activation with rollback, and subscription updates.

    Shallow embedding of [server/paymentProviders/paypal/subscription.ts]
    and [server/lib/subscriptions.ts].

    - Database tables are finite maps from primary key to row.
    - The asynchronous code is written in a state-and-exception monad over
      a [World]: the tables, the log of the gateway requests and store
      writes attempted so far, in order, and the number of clock reads.  A
      raised exception keeps the world reached so far, as in JavaScript.
    - The PayPal gateway, write failures of the store and the clock are
      external: they are supplied by an [Env], and may depend on everything
      that happened before.  Reads are total lookups.
    - Numbers are binary64 values; the division and the conversion to a
      string of the price of a plan are those of the language standard. *)

From Stdlib Require Import ZArith String Ascii List Bool Lia DecimalString.
From Stdlib Require Floats Uint63.
From stdpp Require Import gmap strings list fin_maps.

Local Open Scope Z_scope.
Local Open Scope string_scope.
Local Open Scope list_scope.

(** ** JavaScript values *)

Module Js.

(** Truthiness of a nullable string: [null] and the empty string are falsy. *)
Definition truthyString (s : option string) : bool :=
  match s with
  | Some s => negb (String.eqb s "")
  | None => false
  end.

(** Truthiness of a nullable number: [null] and [0] are falsy. *)
Definition truthyNumber (n : option Z) : bool :=
  match n with
  | Some n => negb (Z.eqb n 0)
  | None => false
  end.

(** [a === b] on nullable values. *)
Definition strictEq {A} (eqb : A -> A -> bool) (a b : option A) : bool :=
  match a, b with
  | Some x, Some y => eqb x y
  | None, None => true
  | _, _ => false
  end.

(** [n.toString()] for an integer [n], as interpolated in template strings. *)
Definition integerToString (n : Z) : string :=
  NilZero.string_of_int (Z.to_int n).

(** A nullable string interpolated in a template string. *)
Definition interpolate (s : option string) : string :=
  match s with
  | Some s => s
  | None => "null"
  end.

(** [n < m] where [m] may be [null]: [null] converts to [0]. *)
Definition ltNullable (n : Z) (m : option Z) : bool :=
  match m with
  | Some m => Z.ltb n m
  | None => Z.ltb n 0
  end.

Definition upperAscii (c : ascii) : ascii :=
  let n := nat_of_ascii c in
  if (Nat.leb 97 n && Nat.leb n 122)%bool then ascii_of_nat (n - 32) else c.

(** [s.toUpperCase()] on ASCII text. *)
Fixpoint toUpperCase (s : string) : string :=
  match s with
  | EmptyString => EmptyString
  | String c rest => String (upperAscii c) (toUpperCase rest)
  end.

Definition startsWith (s p : string) : bool := String.prefix p s.

(** ** Numbers

    A Number is an IEEE 754 binary64 value.  A finite one is
    [mantissa * 2 ^ exponent], negated if [negative], with a mantissa below
    [2 ^ 53] and an exponent from -1074 to 971; zero is the mantissa 0.
    The operations follow the language standard: a quotient is the
    fraction of the two values, rounded to the nearest Number, ties to the
    even mantissa; [Number.prototype.toString] gives the shortest decimal
    digits that round to the Number. *)

Inductive Number :=
| NaN
| Infinity (negative : bool)
| Finite (negative : bool) (mantissa exponent : Z).

(** [x] is [y], as Numbers. *)
Definition sameNumber (x y : Number) : bool :=
  match x, y with
  | NaN, NaN => true
  | Infinity s, Infinity t => Bool.eqb s t
  | Finite s m e, Finite t m' e' => Bool.eqb s t && Z.eqb m m' && Z.eqb e e'
  | _, _ => false
  end.

(** The integer nearest to [n / d], the even one of two at the same
    distance; [0 <= n] and [0 < d]. *)
Definition roundHalfEven (n d : Z) : Z :=
  let t := n / d in
  match Z.compare (2 * (n mod d)) d with
  | Lt => t
  | Gt => t + 1
  | Eq => if Z.even t then t else t + 1
  end.

(** The integer part of the binary logarithm of [n / d], for a fraction of
    at least [2 ^ -1100]; smaller fractions round to zero whatever it is. *)
Definition floorLog2 (n d : Z) : Z := Z.log2 (n * 2 ^ 1100 / d) - 1100.

(** The Number nearest to the fraction [n / d], negated if [negative]:
    53 bits of mantissa, fewer below [2 ^ -1022], infinite from [2 ^ 1024]. *)
Definition roundTiesToEven (negative : bool) (n d : Z) : Number :=
  let e := Z.max (floorLog2 n d - 52) (-1074) in
  let m := roundHalfEven (n * 2 ^ Z.max 0 (- e)) (d * 2 ^ Z.max 0 e) in
  let carried := Z.eqb m (2 ^ 53) in
  let m' := if carried then 2 ^ 52 else m in
  let e' := if carried then e + 1 else e in
  if Z.ltb 971 e' then Infinity negative else Finite negative m' e'.

(** The Number of an integer. *)
Definition ofZ (z : Z) : Number := roundTiesToEven (Z.ltb z 0) (Z.abs z) 1.

(** [x / y] *)
Definition divide (x y : Number) : Number :=
  match x, y with
  | NaN, _ => NaN
  | _, NaN => NaN
  | Infinity _, Infinity _ => NaN
  | Infinity s, Finite t _ _ => Infinity (xorb s t)
  | Finite s _ _, Infinity t => Finite (xorb s t) 0 (-1074)
  | Finite s m e, Finite t m' e' =>
      if Z.eqb m' 0
      then if Z.eqb m 0 then NaN else Infinity (xorb s t)
      else roundTiesToEven (xorb s t)
             (m * 2 ^ Z.max 0 e * 2 ^ Z.max 0 (- e'))
             (2 ^ Z.max 0 (- e) * (m' * 2 ^ Z.max 0 e'))
  end.

Definition digitChar (d : Z) : ascii := ascii_of_nat (48 + Z.to_nat d).

(** The [k] decimal digits of [s], for [0 <= s < 10 ^ k]. *)
Fixpoint digits (k : nat) (s : Z) : list ascii :=
  match k with
  | O => []
  | S k => digits k (s / 10) ++ [digitChar (s mod 10)]
  end.

(** The number of decimal digits of an integer [z >= 1]. *)
Fixpoint digitCount (fuel : nat) (z : Z) : Z :=
  match fuel with
  | O => 1
  | S fuel => if Z.ltb z 10 then 1 else 1 + digitCount fuel (z / 10)
  end.

(** The number of zeros between the point and the first digit of a
    fraction [n / d] below 1. *)
Fixpoint leadingZeros (fuel : nat) (n d : Z) : Z :=
  match fuel with
  | O => 0
  | S fuel => if Z.leb d (n * 10) then 0 else 1 + leadingZeros fuel (n * 10) d
  end.

(** The [n] with [10 ^ (n - 1) <= num / den < 10 ^ n]. *)
Definition decimalExponent (n d : Z) : Z :=
  if Z.leb d n then digitCount (S (Z.to_nat (Z.log2 n))) (n / d)
  else - leadingZeros 400 n d.

(** [s * 10 ^ (n - k)] rounds to [x]. *)
Definition roundsTo (x : Number) (n k s : Z) : bool :=
  sameNumber
    (roundTiesToEven false (s * 10 ^ Z.max 0 (n - k)) (10 ^ Z.max 0 (k - n))) x.

(** The [k] digits [s] and the exponent for which [s * 10 ^ (n' - k)]
    rounds to [x = num / den], if there are any: they are among the
    [k]-digit decimals next to [x], below and above; of two that round to
    [x], the nearer one is taken.  The decimal above may be the next power
    of ten. *)
Definition digitsOfLength (x : Number) (num den n k : Z) : option (Z * Z) :=
  let p := num * 10 ^ Z.max 0 (k - n) in
  let q := den * 10 ^ Z.max 0 (n - k) in
  let below := p / q in
  let above := below + 1 in
  let chosen :=
    match roundsTo x n k below, roundsTo x n k above with
    | true, true => Some (roundHalfEven p q)
    | true, false => Some below
    | false, true => Some above
    | false, false => None
    end in
  match chosen with
  | Some s => if Z.eqb s (10 ^ k) then Some (10 ^ (k - 1), n + 1) else Some (s, n)
  | None => None
  end.

(** The digits for the least [k] that has some, from [k] up. *)
Fixpoint shortestDigits (fuel : nat) (x : Number) (num den n k : Z)
    : option (Z * Z * Z) :=
  match fuel with
  | O => None
  | S fuel =>
      match digitsOfLength x num den n k with
      | Some (s, n') => Some (s, n', k)
      | None => shortestDigits fuel x num den n (k + 1)
      end
  end.

(** The numeral of the [k] digits [s] with decimal exponent [n]: plain
    for [-5 <= n <= 21], with an exponent part otherwise. *)
Definition formatDigits (s n k : Z) : string :=
  let ds := digits (Z.to_nat k) s in
  if Z.leb (-5) n && Z.leb n 21 then
    if Z.leb k n then
      string_of_list_ascii (ds ++ repeat "0"%char (Z.to_nat (n - k)))
    else if Z.ltb 0 n then
      string_of_list_ascii
        (firstn (Z.to_nat n) ds ++ "."%char :: skipn (Z.to_nat n) ds)
    else
      string_of_list_ascii
        ("0"%char :: "."%char :: repeat "0"%char (Z.to_nat (- n)) ++ ds)
  else
    let e := n - 1 in
    let exponent :=
      "e" +:+ (if Z.ltb e 0 then "-" else "+") +:+ integerToString (Z.abs e) in
    if Z.eqb k 1 then string_of_list_ascii ds +:+ exponent
    else
      string_of_list_ascii (firstn 1 ds ++ "."%char :: skipn 1 ds) +:+ exponent.

(** [x.toString()].  Seventeen digits tell any two Numbers apart, so the
    search for the shortest digits goes up to seventeen. *)
Definition numberToString (x : Number) : string :=
  match x with
  | NaN => "NaN"
  | Infinity negative => if negative then "-Infinity" else "Infinity"
  | Finite negative m e =>
      if Z.eqb m 0 then "0"
      else
        let num := m * 2 ^ Z.max 0 e in
        let den := 2 ^ Z.max 0 (- e) in
        let n := decimalExponent num den in
        let unsigned :=
          match shortestDigits 17 (Finite false m e) num den n 1 with
          | Some (s, n', k) => formatDigits s n' k
          | None =>
              formatDigits (roundHalfEven (num * 10 ^ Z.max 0 (17 - n))
                              (den * 10 ^ Z.max 0 (n - 17))) n 17
          end in
        if negative then "-" +:+ unsigned else unsigned
  end.

End Js.

(** ** Constants *)

(** Modelled from the spec: [constants/tiers] is not among the sources; the
    four kinds the product classification names, and one for every other. *)
Module TierType.
Inductive t := TICKET | PRODUCT | SERVICE | MEMBERSHIP | TIER.
End TierType.

(** Modelled from the spec: [constants/order_status] is not among the
    sources; the lifecycle statuses of section 3. *)
Module OrderStatus.
Inductive t := NEW | ACTIVE | ERROR | CANCELLED.
Definition eqb (a b : t) : bool :=
  match a, b with
  | NEW, NEW | ACTIVE, ACTIVE | ERROR, ERROR | CANCELLED, CANCELLED => true
  | _, _ => false
  end.
End OrderStatus.

(** [constants/paymentMethods], with the values the test suite uses. *)
Module PAYMENT_METHOD_SERVICE.
Definition PAYPAL : string := "paypal".
End PAYMENT_METHOD_SERVICE.

Module PAYMENT_METHOD_TYPE.
Definition SUBSCRIPTION : string := "subscription".
End PAYMENT_METHOD_TYPE.

(** ** Models *)

Module Collective.
Record t := {
  id : Z;
  name : string;
  slug : string;
  imageUrl : string;
  HostCollectiveId : option Z
}.

(** [collective.getHostCollective()]: the acting account of gateway calls. *)
Definition getHostCollective (c : t) : option Z := HostCollectiveId c.
End Collective.

Module Tier.
Record t := {
  id : Z;
  CollectiveId : Z;
  type : TierType.t;
  amountType : string;
  amount : option Z;
  minimumAmount : option Z;
  interval : option string
}.
End Tier.

Module User.
Record t := {
  id : Z;
  adminOf : list Z
}.

Definition isAdminOfCollective (u : t) (collective : option Z) : bool :=
  match collective with
  | Some c => existsb (Z.eqb c) (adminOf u)
  | None => false
  end.
End User.

Module PaymentMethod.
Record t := {
  id : Z;
  service : string;
  type : string;
  CreatedByUserId : option Z;
  CollectiveId : option Z;
  currency : string;
  saved : bool;
  token : string;
  name : option string
}.

(** One key of the object given to [update]. *)
Inductive attribute :=
| Name (v : option string).

Definition set (a : attribute) (pm : t) : t :=
  match a with
  | Name v =>
      {| id := id pm; service := service pm; type := type pm;
         CreatedByUserId := CreatedByUserId pm; CollectiveId := CollectiveId pm;
         currency := currency pm; saved := saved pm; token := token pm;
         name := v |}
  end.

Definition assign (values : list attribute) (pm : t) : t :=
  fold_left (fun acc a => set a acc) values pm.
End PaymentMethod.

Module Subscription.
Record t := {
  id : Z;
  amount : Z;
  currency : string;
  interval : option string;
  quantity : option Z;
  isActive : bool;
  isManagedExternally : bool;
  stripeSubscriptionId : option string;
  paypalSubscriptionId : option string;
  nextChargeDate : option Z;
  nextPeriodStart : option Z;
  chargeNumber : option Z
}.

(** One key of the object given to [update]. *)
Inductive attribute :=
| Amount (v : Z)
| Interval (v : option string)
| IsManagedExternally (v : bool)
| StripeSubscriptionId (v : option string)
| PaypalSubscriptionId (v : option string).

Definition set (a : attribute) (s : t) : t :=
  {| id := id s;
     amount := match a with Amount v => v | _ => amount s end;
     currency := currency s;
     interval := match a with Interval v => v | _ => interval s end;
     quantity := quantity s;
     isActive := isActive s;
     isManagedExternally :=
       match a with IsManagedExternally v => v | _ => isManagedExternally s end;
     stripeSubscriptionId :=
       match a with StripeSubscriptionId v => v | _ => stripeSubscriptionId s end;
     paypalSubscriptionId :=
       match a with PaypalSubscriptionId v => v | _ => paypalSubscriptionId s end;
     nextChargeDate := nextChargeDate s;
     nextPeriodStart := nextPeriodStart s;
     chargeNumber := chargeNumber s |}.

Definition assign (values : list attribute) (s : t) : t :=
  fold_left (fun acc a => set a acc) values s.

(** [pick(subscription?.dataValues, ['isManagedExternally',
    'stripeSubscriptionId', 'paypalSubscriptionId'])]. *)
Definition pickProviderFields (s : option t) : list attribute :=
  match s with
  | Some s =>
      [IsManagedExternally (isManagedExternally s);
       StripeSubscriptionId (stripeSubscriptionId s);
       PaypalSubscriptionId (paypalSubscriptionId s)]
  | None => []
  end.
End Subscription.

Module Order.
Record t := {
  id : Z;
  CollectiveId : Z;
  FromCollectiveId : Z;
  TierId : option Z;
  SubscriptionId : option Z;
  PaymentMethodId : option Z;
  totalAmount : Z;
  currency : string;
  interval : option string;
  quantity : option Z;
  status : OrderStatus.t;
  (* loaded associations *)
  collective : Collective.t;
  paymentMethod : option PaymentMethod.t;
  Subscription : option Subscription.t
}.

(** One key of the object given to [update]. *)
Inductive attribute :=
| SetPaymentMethodId (v : option Z)
| SetStatus (v : OrderStatus.t)
| SetTotalAmount (v : Z)
| SetInterval (v : option string)
| SetTierId (v : option Z)
| SetSubscriptionId (v : option Z).

Definition set (a : attribute) (o : t) : t :=
  {| id := id o;
     CollectiveId := CollectiveId o;
     FromCollectiveId := FromCollectiveId o;
     TierId := match a with SetTierId v => v | _ => TierId o end;
     SubscriptionId :=
       match a with SetSubscriptionId v => v | _ => SubscriptionId o end;
     PaymentMethodId :=
       match a with SetPaymentMethodId v => v | _ => PaymentMethodId o end;
     totalAmount := match a with SetTotalAmount v => v | _ => totalAmount o end;
     currency := currency o;
     interval := match a with SetInterval v => v | _ => interval o end;
     quantity := quantity o;
     status := match a with SetStatus v => v | _ => status o end;
     collective := collective o;
     paymentMethod := paymentMethod o;
     Subscription := Subscription o |}.

Definition assign (values : list attribute) (o : t) : t :=
  fold_left (fun acc a => set a acc) values o.

(** [order.Subscription = s]. *)
Definition withSubscription (s : option Subscription.t) (o : t) : t :=
  {| id := id o; CollectiveId := CollectiveId o;
     FromCollectiveId := FromCollectiveId o; TierId := TierId o;
     SubscriptionId := SubscriptionId o; PaymentMethodId := PaymentMethodId o;
     totalAmount := totalAmount o; currency := currency o;
     interval := interval o; quantity := quantity o; status := status o;
     collective := collective o; paymentMethod := paymentMethod o;
     Subscription := s |}.
End Order.

Module PaypalProduct.
Record t := {
  id : string;
  CollectiveId : Z;
  TierId : option Z
}.
End PaypalProduct.

Module PaypalPlan.
Record t := {
  id : string;
  ProductId : string;
  amount : Z;
  currency : string;
  interval : string
}.
End PaypalPlan.

(** ** The store *)

Record Store := {
  orders : gmap Z Order.t;
  subscriptions : gmap Z Subscription.t;
  paymentMethods : gmap Z PaymentMethod.t;
  paypalProducts : gmap string PaypalProduct.t;
  paypalPlans : gmap string PaypalPlan.t
}.

Definition withOrders (f : gmap Z Order.t -> gmap Z Order.t) (s : Store) : Store :=
  {| orders := f (orders s); subscriptions := subscriptions s;
     paymentMethods := paymentMethods s; paypalProducts := paypalProducts s;
     paypalPlans := paypalPlans s |}.

Definition withSubscriptions
    (f : gmap Z Subscription.t -> gmap Z Subscription.t) (s : Store) : Store :=
  {| orders := orders s; subscriptions := f (subscriptions s);
     paymentMethods := paymentMethods s; paypalProducts := paypalProducts s;
     paypalPlans := paypalPlans s |}.

Definition withPaymentMethods
    (f : gmap Z PaymentMethod.t -> gmap Z PaymentMethod.t) (s : Store) : Store :=
  {| orders := orders s; subscriptions := subscriptions s;
     paymentMethods := f (paymentMethods s); paypalProducts := paypalProducts s;
     paypalPlans := paypalPlans s |}.

Definition withPaypalProducts
    (f : gmap string PaypalProduct.t -> gmap string PaypalProduct.t)
    (s : Store) : Store :=
  {| orders := orders s; subscriptions := subscriptions s;
     paymentMethods := paymentMethods s; paypalProducts := f (paypalProducts s);
     paypalPlans := paypalPlans s |}.

Definition withPaypalPlans
    (f : gmap string PaypalPlan.t -> gmap string PaypalPlan.t) (s : Store) : Store :=
  {| orders := orders s; subscriptions := subscriptions s;
     paymentMethods := paymentMethods s; paypalProducts := paypalProducts s;
     paypalPlans := f (paypalPlans s) |}.

(** The key of the next row of a table with a serial primary key: above
    every key in use, and positive. *)
Definition nextId {A} (table : gmap Z A) : Z :=
  1 + foldr Z.max 0 (fst <$> map_to_list table).

(** [Model.findOne({ where })]: some row satisfying the condition. *)
Definition findOne {K} `{Countable K} {A} (where_ : A -> bool) (table : gmap K A)
    : option A :=
  snd <$> List.find (fun row => where_ (snd row)) (map_to_list table).

(** ** The PayPal gateway *)

Module Paypal.

Inductive ProductType := DIGITAL | SERVICE.
Inductive ProductCategory :=
  MERCHANDISE | MEMBERSHIP_CLUBS_AND_ORGANIZATIONS | NONPROFIT.

Inductive Method := GET | POST.

Record PricingScheme := {
  value : string;
  currency_code : string
}.

Record BillingCycle := {
  tenure_type : string;
  sequence : Z;
  total_cycles : Z;
  interval_count : Z;
  interval_unit : string;
  fixed_price : PricingScheme
}.

Inductive Body :=
| Null
| Cancel (reason : option string)
| Product (name description : string) (type : ProductType)
    (category : option ProductCategory) (image_url home_url : string)
| Plan (product_id name description : string)
    (billing_cycles : list BillingCycle)
    (auto_bill_outstanding : bool) (payment_failure_threshold : Z).

(** The arguments of one [paypalRequest(urlPath, body, hostCollective, method)]. *)
Record Request := {
  urlPath : string;
  body : Body;
  hostCollective : option Z;
  method : Method
}.

Record Subscriber := {
  email_address : string
}.

(** The parsed response, with the fields this code reads. *)
Record Response := {
  id : string;
  status : string;
  plan_id : string;
  subscriber : Subscriber
}.

End Paypal.

(** ** Exceptions *)

#[warnings="-register-all"]
Inductive Exception :=
| Error (message : string) (rootException : option Exception)
| Unauthorized (message : string)
| TypeError
| RequestError (message : string)
| DatabaseError
| UniqueConstraintError.

Inductive Result (A : Type) :=
| Ok (a : A)
| Throw (e : Exception).
Arguments Ok {A} a.
Arguments Throw {A} e.

(** ** Writes to the store *)

Inductive DbOp :=
| UpdateOrder (id : Z) (values : list Order.attribute)
| UpdateSubscription (id : Z) (values : list Subscription.attribute)
| UpdatePaymentMethod (id : Z) (values : list PaymentMethod.attribute)
| CreateSubscription (OrderId : Z) (row : Subscription.t)
| CreatePaymentMethod (row : PaymentMethod.t)
| CreatePaypalProduct (row : PaypalProduct.t)
| CreatePaypalPlan (row : PaypalPlan.t).

(** The effect of a write that the store accepts.  An update of an absent
    row changes nothing; a creation under a primary key already in use is
    refused. *)
Definition perform (op : DbOp) (s : Store) : Result Store :=
  match op with
  | UpdateOrder id values =>
      Ok (withOrders (alter (Order.assign values) id) s)
  | UpdateSubscription id values =>
      Ok (withSubscriptions (alter (Subscription.assign values) id) s)
  | UpdatePaymentMethod id values =>
      Ok (withPaymentMethods (alter (PaymentMethod.assign values) id) s)
  | CreateSubscription OrderId row =>
      match subscriptions s !! Subscription.id row with
      | Some _ => Throw UniqueConstraintError
      | None =>
          Ok (withOrders
                (alter (Order.set (Order.SetSubscriptionId (Some (Subscription.id row))))
                   OrderId)
                (withSubscriptions (insert (Subscription.id row) row) s))
      end
  | CreatePaymentMethod row =>
      match paymentMethods s !! PaymentMethod.id row with
      | Some _ => Throw UniqueConstraintError
      | None => Ok (withPaymentMethods (insert (PaymentMethod.id row) row) s)
      end
  | CreatePaypalProduct row =>
      match paypalProducts s !! PaypalProduct.id row with
      | Some _ => Throw UniqueConstraintError
      | None => Ok (withPaypalProducts (insert (PaypalProduct.id row) row) s)
      end
  | CreatePaypalPlan row =>
      match paypalPlans s !! PaypalPlan.id row with
      | Some _ => Throw UniqueConstraintError
      | None => Ok (withPaypalPlans (insert (PaypalPlan.id row) row) s)
      end
  end.

(** ** The world and the monad *)

Inductive Effect :=
| Requested (r : Paypal.Request)
| Wrote (op : DbOp).

Record World := {
  db : Store;
  log : list Effect;
  clockReads : nat
}.

Definition M (A : Type) : Type := World -> Result A * World.

Definition ret {A} (a : A) : M A := fun w => (Ok a, w).

Definition bind {A B} (m : M A) (k : A -> M B) : M B :=
  fun w =>
    match m w with
    | (Ok a, w') => k a w'
    | (Throw e, w') => (Throw e, w')
    end.

Definition throw {A} (e : Exception) : M A := fun w => (Throw e, w).

(** [try { body } catch (e) { handler }] *)
Definition tryCatch {A} (body : M A) (handler : Exception -> M A) : M A :=
  fun w =>
    match body w with
    | (Ok a, w') => (Ok a, w')
    | (Throw e, w') => handler e w'
    end.

Definition liftResult {A} (r : Result A) : M A := fun w => (r, w).

Definition gets {A} (f : Store -> A) : M A := fun w => (Ok (f (db w)), w).

(** [sequelize.transaction(async transaction => body)]: the writes of a body
    that throws are rolled back and the exception is passed on. *)
Definition transaction {A} (body : M A) : M A :=
  fun w =>
    match body w with
    | (Ok a, w') => (Ok a, w')
    | (Throw e, w') =>
        (Throw e, {| db := db w; log := log w'; clockReads := clockReads w' |})
    end.

Declare Scope monad_scope.
Delimit Scope monad_scope with monad.
Notation "x <- m ;; k" := (bind m (fun x => k))
  (at level 100, m at next level, right associativity) : monad_scope.
Notation "m ;; k" := (bind m (fun _ => k))
  (at level 100, right associativity) : monad_scope.
Local Open Scope monad_scope.

(** ** External collaborators *)

Record Features := {
  recurring : bool;
  isRecurringManagedExternally : bool
}.

Record PaymentProviderService := {
  features : Features
}.

Record Env := {
  (** the gateway's answer to a request, given what happened before it *)
  paypalRequest : list Effect -> Paypal.Request -> Result Paypal.Response;
  (** whether the store fails a write, given what happened before it *)
  dbFails : list Effect -> DbOp -> bool;
  (** the value of the [n]-th [new Date()] *)
  clock : nat -> Z;
  (** [models.Order.generateDescription] *)
  generateDescription : Collective.t -> Z -> string -> option Tier.t -> string;
  (** [config.host.images] *)
  config_host_images : string;
  (** [findPaymentMethodProvider] of [lib/payments] *)
  findPaymentMethodProvider : option PaymentMethod.t -> option PaymentProviderService
}.

Section Program.

Variable E : Env.

(** [await paypalRequest(...)]: the request is logged, then answered. *)
Definition request (r : Paypal.Request) : M Paypal.Response :=
  fun w =>
    (paypalRequest E (log w) r,
     {| db := db w; log := log w ++ [Requested r]; clockReads := clockReads w |}).

(** One write to the store: logged, then failed, refused or performed. *)
Definition write (op : DbOp) : M unit :=
  fun w =>
    let logged s := {| db := s; log := log w ++ [Wrote op]; clockReads := clockReads w |} in
    if dbFails E (log w) op then (Throw DatabaseError, logged (db w))
    else
      match perform op (db w) with
      | Ok s => (Ok tt, logged s)
      | Throw e => (Throw e, logged (db w))
      end.

(** [new Date()] *)
Definition newDate : M Z :=
  fun w =>
    (Ok (clock E (clockReads w)),
     {| db := db w; log := log w; clockReads := S (clockReads w) |}).

(** ** Instance methods *)

(** [order.getSubscription()] *)
Definition getSubscription (order : Order.t) : M (option Subscription.t) :=
  gets (fun s =>
          match Order.SubscriptionId order with
          | Some id => subscriptions s !! id
          | None => None
          end).

(** [order.update(values)] *)
Definition updateOrder (order : Order.t) (values : list Order.attribute)
    : M Order.t :=
  write (UpdateOrder (Order.id order) values);;
  ret (Order.assign values order).

(** [subscription.update(values)] *)
Definition updateSubscription (subscription : Subscription.t)
    (values : list Subscription.attribute) : M Subscription.t :=
  write (UpdateSubscription (Subscription.id subscription) values);;
  ret (Subscription.assign values subscription).

(** [paymentMethod.update(values)] *)
Definition updatePaymentMethod (paymentMethod : PaymentMethod.t)
    (values : list PaymentMethod.attribute) : M PaymentMethod.t :=
  write (UpdatePaymentMethod (PaymentMethod.id paymentMethod) values);;
  ret (PaymentMethod.assign values paymentMethod).

(** ** [paymentProviders/paypal/subscription.ts] *)

Definition subscriptionUrl (subscriptionId : string) : string :=
  "billing/subscriptions/" +:+ subscriptionId.

Definition cancelRequest (hostCollective : option Z) (subscriptionId : string)
    (reason : option string) : Paypal.Request :=
  {| Paypal.urlPath := subscriptionUrl subscriptionId +:+ "/cancel";
     Paypal.body := Paypal.Cancel reason;
     Paypal.hostCollective := hostCollective;
     Paypal.method := Paypal.POST |}.

Definition cancelPaypalSubscription (order : Order.t) (reason : option string)
    : M unit :=
  let hostCollective := Collective.getHostCollective (Order.collective order) in
  subscription <- getSubscription order;;
  match subscription with
  | None => throw TypeError
  | Some subscription =>
      request (cancelRequest hostCollective
                 (Js.interpolate (Subscription.paypalSubscriptionId subscription))
                 reason);;
      ret tt
  end.

(** [models.PaymentMethod.create]: the row gets the next key. *)
Definition createPaypalPaymentMethodForSubscription (order : Order.t)
    (user : User.t) (subscriptionId : string) : M PaymentMethod.t :=
  id <- gets (fun s => nextId (paymentMethods s));;
  let row :=
    {| PaymentMethod.id := id;
       PaymentMethod.service := PAYMENT_METHOD_SERVICE.PAYPAL;
       PaymentMethod.type := PAYMENT_METHOD_TYPE.SUBSCRIPTION;
       PaymentMethod.CreatedByUserId := Some (User.id user);
       PaymentMethod.CollectiveId := Some (Order.FromCollectiveId order);
       PaymentMethod.currency := Order.currency order;
       PaymentMethod.saved := false;
       PaymentMethod.token := subscriptionId;
       PaymentMethod.name := None |} in
  write (CreatePaymentMethod row);;
  ret row.

Definition getProductTypeAndCategory (tier : option Tier.t)
    : Paypal.ProductType * option Paypal.ProductCategory :=
  match Tier.type <$> tier with
  | Some TierType.TICKET => (Paypal.DIGITAL, None)
  | Some TierType.PRODUCT => (Paypal.DIGITAL, Some Paypal.MERCHANDISE)
  | Some TierType.SERVICE => (Paypal.SERVICE, None)
  | Some TierType.MEMBERSHIP =>
      (Paypal.DIGITAL, Some Paypal.MEMBERSHIP_CLUBS_AND_ORGANIZATIONS)
  | _ => (Paypal.DIGITAL, Some Paypal.NONPROFIT)
  end.

Definition getImageUrlForPaypal (collective : Collective.t) : string :=
  if Js.startsWith (config_host_images E) "http://localhost" then
    "https://images.opencollective.com/opencollective/logo/256.png"
  else Collective.imageUrl collective.

Definition productRequest (host : Collective.t) (collective : Collective.t)
    (tier : option Tier.t) : Paypal.Request :=
  let '(type, category) := getProductTypeAndCategory tier in
  {| Paypal.urlPath := "catalogs/products";
     Paypal.body :=
       Paypal.Product
         ("Financial contribution to " +:+ Collective.name collective)
         ("Financial contribution to " +:+ Collective.name collective)
         type category
         (getImageUrlForPaypal collective)
         ("https://opencollective.com/" +:+ Collective.slug collective);
     Paypal.hostCollective := Some (Collective.id host);
     Paypal.method := Paypal.POST |}.

Definition createPaypalProduct (host collective : Collective.t)
    (tier : option Tier.t) : M Paypal.Response :=
  request (productRequest host collective tier).

(** [(amount / 100).toString()], the amount being the Number of an
    integer. *)
Definition amountToString (amount : Z) : string :=
  Js.numberToString (Js.divide (Js.ofZ amount) (Js.ofZ 100)).

Definition planRequest (host collective : Collective.t) (productId : string)
    (interval : string) (amount : Z) (currency : string) (tier : option Tier.t)
    : Paypal.Request :=
  let description := generateDescription E collective amount interval tier in
  {| Paypal.urlPath := "billing/plans";
     Paypal.body :=
       Paypal.Plan productId description description
         [ {| Paypal.tenure_type := "REGULAR";
              Paypal.sequence := 1;
              Paypal.total_cycles := 0;
              Paypal.interval_count := 1;
              Paypal.interval_unit := Js.toUpperCase interval;
              Paypal.fixed_price :=
                {| Paypal.value := amountToString amount;
                   Paypal.currency_code := currency |} |} ]
         true 4;
     Paypal.hostCollective := Some (Collective.id host);
     Paypal.method := Paypal.POST |}.

Definition createPaypalPlan (host collective : Collective.t) (productId : string)
    (interval : string) (amount : Z) (currency : string) (tier : option Tier.t)
    : M Paypal.Response :=
  request (planRequest host collective productId interval amount currency tier).

(** [tier?.id || null] *)
Definition tierIdOrNull (tier : option Tier.t) : option Z :=
  match tier with
  | Some t => if Z.eqb (Tier.id t) 0 then None else Some (Tier.id t)
  | None => None
  end.

(** The [where] of the product lookup. *)
Definition productWhere (CollectiveId : Z) (TierId : option Z)
    (p : PaypalProduct.t) : bool :=
  Z.eqb (PaypalProduct.CollectiveId p) CollectiveId
  && Js.strictEq Z.eqb (PaypalProduct.TierId p) TierId.

(** The plans included with a product: its own, [where] currency, interval
    and amount are the given ones. *)
Definition planWhere (ProductId : string) (currency interval : string) (amount : Z)
    (p : PaypalPlan.t) : bool :=
  String.eqb (PaypalPlan.ProductId p) ProductId
  && String.eqb (PaypalPlan.currency p) currency
  && String.eqb (PaypalPlan.interval p) interval
  && Z.eqb (PaypalPlan.amount p) amount.

(** When neither exists, the plan is created with its product included
    ([include: [{ association: 'product' }]]): the plan belongs to the
    product, so the product is inserted first and the plan after it, each
    by a statement of its own; no transaction is given to [create]. *)
Definition getOrCreatePlan (host collective : Collective.t) (interval : string)
    (amount : Z) (currency : string) (tier : option Tier.t) : M PaypalPlan.t :=
  product <- gets (fun s =>
               findOne (productWhere (Collective.id collective) (tierIdOrNull tier))
                 (paypalProducts s));;
  match product with
  | Some product =>
      plan0 <- gets (fun s =>
                 findOne (planWhere (PaypalProduct.id product) currency interval amount)
                   (paypalPlans s));;
      match plan0 with
      | Some plan => ret plan
      | None =>
          paypalPlan <- createPaypalPlan host collective (PaypalProduct.id product)
                          interval amount currency tier;;
          let row :=
            {| PaypalPlan.id := Paypal.id paypalPlan;
               PaypalPlan.ProductId := PaypalProduct.id product;
               PaypalPlan.amount := amount;
               PaypalPlan.currency := currency;
               PaypalPlan.interval := interval |} in
          write (CreatePaypalPlan row);;
          ret row
      end
  | None =>
      paypalProduct <- createPaypalProduct host collective tier;;
      paypalPlan <- createPaypalPlan host collective (Paypal.id paypalProduct)
                      interval amount currency tier;;
      let product :=
        {| PaypalProduct.id := Paypal.id paypalProduct;
           PaypalProduct.CollectiveId := Collective.id collective;
           PaypalProduct.TierId := Tier.id <$> tier |} in
      let row :=
        {| PaypalPlan.id := Paypal.id paypalPlan;
           PaypalPlan.ProductId := Paypal.id paypalProduct;
           PaypalPlan.amount := amount;
           PaypalPlan.currency := currency;
           PaypalPlan.interval := interval |} in
      write (CreatePaypalProduct product);;
      write (CreatePaypalPlan row);;
      ret row
  end.

(** The values given to [order.createSubscription], under the key the row
    gets. *)
Definition subscriptionValues (order : Order.t) (paypalSubscriptionId : string)
    (id nextChargeDate nextPeriodStart : Z) : Subscription.t :=
  {| Subscription.id := id;
     Subscription.amount := Order.totalAmount order;
     Subscription.currency := Order.currency order;
     Subscription.interval := Order.interval order;
     Subscription.quantity := Order.quantity order;
     Subscription.isActive := false;
     Subscription.isManagedExternally := true;
     Subscription.stripeSubscriptionId := None;
     Subscription.paypalSubscriptionId := Some paypalSubscriptionId;
     Subscription.nextChargeDate := Some nextChargeDate;
     Subscription.nextPeriodStart := Some nextPeriodStart;
     Subscription.chargeNumber := Some 0 |}.

(** [order.createSubscription(values)]: the row gets the next key and the
    order is linked to it. *)
Definition createSubscription (order : Order.t) (paypalSubscriptionId : string)
    : M Subscription.t :=
  nextChargeDate <- newDate;;
  nextPeriodStart <- newDate;;
  id <- gets (fun s => nextId (subscriptions s));;
  let row :=
    subscriptionValues order paypalSubscriptionId id nextChargeDate nextPeriodStart in
  write (CreateSubscription (Order.id order) row);;
  ret row.

Definition fetchRequest (hostCollective : option Z) (subscriptionId : string)
    : Paypal.Request :=
  {| Paypal.urlPath := subscriptionUrl subscriptionId;
     Paypal.body := Paypal.Null;
     Paypal.hostCollective := hostCollective;
     Paypal.method := Paypal.GET |}.

Definition fetchPaypalSubscription (hostCollective : option Z)
    (subscriptionId : string) : M Paypal.Response :=
  request (fetchRequest hostCollective subscriptionId).

(** The plan of the given id, joined with its product, [where] the product
    is the one of the order's collective and tier. *)
Definition findPlanForOrder (order : Order.t) (plan_id : string) (s : Store)
    : option PaypalPlan.t :=
  match paypalPlans s !! plan_id with
  | Some plan =>
      match paypalProducts s !! PaypalPlan.ProductId plan with
      | Some product =>
          if productWhere (Order.CollectiveId order) (Order.TierId order) product
          then Some plan else None
      | None => None
      end
  | None => None
  end.

Definition verifySubscription (order : Order.t)
    (paypalSubscription : Paypal.Response) : M unit :=
  if negb (String.eqb (Paypal.status paypalSubscription) "APPROVED") then
    throw (Error "Subscription must be approved to be activated" None)
  else
    plan <- gets (findPlanForOrder order (Paypal.plan_id paypalSubscription));;
    match plan with
    | None =>
        throw (Error ("PayPal plan does not match the subscription (#"
                        +:+ Paypal.id paypalSubscription +:+ ")") None)
    | Some plan =>
        if negb (Z.eqb (PaypalPlan.amount plan) (Order.totalAmount order)) then
          throw (Error "The plan amount does not match the order amount" None)
        else ret tt
    end.

Definition activateRequest (hostCollective : option Z) (subscriptionId : string)
    : Paypal.Request :=
  {| Paypal.urlPath := subscriptionUrl subscriptionId +:+ "/activate";
     Paypal.body := Paypal.Null;
     Paypal.hostCollective := hostCollective;
     Paypal.method := Paypal.POST |}.

(** The values written to a subscription that moves to PayPal. *)
Definition paypalSubscriptionParams (paypalSubscriptionId : string)
    : list Subscription.attribute :=
  [Subscription.IsManagedExternally true;
   Subscription.StripeSubscriptionId None;
   Subscription.PaypalSubscriptionId (Some paypalSubscriptionId)].

(** The [if (existingSubscription) ... else ...] of the [try] block: the
    existing subscription is moved to the new PayPal subscription, after
    the cancellation of the PayPal subscription it had, or a subscription
    is created. *)
Definition persistSubscription (order : Order.t) (paypalSubscriptionId : string)
    (existingSubscription : option Subscription.t) : M Order.t :=
  match existingSubscription with
  | Some existingSubscription =>
      (if Js.truthyString (Subscription.paypalSubscriptionId existingSubscription)
       then cancelPaypalSubscription order (Some "Changed payment method")
       else ret tt);;
      updateSubscription existingSubscription
        (paypalSubscriptionParams paypalSubscriptionId);;
      ret order
  | None =>
      created <- createSubscription order paypalSubscriptionId;;
      ret (Order.set (Order.SetSubscriptionId (Some (Subscription.id created))) order)
  end.

(** The body of the [try] block. *)
Definition activationSteps (order : Order.t) (paymentMethod : PaymentMethod.t)
    (hostCollective : option Z) (existingSubscription : option Subscription.t)
    : M Order.t :=
  let paypalSubscriptionId := PaymentMethod.token paymentMethod in
  newPaypalSubscription <- fetchPaypalSubscription hostCollective paypalSubscriptionId;;
  verifySubscription order newPaypalSubscription;;
  updatePaymentMethod paymentMethod
    [PaymentMethod.Name
       (Some (Paypal.email_address (Paypal.subscriber newPaypalSubscription)))];;
  order <- persistSubscription order paypalSubscriptionId existingSubscription;;
  request (activateRequest hostCollective paypalSubscriptionId);;
  ret order.

(** The body of the [catch] block. *)
Definition restoreAndRethrow (existingSubscription : option Subscription.t)
    (initialSubscriptionParams : list Subscription.attribute) (e : Exception)
    : M Order.t :=
  match existingSubscription with
  | Some existingSubscription =>
      updateSubscription existingSubscription initialSubscriptionParams;;
      ret tt
  | None => ret tt
  end;;
  throw (Error "Failed to activate PayPal subscription" (Some e)).

Definition setupPaypalSubscriptionForOrder (order : Order.t)
    (paymentMethod : PaymentMethod.t) : M Order.t :=
  let hostCollective := Collective.getHostCollective (Order.collective order) in
  existingSubscription <-
    (if Js.truthyNumber (Order.SubscriptionId order) then getSubscription order
     else ret None);;
  let initialSubscriptionParams :=
    Subscription.pickProviderFields existingSubscription in
  tryCatch
    (activationSteps order paymentMethod hostCollective existingSubscription)
    (restoreAndRethrow existingSubscription initialSubscriptionParams).

Definition isPaypalSubscriptionPaymentMethod (paymentMethod : option PaymentMethod.t)
    : bool :=
  match paymentMethod with
  | Some pm =>
      String.eqb (PaymentMethod.service pm) PAYMENT_METHOD_SERVICE.PAYPAL
      && String.eqb (PaymentMethod.type pm) PAYMENT_METHOD_TYPE.SUBSCRIPTION
  | None => false
  end.

Definition PayPalSubscription : PaymentProviderService :=
  {| features := {| recurring := true; isRecurringManagedExternally := true |} |}.

(** ** [lib/subscriptions.ts] *)

Definition updateSubscriptionWithPaypal (user : User.t) (order : Order.t)
    (paypalSubscriptionId : string) : M Order.t :=
  paymentMethod <-
    createPaypalPaymentMethodForSubscription order user paypalSubscriptionId;;
  order <- setupPaypalSubscriptionForOrder order paymentMethod;;
  updateOrder order
    [Order.SetPaymentMethodId (Some (PaymentMethod.id paymentMethod))].

Definition getIsSubscriptionManagedExternally (pm : option PaymentMethod.t) : bool :=
  match findPaymentMethodProvider E pm with
  | Some provider => isRecurringManagedExternally (features provider)
  | None => false
  end.

(** [order.Subscription.update(values)] on the loaded association; the
    instance is updated in place. *)
Definition updateLoadedSubscription (order : Order.t)
    (values : list Subscription.attribute) : M Order.t :=
  match Order.Subscription order with
  | None => throw TypeError
  | Some subscription =>
      subscription <- updateSubscription subscription values;;
      ret (Order.withSubscription (Some subscription) order)
  end.

Definition updatePaymentMethodForSubscription (user : User.t) (order : Order.t)
    (newPaymentMethod : PaymentMethod.t) : M Order.t :=
  let prevPaymentMethod := Order.paymentMethod order in
  let newPaymentMethodCollective := PaymentMethod.CollectiveId newPaymentMethod in
  if negb (User.isAdminOfCollective user newPaymentMethodCollective) then
    throw (Unauthorized "You don't have permission to use this payment method")
  else
    let newStatus :=
      if OrderStatus.eqb (Order.status order) OrderStatus.ERROR
      then OrderStatus.ACTIVE else Order.status order in
    let wasManagedExternally := getIsSubscriptionManagedExternally prevPaymentMethod in
    let isManagedExternally :=
      getIsSubscriptionManagedExternally (Some newPaymentMethod) in
    transaction
      (order <- updateOrder order
                  [Order.SetPaymentMethodId (Some (PaymentMethod.id newPaymentMethod));
                   Order.SetStatus newStatus];;
       if negb (Bool.eqb wasManagedExternally isManagedExternally) then
         updateLoadedSubscription order
           [Subscription.IsManagedExternally isManagedExternally;
            Subscription.PaypalSubscriptionId None]
       else ret order).

(** [tier && cond]: false when no tier is given. *)
Definition tierAnd (tier : option Tier.t) (cond : Tier.t -> bool) : bool :=
  match tier with
  | Some t => cond t
  | None => false
  end.

Definition tierMismatchMessage (tier : option Tier.t) (order : Order.t) : string :=
  "This tier (#" +:+ Js.interpolate (Js.integerToString <$> (Tier.id <$> tier))
    +:+ ") doesn't belong to the given Collective #"
    +:+ Js.integerToString (Order.CollectiveId order).

Definition checkSubscriptionDetails (order : Order.t) (tier : option Tier.t)
    (amountInCents : Z) : Result unit :=
  if tierAnd tier (fun t => negb (Z.eqb (Tier.CollectiveId t) (Order.CollectiveId order)))
  then Throw (Error (tierMismatchMessage tier order) None)
  else if Z.ltb amountInCents 100
  then Throw (Error "Invalid amount." None)
  else if tierAnd tier (fun t => String.eqb (Tier.amountType t) "FLEXIBLE"
                                 && Js.ltNullable amountInCents (Tier.minimumAmount t))
  then Throw (Error "Amount is less than minimum value allowed for this Tier." None)
  else if tierAnd tier (fun t => String.eqb (Tier.amountType t) "FIXED"
                                 && Js.ltNullable amountInCents (Tier.amount t))
  then Throw (Error "Amount is incorrect for this Tier." None)
  else Ok tt.

(** [tier?.interval && tier.interval !== 'flexible'] selects the tier's
    interval; otherwise the order keeps its own. *)
Definition newIntervalFor (order : Order.t) (tier : option Tier.t) : option string :=
  match tier with
  | Some t =>
      if Js.truthyString (Tier.interval t)
         && negb (Js.strictEq String.eqb (Tier.interval t) (Some "flexible"))
      then Tier.interval t
      else Order.interval order
  | None => Order.interval order
  end.

Definition updateSubscriptionDetails (user : User.t) (order : Order.t)
    (tier : option Tier.t) (amountInCents : Z) : M Order.t :=
  liftResult (checkSubscriptionDetails order tier amountInCents);;
  order <-
    (if negb (Z.eqb amountInCents (Order.totalAmount order)) then
       order <- updateOrder order [Order.SetTotalAmount amountInCents];;
       updateLoadedSubscription order [Subscription.Amount amountInCents]
     else ret order);;
  let newInterval := newIntervalFor order tier in
  order <-
    (if negb (Js.strictEq String.eqb newInterval (Order.interval order)) then
       order <- updateOrder order [Order.SetInterval newInterval];;
       updateLoadedSubscription order [Subscription.Interval newInterval]
     else ret order);;
  let tierToUpdateWith := Tier.id <$> tier in
  updateOrder order [Order.SetTierId tierToUpdateWith].

End Program.

(** ** Sample data

    A host that is its own collective, with one product and a monthly plan
    of 1000; an order of 1000 on it; an approved PayPal subscription
    [I-NEW] on that plan. *)

Module Sample.

Definition host : Collective.t :=
  {| Collective.id := 1; Collective.name := "Host"; Collective.slug := "host";
     Collective.imageUrl := "https://images.example.org/host.png";
     Collective.HostCollectiveId := Some 1 |}.

Definition product : PaypalProduct.t :=
  {| PaypalProduct.id := "PROD-1"; PaypalProduct.CollectiveId := 1;
     PaypalProduct.TierId := None |}.

Definition plan : PaypalPlan.t :=
  {| PaypalPlan.id := "P-1000"; PaypalPlan.ProductId := "PROD-1";
     PaypalPlan.amount := 1000; PaypalPlan.currency := "USD";
     PaypalPlan.interval := "month" |}.

Definition approved : Paypal.Response :=
  {| Paypal.id := "I-NEW"; Paypal.status := "APPROVED";
     Paypal.plan_id := "P-1000";
     Paypal.subscriber := {| Paypal.email_address := "payer@example.org" |} |}.

Definition paymentMethod (token : string) : PaymentMethod.t :=
  {| PaymentMethod.id := 7; PaymentMethod.service := "paypal";
     PaymentMethod.type := "subscription";
     PaymentMethod.CreatedByUserId := Some 2;
     PaymentMethod.CollectiveId := Some 2;
     PaymentMethod.currency := "USD"; PaymentMethod.saved := false;
     PaymentMethod.token := token; PaymentMethod.name := None |}.

(** A subscription formerly charged through the PayPal subscription [I-OLD]. *)
Definition subscription : Subscription.t :=
  {| Subscription.id := 3; Subscription.amount := 1000;
     Subscription.currency := "USD"; Subscription.interval := Some "month";
     Subscription.quantity := Some 1; Subscription.isActive := true;
     Subscription.isManagedExternally := true;
     Subscription.stripeSubscriptionId := None;
     Subscription.paypalSubscriptionId := Some "I-OLD";
     Subscription.nextChargeDate := Some 1700000000;
     Subscription.nextPeriodStart := Some 1700000000;
     Subscription.chargeNumber := Some 5 |}.

Definition order (SubscriptionId : option Z) (totalAmount : Z) : Order.t :=
  {| Order.id := 10; Order.CollectiveId := 1; Order.FromCollectiveId := 2;
     Order.TierId := None; Order.SubscriptionId := SubscriptionId;
     Order.PaymentMethodId := Some 7; Order.totalAmount := totalAmount;
     Order.currency := "USD"; Order.interval := Some "month";
     Order.quantity := Some 1; Order.status := OrderStatus.ACTIVE;
     Order.collective := host;
     Order.paymentMethod := Some (paymentMethod "I-NEW");
     Order.Subscription :=
       match SubscriptionId with Some _ => Some subscription | None => None end |}.

(** The contributor, administrator of the collective 2 that owns the
    payment method. *)
Definition user : User.t := {| User.id := 2; User.adminOf := [2] |}.

(** A tier of the given collective. *)
Definition tier (CollectiveId : Z) (amountType : string)
    (amount minimumAmount : option Z) : Tier.t :=
  {| Tier.id := 4; Tier.CollectiveId := CollectiveId;
     Tier.type := TierType.TIER; Tier.amountType := amountType;
     Tier.amount := amount; Tier.minimumAmount := minimumAmount;
     Tier.interval := Some "month" |}.

Definition newOrder : Order.t := order None 1000.
Definition recurringOrder : Order.t := order (Some 3) 1000.

Definition catalog : Store :=
  {| orders := {[ 10 := newOrder ]};
     subscriptions := ∅;
     paymentMethods := {[ 7 := paymentMethod "I-NEW" ]};
     paypalProducts := {[ "PROD-1" := product ]};
     paypalPlans := {[ "P-1000" := plan ]} |}.

Definition recurring : Store :=
  {| orders := {[ 10 := recurringOrder ]};
     subscriptions := {[ 3 := subscription ]};
     paymentMethods := {[ 7 := paymentMethod "I-NEW" ]};
     paypalProducts := {[ "PROD-1" := product ]};
     paypalPlans := {[ "P-1000" := plan ]} |}.

Definition empty : Store :=
  {| orders := ∅; subscriptions := ∅; paymentMethods := ∅;
     paypalProducts := ∅; paypalPlans := ∅ |}.

Definition start (s : Store) : World :=
  {| db := s; log := []; clockReads := 0 |}.

(** The gateway answers every request with the approved subscription,
    except the requests of the given paths, which it fails. *)
Definition gateway (failing : list string) (history : list Effect)
    (r : Paypal.Request) : Result Paypal.Response :=
  if existsb (String.eqb (Paypal.urlPath r)) failing
  then Throw (RequestError "PayPal request failed")
  else Ok approved.

(** The gateway names what it creates: a product [PROD-9], a plan [P-9]. *)
Definition catalogGateway (history : list Effect) (r : Paypal.Request)
    : Result Paypal.Response :=
  Ok {| Paypal.id :=
          if String.eqb (Paypal.urlPath r) "catalogs/products"
          then "PROD-9" else "P-9";
        Paypal.status := "ACTIVE"; Paypal.plan_id := "";
        Paypal.subscriber := {| Paypal.email_address := "" |} |}.

Definition isSubscriptionUpdate (op : DbOp) : bool :=
  match op with
  | UpdateSubscription _ _ => true
  | _ => false
  end.

Definition env
    (paypalRequest : list Effect -> Paypal.Request -> Result Paypal.Response)
    (dbFails : list Effect -> DbOp -> bool) : Env :=
  {| paypalRequest := paypalRequest;
     dbFails := dbFails;
     clock := fun n => 1700000000 + Z.of_nat n;
     generateDescription := fun collective _ _ _ =>
       "Monthly financial contribution to " +:+ Collective.name collective;
     config_host_images := "https://images.example.org";
     findPaymentMethodProvider := fun pm =>
       if isPaypalSubscriptionPaymentMethod pm then Some PayPalSubscription
       else None |}.

(** Everything works. *)
Definition reliable : Env := env (gateway []) (fun _ _ => false).

(** The cancellation of [I-OLD] fails. *)
Definition cancelFails : Env :=
  env (gateway ["billing/subscriptions/I-OLD/cancel"]) (fun _ _ => false).

(** The activation of [I-NEW] fails. *)
Definition activateFails : Env :=
  env (gateway ["billing/subscriptions/I-NEW/activate"]) (fun _ _ => false).

(** The store fails every update of a subscription. *)
Definition subscriptionWritesFail : Env :=
  env (gateway []) (fun _ op => isSubscriptionUpdate op).

Definition reliableCatalog : Env := env catalogGateway (fun _ _ => false).

Definition createdProduct : Paypal.Response := 
  {| Paypal.id := "PROD-9"; Paypal.status := "ACTIVE"; Paypal.plan_id := "";
     Paypal.subscriber := {| Paypal.email_address := "" |} |}.

Definition createdPlan : Paypal.Response := 
  {| Paypal.id := "P-9"; Paypal.status := "ACTIVE"; Paypal.plan_id := "";
     Paypal.subscriber := {| Paypal.email_address := "" |} |}.

Definition flexibleTier : Tier.t := tier 1 "FLEXIBLE" None (Some 200).

(** The same order, yearly and in euros. *)
Definition yearlyOrder : Order.t :=
  {| Order.id := 10; Order.CollectiveId := 1; Order.FromCollectiveId := 2;
     Order.TierId := None; Order.SubscriptionId := None;
     Order.PaymentMethodId := Some 7; Order.totalAmount := 1000;
     Order.currency := "EUR"; Order.interval := Some "year";
     Order.quantity := Some 1; Order.status := OrderStatus.ACTIVE;
     Order.collective := host;
     Order.paymentMethod := Some (paymentMethod "I-NEW");
     Order.Subscription := None |}.

(** A plan with the same product and amount, monthly and in dollars
    whatever it was. *)
Definition monthlyDollars (p : PaypalPlan.t) : PaypalPlan.t :=
  {| PaypalPlan.id := PaypalPlan.id p; PaypalPlan.ProductId := PaypalPlan.ProductId p;
     PaypalPlan.amount := PaypalPlan.amount p; PaypalPlan.currency := "USD";
     PaypalPlan.interval := "month" |}.

(** The gateway creates products and fails the creation of plans. *)
Definition plansFail : Env :=
  env (fun history r =>
         if String.eqb (Paypal.urlPath r) "billing/plans"
         then Throw (RequestError "PayPal request failed")
         else catalogGateway history r)
      (fun _ _ => false).

Definition isActivation (e : Effect) : bool :=
  match e with
  | Requested r => String.eqb (Paypal.urlPath r) "billing/subscriptions/I-NEW/activate"
  | Wrote _ => false
  end.

(** The activation of [I-NEW] fails, and from then on the store fails the
    updates of subscriptions. *)
Definition restoreFails : Env :=
  env (gateway ["billing/subscriptions/I-NEW/activate"])
      (fun history op => isSubscriptionUpdate op && existsb isActivation history).

(** A credit card of the contributor, which no provider manages externally. *)
Definition creditCard : PaymentMethod.t :=
  {| PaymentMethod.id := 8; PaymentMethod.service := "stripe";
     PaymentMethod.type := "creditcard";
     PaymentMethod.CreatedByUserId := Some 2;
     PaymentMethod.CollectiveId := Some 2;
     PaymentMethod.currency := "USD"; PaymentMethod.saved := true;
     PaymentMethod.token := "tok_visa"; PaymentMethod.name := Some "4242" |}.

(** Somebody else. *)
Definition stranger : User.t := {| User.id := 5; User.adminOf := [5] |}.

(** The recurring order, in error. *)
Definition failedOrder : Order.t :=
  Order.set (Order.SetStatus OrderStatus.ERROR) recurringOrder.

End Sample.

(** * Vocabulary of the specification *)

(** A local plan of the given external id whose product is the one of the
    order's collective and tier. *)
Definition matchingPlan (s : Store) (order : Order.t) (plan_id : string)
    (plan : PaypalPlan.t) : Prop :=
  paypalPlans s !! plan_id = Some plan /\
  exists product,
    paypalProducts s !! PaypalPlan.ProductId plan = Some product /\
    PaypalProduct.CollectiveId product = Order.CollectiveId order /\
    PaypalProduct.TierId product = Order.TierId order.

(** The refusals of the verifier, in the order of its checks. *)
Definition notApproved : Exception :=
  Error "Subscription must be approved to be activated" None.

Definition planMismatch (paypalSubscription : Paypal.Response) : Exception :=
  Error ("PayPal plan does not match the subscription (#"
           +:+ Paypal.id paypalSubscription +:+ ")") None.

Definition amountMismatch : Exception :=
  Error "The plan amount does not match the order amount" None.

Inductive VerificationError (paypalSubscription : Paypal.Response)
    : Exception -> Prop :=
| VerificationNotApproved : VerificationError paypalSubscription notApproved
| VerificationPlanMismatch :
    VerificationError paypalSubscription (planMismatch paypalSubscription)
| VerificationAmountMismatch : VerificationError paypalSubscription amountMismatch.

(** The world after more effects, with the given tables. *)
Definition after (w : World) (effects : list Effect) (s : Store) : World :=
  {| db := s; log := log w ++ effects; clockReads := clockReads w |}.

(** The order refers to a row of the subscriptions table, stored under its
    own key. *)
Definition hasSubscription (s : Store) (order : Order.t)
    (subscription : Subscription.t) : Prop :=
  Order.SubscriptionId order = Some (Subscription.id subscription) /\
  Subscription.id subscription <> 0 /\
  subscriptions s !! Subscription.id subscription = Some subscription.

(** [order.SubscriptionId && (await order.getSubscription())] *)
Definition existingSubscriptionOf (s : Store) (order : Order.t)
    : option Subscription.t :=
  if Js.truthyNumber (Order.SubscriptionId order) then
    match Order.SubscriptionId order with
    | Some id => subscriptions s !! id
    | None => None
    end
  else None.

(** The name that activation gives to the payment method. *)
Definition subscriberName (paypalSubscription : Paypal.Response)
    : list PaymentMethod.attribute :=
  [PaymentMethod.Name
     (Some (Paypal.email_address (Paypal.subscriber paypalSubscription)))].

(** The tier, if any, has the key of a stored row: keys are serial and start
    at 1. *)
Definition storedTier (tier : option Tier.t) : Prop :=
  forall t, tier = Some t -> 0 < Tier.id t.

(** No product is recorded for the collective and the tier, or absence of
    tier. *)
Definition noProduct (s : Store) (collective : Collective.t)
    (tier : option Tier.t) : Prop :=
  forall k product,
    paypalProducts s !! k = Some product ->
    ~ (PaypalProduct.CollectiveId product = Collective.id collective /\
       PaypalProduct.TierId product = Tier.id <$> tier).

(** Every plan refers to a recorded product. *)
Definition plansBelongToProducts (s : Store) : Prop :=
  forall k plan,
    paypalPlans s !! k = Some plan ->
    is_Some (paypalProducts s !! PaypalPlan.ProductId plan).

(** The error of a failed activation: it carries its cause. *)
Definition activationError (cause : Exception) : Exception :=
  Error "Failed to activate PayPal subscription" (Some cause).

(** The refusals of a change of amount or tier: an [Error] with one of four
    reasons and no cause. *)
Inductive ValidationError (order : Order.t) (tier : option Tier.t)
    : Exception -> Prop :=
| ValidationTier :
    ValidationError order tier (Error (tierMismatchMessage tier order) None)
| ValidationAmount : ValidationError order tier (Error "Invalid amount." None)
| ValidationMinimum :
    ValidationError order tier
      (Error "Amount is less than minimum value allowed for this Tier." None)
| ValidationFixed :
    ValidationError order tier (Error "Amount is incorrect for this Tier." None).

(** The terms that a change of amount or tier must refuse. *)
Definition rejected (order : Order.t) (tier : option Tier.t) (amountInCents : Z)
    : Prop :=
  amountInCents < 100 \/
  exists t, tier = Some t /\
    (Tier.CollectiveId t <> Order.CollectiveId order
     \/ (Tier.amountType t = "FLEXIBLE" /\
         exists minimum, Tier.minimumAmount t = Some minimum /\ amountInCents < minimum)
     \/ (Tier.amountType t = "FIXED" /\
         exists fixed, Tier.amount t = Some fixed /\ amountInCents < fixed)).

(** ** The catalog of products and plans *)

(** Every product is stored under its own id. *)
Definition productsUnderOwnId (s : Store) : Prop :=
  forall k product, paypalProducts s !! k = Some product -> PaypalProduct.id product = k.

(** At most one product for a collective and a tier, or absence of tier. *)
Definition uniqueProducts (s : Store) : Prop :=
  forall k1 k2 p1 p2,
    paypalProducts s !! k1 = Some p1 ->
    paypalProducts s !! k2 = Some p2 ->
    PaypalProduct.CollectiveId p1 = PaypalProduct.CollectiveId p2 ->
    PaypalProduct.TierId p1 = PaypalProduct.TierId p2 ->
    k1 = k2.

(** At most one plan for a product, an amount, a currency and an interval. *)
Definition uniquePlans (s : Store) : Prop :=
  forall k1 k2 p1 p2,
    paypalPlans s !! k1 = Some p1 ->
    paypalPlans s !! k2 = Some p2 ->
    PaypalPlan.ProductId p1 = PaypalPlan.ProductId p2 ->
    PaypalPlan.amount p1 = PaypalPlan.amount p2 ->
    PaypalPlan.currency p1 = PaypalPlan.currency p2 ->
    PaypalPlan.interval p1 = PaypalPlan.interval p2 ->
    k1 = k2.

Definition catalogInvariant (s : Store) : Prop :=
  productsUnderOwnId s /\ uniqueProducts s /\ uniquePlans s /\ plansBelongToProducts s.

(** The plan recorded for what the gateway created. *)
Definition planRow (created : Paypal.Response) (ProductId : string) (amount : Z)
    (currency interval : string) : PaypalPlan.t :=
  {| PaypalPlan.id := Paypal.id created;
     PaypalPlan.ProductId := ProductId;
     PaypalPlan.amount := amount;
     PaypalPlan.currency := currency;
     PaypalPlan.interval := interval |}.

(** The product recorded for what the gateway created. *)
Definition productRow (created : Paypal.Response) (collective : Collective.t)
    (tier : option Tier.t) : PaypalProduct.t :=
  {| PaypalProduct.id := Paypal.id created;
     PaypalProduct.CollectiveId := Collective.id collective;
     PaypalProduct.TierId := Tier.id <$> tier |}.

(** What an activation leaves alone: the plans and the products, the
    payment methods other than the one given, the orders other than the one
    given, and the subscriptions other than the one the order had. *)
Definition activationFrame (order : Order.t) (paymentMethod : PaymentMethod.t)
    (existing : option Subscription.t) (s s' : Store) : Prop :=
  paypalPlans s' = paypalPlans s /\
  paypalProducts s' = paypalProducts s /\
  (forall k, k <> PaymentMethod.id paymentMethod ->
             paymentMethods s' !! k = paymentMethods s !! k) /\
  (forall k, k <> Order.id order -> orders s' !! k = orders s !! k) /\
  (forall k row,
     subscriptions s !! k = Some row ->
     (forall subscription, existing = Some subscription ->
                           k <> Subscription.id subscription) ->
     subscriptions s' !! k = Some row).

(** The status of an order after a change of payment method: an order in
    error becomes active. *)
Definition normalizedStatus (order : Order.t) : OrderStatus.t :=
  if OrderStatus.eqb (Order.status order) OrderStatus.ERROR
  then OrderStatus.ACTIVE else Order.status order.

(** What a change of payment method writes to the order. *)
Definition paymentMethodValues (order : Order.t) (newPaymentMethod : PaymentMethod.t)
    : list Order.attribute :=
  [Order.SetPaymentMethodId (Some (PaymentMethod.id newPaymentMethod));
   Order.SetStatus (normalizedStatus order)].

(** The payment method recorded for a PayPal subscription, under the key it
    gets. *)
Definition paypalPaymentMethodRow (order : Order.t) (user : User.t)
    (subscriptionId : string) (id : Z) : PaymentMethod.t :=
  {| PaymentMethod.id := id;
     PaymentMethod.service := PAYMENT_METHOD_SERVICE.PAYPAL;
     PaymentMethod.type := PAYMENT_METHOD_TYPE.SUBSCRIPTION;
     PaymentMethod.CreatedByUserId := Some (User.id user);
     PaymentMethod.CollectiveId := Some (Order.FromCollectiveId order);
     PaymentMethod.currency := Order.currency order;
     PaymentMethod.saved := false;
     PaymentMethod.token := subscriptionId;
     PaymentMethod.name := None |}.

(** ** What a computation keeps and what it logs *)

(** The computation keeps a property of the tables, whatever its outcome. *)
Definition preserves {A} (P : Store -> Prop) (m : M A) : Prop :=
  forall w r w', m w = (r, w') -> P (db w) -> P (db w').

(** The computation only adds to the log, and what it adds satisfies [allowed]. *)
Definition logs {A} (allowed : Effect -> Prop) (m : M A) : Prop :=
  forall w r w',
    m w = (r, w') ->
    exists effects, log w' = log w ++ effects /\ Forall allowed effects.

Definition isWrite (e : Effect) : Prop :=
  match e with
  | Wrote _ => True
  | Requested _ => False
  end.

(** The tables with other terms on the plans. *)
Definition withPlanTerms (f : PaypalPlan.t -> PaypalPlan.t) (w : World) : World :=
  {| db := withPaypalPlans (fmap f) (db w); log := log w; clockReads := clockReads w |}.

(** ** Decimal numerals *)

(** The value of a digit. *)
Definition digitValue (c : ascii) : option Z :=
  let n := Z.of_nat (nat_of_ascii c) in
  if Z.leb 48 n && Z.leb n 57 then Some (n - 48) else None.

(** The value of digits that follow digits of value [acc]. *)
Fixpoint digitsValue (acc : Z) (l : list ascii) : option Z :=
  match l with
  | [] => Some acc
  | c :: rest =>
      match digitValue c with
      | Some d => digitsValue (10 * acc + d) rest
      | None => None
      end
  end.

(** What is before the first point, and what is after it, if there is one. *)
Fixpoint splitAtPoint (l : list ascii) : list ascii * option (list ascii) :=
  match l with
  | [] => ([], None)
  | c :: rest =>
      if Ascii.eqb c "."%char then ([], Some rest)
      else let (whole, fraction) := splitAtPoint rest in (c :: whole, fraction)
  end.

(** The value of an unsigned decimal numeral, digits with or without a
    point and more digits, as a fraction of integers. *)
Definition unsignedDecimalValue (l : list ascii) : option (Z * Z) :=
  match splitAtPoint l with
  | ([], _) => None
  | (whole, None) =>
      match digitsValue 0 whole with
      | Some n => Some (n, 1)
      | None => None
      end
  | (_, Some []) => None
  | (whole, Some fraction) =>
      match digitsValue 0 (whole ++ fraction) with
      | Some n => Some (n, 10 ^ Z.of_nat (length fraction))
      | None => None
      end
  end.

(** The value of a decimal numeral with or without a sign, as a fraction of
    integers. *)
Definition decimalValue (s : string) : option (Z * Z) :=
  match list_ascii_of_string s with
  | "-"%char :: l =>
      match unsignedDecimalValue l with
      | Some (n, d) => Some (- n, d)
      | None => None
      end
  | l => unsignedDecimalValue l
  end.

(** The numeral [s] denotes exactly [num / den]. *)
Definition denotes (s : string) (num den : Z) : Prop :=
  exists n d, decimalValue s = Some (n, d) /\ 0 < d /\ n * den = num * d.

Definition notPoint (c : ascii) : Prop := Ascii.eqb c "."%char = false.

(** The numeral of the price of a plan of this amount denotes the amount
    divided by 100. *)
Definition exactNumeral (amount : Z) : bool :=
  match decimalValue (amountToString amount) with
  | Some (n, d) => Z.ltb 0 d && Z.eqb (n * 100) (amount * d)
  | None => false
  end.

(** The price values of the payload of a request. *)
Definition fixedPrices (r : Paypal.Request) : list string :=
  match Paypal.body r with
  | Paypal.Plan _ _ _ billing_cycles _ _ =>
      map (fun cycle => Paypal.value (Paypal.fixed_price cycle)) billing_cycles
  | _ => []
  end.

(** A Number as a binary64 value of the standard library. *)
Definition toSpecFloat (x : Js.Number) : SpecFloat.spec_float :=
  match x with
  | Js.NaN => SpecFloat.S754_nan
  | Js.Infinity negative => SpecFloat.S754_infinity negative
  | Js.Finite negative m e =>
      if Z.eqb m 0 then SpecFloat.S754_zero negative
      else SpecFloat.S754_finite negative (Z.to_pos m) e
  end.

(** The quotient of two integers below [2 ^ 63] by the division of the
    processor. *)
Definition binary64Quotient (a b : Z) : SpecFloat.spec_float :=
  FloatOps.Prim2SF
    (PrimFloat.div (PrimFloat.of_uint63 (Uint63.of_Z a))
       (PrimFloat.of_uint63 (Uint63.of_Z b))).

(** The two quotients are the same binary64 value. *)
Definition sameQuotient (a b : Z) : bool :=
  match toSpecFloat (Js.divide (Js.ofZ a) (Js.ofZ b)), binary64Quotient a b with
  | SpecFloat.S754_finite s m e, SpecFloat.S754_finite s' m' e' =>
      Bool.eqb s s' && Pos.eqb m m' && Z.eqb e e'
  | SpecFloat.S754_zero s, SpecFloat.S754_zero s' => Bool.eqb s s'
  | _, _ => false
  end.

(** * Properties *)

(** ** The monad *)


Lemma bind_Throw_inv {A B} (m : M A) (k : A -> M B) w e w' :
  bind m k w = (Throw e, w') ->
  m w = (Throw e, w') \/
  exists a w1, m w = (Ok a, w1) /\ k a w1 = (Throw e, w').
Proof.
  unfold bind. destruct (m w) as [[a|e0] w1]; intros H.
  - right. eauto.
  - left. congruence.
Qed.

Lemma bind_Ok_eq {A B} (m : M A) (k : A -> M B) w a w1 :
  m w = (Ok a, w1) -> bind m k w = k a w1.
Proof. unfold bind. intros ->. reflexivity. Qed.

Lemma bind_Throw_eq {A B} (m : M A) (k : A -> M B) w e w1 :
  m w = (Throw e, w1) -> bind m k w = (Throw e, w1).
Proof. unfold bind. intros ->. reflexivity. Qed.

(** ** The store *)

Lemma nextId_above {A} (table : gmap Z A) k :
  is_Some (table !! k) -> k < nextId table.
Proof.
  intros [row Hrow]. unfold nextId.
  apply elem_of_map_to_list in Hrow.
  assert (Hin : k ∈ (fst <$> map_to_list table)).
  { apply list_elem_of_fmap. exists (k, row). split; [reflexivity | assumption]. }
  induction (fst <$> map_to_list table) as [|x l IH]; simpl.
  - inversion Hin.
  - apply elem_of_cons in Hin as [<- | Hin]; [lia | specialize (IH Hin); lia].
Qed.

Lemma nextId_fresh {A} (table : gmap Z A) : table !! nextId table = None.
Proof.
  destruct (table !! nextId table) eqn:Hrow; [|reflexivity].
  assert (nextId table < nextId table) by (apply nextId_above; eauto).
  lia.
Qed.

Lemma nextId_positive {A} (table : gmap Z A) : 0 < nextId table.
Proof.
  unfold nextId.
  induction (fst <$> map_to_list table) as [|x l IH]; simpl; lia.
Qed.

Lemma findOne_Some {K} `{Countable K} {A} (where_ : A -> bool) (table : gmap K A) row :
  findOne where_ table = Some row ->
  where_ row = true /\ exists k, table !! k = Some row.
Proof.
  unfold findOne. destruct (find _ _) as [[k r]|] eqn:Hfind; simpl; [|discriminate].
  intros [= <-]. apply find_some in Hfind as [Hin Hwhere]. split; [assumption|].
  exists k. apply elem_of_map_to_list, list_elem_of_In. assumption.
Qed.

Lemma findOne_None {K} `{Countable K} {A} (where_ : A -> bool) (table : gmap K A) :
  findOne where_ table = None ->
  forall k row, table !! k = Some row -> where_ row = false.
Proof.
  unfold findOne. destruct (find _ _) as [[k r]|] eqn:Hfind; simpl; [discriminate|].
  intros _ k row Hrow.
  apply (find_none _ _ Hfind (k, row)).
  apply list_elem_of_In, elem_of_map_to_list. assumption.
Qed.

Lemma strictEq_Z (a b : option Z) : Js.strictEq Z.eqb a b = true <-> a = b.
Proof.
  destruct a as [x|], b as [y|]; simpl; split; try congruence.
  - intros Heq. apply Z.eqb_eq in Heq. congruence.
  - intros [= ->]. apply Z.eqb_refl.
Qed.

Lemma productWhere_spec CollectiveId TierId p :
  productWhere CollectiveId TierId p = true <->
  PaypalProduct.CollectiveId p = CollectiveId /\ PaypalProduct.TierId p = TierId.
Proof.
  unfold productWhere. rewrite andb_true_iff, Z.eqb_eq, strictEq_Z. reflexivity.
Qed.

(** ** Verification *)

Lemma findPlanForOrder_spec order plan_id s plan :
  findPlanForOrder order plan_id s = Some plan <-> matchingPlan s order plan_id plan.
Proof.
  unfold findPlanForOrder, matchingPlan. split.
  - destruct (paypalPlans s !! plan_id) as [p|]; [|discriminate].
    destruct (paypalProducts s !! PaypalPlan.ProductId p) as [product|] eqn:Hproduct;
      [|discriminate].
    destruct (productWhere _ _ product) eqn:Hwhere; [|discriminate].
    intros [= <-]. apply productWhere_spec in Hwhere as [? ?]. eauto.
  - intros [-> (product & -> & Hcollective & Htier)].
    assert (Hwhere : productWhere (Order.CollectiveId order) (Order.TierId order) product
                     = true) by (apply productWhere_spec; auto).
    rewrite Hwhere. reflexivity.
Qed.

(** The verifier as a decision list: the first failing check names the error. *)
Lemma verifySubscription_run order paypalSubscription w :
  verifySubscription order paypalSubscription w =
  (if negb (String.eqb (Paypal.status paypalSubscription) "APPROVED")
   then Throw notApproved
   else match findPlanForOrder order (Paypal.plan_id paypalSubscription) (db w) with
        | None => Throw (planMismatch paypalSubscription)
        | Some plan =>
            if negb (Z.eqb (PaypalPlan.amount plan) (Order.totalAmount order))
            then Throw amountMismatch else Ok tt
        end,
   w).
Proof.
  unfold verifySubscription.
  destruct (negb _); [reflexivity|].
  unfold bind, gets.
  destruct (findPlanForOrder _ _ _) as [plan|]; [|reflexivity].
  destruct (negb _); reflexivity.
Qed.

(** The verifier only reads. *)
Lemma verifySubscription_pure order paypalSubscription w :
  snd (verifySubscription order paypalSubscription w) = w.
Proof. rewrite verifySubscription_run. reflexivity. Qed.

(** C2. [verifySubscription] returns exactly when the external subscription
    is approved, a local plan of its plan id exists under the product of the
    order's collective and tier, and that plan's amount is the order's total
    amount.  Otherwise it throws a verification error: not approved, before
    no matching plan, before amount mismatch.  It changes nothing. *)
Theorem verifySubscription_iff order paypalSubscription w :
  let outcome := fst (verifySubscription order paypalSubscription w) in
  let approved := Paypal.status paypalSubscription = "APPROVED" in
  let matching := matchingPlan (db w) order (Paypal.plan_id paypalSubscription) in
  snd (verifySubscription order paypalSubscription w) = w /\
  (outcome = Ok tt <->
   approved /\
   exists plan, matching plan /\ PaypalPlan.amount plan = Order.totalAmount order) /\
  (~ approved -> outcome = Throw notApproved) /\
  (approved -> (forall plan, ~ matching plan) ->
   outcome = Throw (planMismatch paypalSubscription)) /\
  (approved ->
   (exists plan, matching plan /\ PaypalPlan.amount plan <> Order.totalAmount order) ->
   outcome = Throw amountMismatch) /\
  (forall e, outcome = Throw e -> VerificationError paypalSubscription e).
Proof.
  intros outcome approved matching. subst outcome approved matching.
  split; [apply verifySubscription_pure|].
  rewrite verifySubscription_run. simpl.
  destruct (String.eqb_spec (Paypal.status paypalSubscription) "APPROVED")
    as [Happroved | Hnot]; simpl.
  - destruct (findPlanForOrder order _ (db w)) as [plan|] eqn:Hfind.
    + apply findPlanForOrder_spec in Hfind.
      assert (Hunique : forall plan', matchingPlan (db w) order
                (Paypal.plan_id paypalSubscription) plan' -> plan' = plan).
      { intros plan' [Hlookup' _]. destruct Hfind as [Hlookup _]. congruence. }
      destruct (Z.eqb_spec (PaypalPlan.amount plan) (Order.totalAmount order))
        as [Hamount | Hamount]; simpl;
        refine (conj _ (conj _ (conj _ (conj _ _)))).
      * split; [eauto | reflexivity].
      * intros Hcontra. contradiction.
      * intros _ Hnone. destruct (Hnone plan Hfind).
      * intros _ (plan' & Hmatch & Hne). apply Hunique in Hmatch. congruence.
      * discriminate.
      * split; [discriminate|].
        intros (_ & plan' & Hmatch & Heq). apply Hunique in Hmatch. congruence.
      * intros Hcontra. contradiction.
      * intros _ Hnone. destruct (Hnone plan Hfind).
      * reflexivity.
      * intros e [= <-]. constructor.
    + assert (Hnone : forall plan, ~ matchingPlan (db w) order
                (Paypal.plan_id paypalSubscription) plan).
      { intros plan Hmatch. apply findPlanForOrder_spec in Hmatch. congruence. }
      refine (conj _ (conj _ (conj _ (conj _ _)))).
      * split; [discriminate|].
        intros (_ & plan & Hmatch & _). destruct (Hnone plan Hmatch).
      * intros Hcontra. contradiction.
      * reflexivity.
      * intros _ (plan & Hmatch & _). destruct (Hnone plan Hmatch).
      * intros e [= <-]. constructor.
  - refine (conj _ (conj _ (conj _ (conj _ _)))).
    + split; [discriminate|]. intros (Happroved & _). contradiction.
    + reflexivity.
    + intros Happroved. contradiction.
    + intros Happroved. contradiction.
    + intros e [= <-]. constructor.
Qed.

Lemma verifySubscription_iff_witness :
  fst (verifySubscription Sample.newOrder Sample.approved (Sample.start Sample.catalog))
  = Ok tt.
Proof.
  apply (verifySubscription_iff Sample.newOrder Sample.approved
           (Sample.start Sample.catalog)).
  split; [reflexivity|].
  exists Sample.plan. split; [|reflexivity].
  split; [reflexivity|].
  exists Sample.product. repeat split.
Defined.

(** ** Writes *)

Lemma write_Ok_inv E op w u w' :
  write E op w = (Ok u, w') ->
  dbFails E (log w) op = false /\
  perform op (db w) = Ok (db w') /\
  log w' = log w ++ [Wrote op] /\
  clockReads w' = clockReads w.
Proof.
  unfold write. destruct (dbFails E (log w) op); [discriminate|].
  destruct (perform op (db w)) as [s|e]; [|discriminate].
  intros [= _ <-]. auto.
Qed.

Lemma write_Throw_inv E op w e w' :
  write E op w = (Throw e, w') ->
  db w' = db w /\
  log w' = log w ++ [Wrote op] /\
  (e = DatabaseError /\ dbFails E (log w) op = true \/ perform op (db w) = Throw e).
Proof.
  unfold write. destruct (dbFails E (log w) op).
  - intros [= <- <-]. auto.
  - destruct (perform op (db w)) as [s|e0]; [discriminate|].
    intros [= <- <-]. auto.
Qed.

Lemma write_accepted E op w s :
  dbFails E (log w) op = false ->
  perform op (db w) = Ok s ->
  write E op w =
  (Ok tt, {| db := s; log := log w ++ [Wrote op]; clockReads := clockReads w |}).
Proof. unfold write. intros -> ->. reflexivity. Qed.

Lemma write_failed E op w :
  dbFails E (log w) op = true ->
  write E op w =
  (Throw DatabaseError,
   {| db := db w; log := log w ++ [Wrote op]; clockReads := clockReads w |}).
Proof. unfold write. intros ->. reflexivity. Qed.

(** An update thrown back by the store is a failure of the store. *)
Lemma updateOrder_Throw_inv E order values w e w' :
  updateOrder E order values w = (Throw e, w') ->
  e = DatabaseError /\ db w' = db w.
Proof.
  unfold updateOrder. intros H.
  apply bind_Throw_inv in H as [H | (u & w1 & _ & H)]; [|discriminate].
  apply write_Throw_inv in H as (Hdb & _ & [[-> _] | Hperform]); [auto | discriminate].
Qed.

Lemma updateSubscription_Throw_inv E subscription values w e w' :
  updateSubscription E subscription values w = (Throw e, w') ->
  e = DatabaseError /\ db w' = db w.
Proof.
  unfold updateSubscription. intros H.
  apply bind_Throw_inv in H as [H | (u & w1 & _ & H)]; [|discriminate].
  apply write_Throw_inv in H as (Hdb & _ & [[-> _] | Hperform]); [auto | discriminate].
Qed.

Lemma updateLoadedSubscription_Throw_inv E order values w e w' :
  updateLoadedSubscription E order values w = (Throw e, w') ->
  (e = DatabaseError \/ e = TypeError) /\ db w' = db w.
Proof.
  unfold updateLoadedSubscription.
  destruct (Order.Subscription order) as [subscription|].
  - intros H. apply bind_Throw_inv in H as [H | (u & w1 & _ & H)]; [|discriminate].
    apply updateSubscription_Throw_inv in H as [-> ?]. auto.
  - intros [= <- <-]. auto.
Qed.

(** ** Changing the amount or the tier *)

Lemma ltNullable_true n (m : option Z) :
  100 <= n -> Js.ltNullable n m = true <-> exists v, m = Some v /\ n < v.
Proof.
  intros Hn. unfold Js.ltNullable. destruct m as [v|].
  - rewrite Z.ltb_lt. split; [eauto | intros (v' & [= <-] & Hlt); assumption].
  - rewrite Z.ltb_lt. split; [lia | intros (v' & Hnone & _); discriminate].
Qed.

Lemma tierCondition_true (amountType kind : string) n (m : option Z) :
  100 <= n ->
  String.eqb amountType kind && Js.ltNullable n m = true <->
  amountType = kind /\ exists v, m = Some v /\ n < v.
Proof.
  intros Hn. rewrite andb_true_iff, String.eqb_eq, (ltNullable_true n m Hn).
  reflexivity.
Qed.

Lemma checkSubscriptionDetails_Throw_iff order tier amountInCents :
  (exists e, checkSubscriptionDetails order tier amountInCents = Throw e) <->
  rejected order tier amountInCents.
Proof.
  unfold checkSubscriptionDetails, rejected, tierAnd.
  destruct tier as [t|].
  - destruct (Z.eqb_spec (Tier.CollectiveId t) (Order.CollectiveId order))
      as [Hsame|Hother]; simpl;
      [|split; [intros _; right; exists t; auto | eauto]].
    destruct (Z.ltb_spec amountInCents 100) as [Hlow|Hhigh]; [split; eauto|].
    destruct (String.eqb (Tier.amountType t) "FLEXIBLE" && _) eqn:Hflexible.
    { apply tierCondition_true in Hflexible; [|assumption].
      split; [intros _; right; exists t; auto | eauto]. }
    destruct (String.eqb (Tier.amountType t) "FIXED" && _) eqn:Hfixed.
    { apply tierCondition_true in Hfixed; [|assumption].
      split; [intros _; right; exists t; auto | eauto]. }
    split; [intros [err Herr]; discriminate|].
    intros [Hlow | (t' & [= <-] & [Hne | [Hcase | Hcase]])].
    + lia.
    + contradiction.
    + apply tierCondition_true in Hcase; [congruence | assumption].
    + apply tierCondition_true in Hcase; [congruence | assumption].
  - destruct (Z.ltb_spec amountInCents 100) as [Hlow|Hhigh].
    + split; eauto.
    + split; [intros [err Herr]; discriminate|].
      intros [Hlow | (t & Hsome & _)]; [lia | discriminate].
Qed.

Lemma checkSubscriptionDetails_error order tier amountInCents e :
  checkSubscriptionDetails order tier amountInCents = Throw e ->
  ValidationError order tier e.
Proof.
  unfold checkSubscriptionDetails.
  repeat match goal with
         | |- context [if ?c then _ else _] => destruct c
         end;
    intros [= <-]; constructor.
Qed.

Lemma updateSubscriptionDetails_rejected E user order tier amountInCents w e :
  checkSubscriptionDetails order tier amountInCents = Throw e ->
  updateSubscriptionDetails E user order tier amountInCents w = (Throw e, w).
Proof.
  intros Hcheck. unfold updateSubscriptionDetails, bind, liftResult.
  rewrite Hcheck. reflexivity.
Qed.

(** Once the terms are accepted, only the store or a missing association
    can make the change fail. *)
Lemma updateSubscriptionDetails_accepted_Throw E user order tier amountInCents w e w' :
  checkSubscriptionDetails order tier amountInCents = Ok tt ->
  updateSubscriptionDetails E user order tier amountInCents w = (Throw e, w') ->
  e = DatabaseError \/ e = TypeError.
Proof.
  intros Hcheck. unfold updateSubscriptionDetails, liftResult.
  unfold bind at 1. rewrite Hcheck. intros H.
  apply bind_Throw_inv in H as [H | (order1 & w1 & _ & H)].
  - destruct (negb _); [|discriminate].
    apply bind_Throw_inv in H as [H | (order1 & w1 & _ & H)].
    + apply updateOrder_Throw_inv in H as [-> _]. auto.
    + apply updateLoadedSubscription_Throw_inv in H as [? _]. assumption.
  - apply bind_Throw_inv in H as [H | (order2 & w2 & _ & H)].
    + destruct (negb _); [|discriminate].
      apply bind_Throw_inv in H as [H | (order2 & w2 & _ & H)].
      * apply updateOrder_Throw_inv in H as [-> _]. auto.
      * apply updateLoadedSubscription_Throw_inv in H as [? _]. assumption.
    + apply updateOrder_Throw_inv in H as [-> _]. auto.
Qed.

(** C7. [updateSubscriptionDetails] throws a validation error exactly when
    the amount is below 100, or the tier belongs to another collective than
    the order, or the tier is FLEXIBLE and the amount is below its minimum,
    or the tier is FIXED and the amount is below its amount; the error
    carries one of four reasons, and the store and the log are then as
    before the call.  50 is refused and 100 accepted; with a FLEXIBLE
    minimum of 200, 150 is refused and 200 accepted; with a FIXED amount of
    500, 400 is refused and 500 accepted. *)
Theorem updateSubscriptionDetails_validation E user order w :
  (forall tier amountInCents,
     let run := updateSubscriptionDetails E user order tier amountInCents w in
     ((exists e, fst run = Throw e /\ ValidationError order tier e) <->
      rejected order tier amountInCents) /\
     (rejected order tier amountInCents -> snd run = w)) /\
  (let flexible := Some (Sample.tier (Order.CollectiveId order) "FLEXIBLE" None (Some 200)) in
   let fixed := Some (Sample.tier (Order.CollectiveId order) "FIXED" (Some 500) None) in
   checkSubscriptionDetails order None 50 = Throw (Error "Invalid amount." None) /\
   checkSubscriptionDetails order None 100 = Ok tt /\
   checkSubscriptionDetails order flexible 150 =
     Throw (Error "Amount is less than minimum value allowed for this Tier." None) /\
   checkSubscriptionDetails order flexible 200 = Ok tt /\
   checkSubscriptionDetails order fixed 400 =
     Throw (Error "Amount is incorrect for this Tier." None) /\
   checkSubscriptionDetails order fixed 500 = Ok tt).
Proof.
  split.
  - intros tier amountInCents run. subst run.
    destruct (checkSubscriptionDetails order tier amountInCents) as [[]|e0] eqn:Hcheck.
    + assert (Haccepted : ~ rejected order tier amountInCents).
      { intros Hrejected. apply checkSubscriptionDetails_Throw_iff in Hrejected as [e He].
        congruence. }
      split; [|intros Hrejected; contradiction].
      split; [|intros Hrejected; contradiction].
      intros (e & Hrun & Hvalidation).
      destruct (updateSubscriptionDetails E user order tier amountInCents w)
        as [result w'] eqn:Hupdate.
      simpl in Hrun. subst result.
      apply (updateSubscriptionDetails_accepted_Throw _ _ _ _ _ _ _ _ Hcheck) in Hupdate
        as [-> | ->]; inversion Hvalidation.
    + assert (Hrejected : rejected order tier amountInCents)
        by (apply checkSubscriptionDetails_Throw_iff; eauto).
      rewrite (updateSubscriptionDetails_rejected E user _ _ _ w _ Hcheck). simpl.
      split; [|reflexivity].
      split; [intros _; assumption|].
      intros _. exists e0. split; [reflexivity|].
      apply (checkSubscriptionDetails_error _ _ _ _ Hcheck).
  - unfold checkSubscriptionDetails, tierAnd. simpl.
    rewrite Z.eqb_refl. simpl. repeat split.
Qed.

Lemma updateSubscriptionDetails_validation_witness :
  snd (updateSubscriptionDetails Sample.reliable Sample.user Sample.recurringOrder
         (Some Sample.flexibleTier) 150 (Sample.start Sample.recurring))
  = Sample.start Sample.recurring.
Proof.
  apply (updateSubscriptionDetails_validation Sample.reliable Sample.user
           Sample.recurringOrder (Sample.start Sample.recurring)).
  right. exists Sample.flexibleTier. split; [reflexivity|].
  right. left. split; [reflexivity|].
  exists 200. split; [reflexivity | lia].
Defined.

(** ** Activation: the steps as equations *)

Lemma after_after w effects s effects' s' :
  after (after w effects s) effects' s' = after w (effects ++ effects') s'.
Proof. unfold after. simpl. rewrite app_assoc. reflexivity. Qed.

Lemma request_run E r w :
  request E r w = (paypalRequest E (log w) r, after w [Requested r] (db w)).
Proof. reflexivity. Qed.

Lemma updateSubscription_run E subscription values w :
  updateSubscription E subscription values w =
  let op := UpdateSubscription (Subscription.id subscription) values in
  if dbFails E (log w) op then (Throw DatabaseError, after w [Wrote op] (db w))
  else (Ok (Subscription.assign values subscription),
        after w [Wrote op]
          (withSubscriptions
             (alter (Subscription.assign values) (Subscription.id subscription)) (db w))).
Proof.
  unfold updateSubscription, bind, write, after. simpl.
  destruct (dbFails E _ _); reflexivity.
Qed.

Lemma updatePaymentMethod_run E paymentMethod values w :
  updatePaymentMethod E paymentMethod values w =
  let op := UpdatePaymentMethod (PaymentMethod.id paymentMethod) values in
  if dbFails E (log w) op then (Throw DatabaseError, after w [Wrote op] (db w))
  else (Ok (PaymentMethod.assign values paymentMethod),
        after w [Wrote op]
          (withPaymentMethods
             (alter (PaymentMethod.assign values) (PaymentMethod.id paymentMethod))
             (db w))).
Proof.
  unfold updatePaymentMethod, bind, write, after. simpl.
  destruct (dbFails E _ _); reflexivity.
Qed.

Lemma updateOrder_run E order values w :
  updateOrder E order values w =
  let op := UpdateOrder (Order.id order) values in
  if dbFails E (log w) op then (Throw DatabaseError, after w [Wrote op] (db w))
  else (Ok (Order.assign values order),
        after w [Wrote op]
          (withOrders (alter (Order.assign values) (Order.id order)) (db w))).
Proof.
  unfold updateOrder, bind, write, after. simpl.
  destruct (dbFails E _ _); reflexivity.
Qed.

Lemma setupPaypalSubscriptionForOrder_run E order paymentMethod w :
  setupPaypalSubscriptionForOrder E order paymentMethod w =
  tryCatch
    (activationSteps E order paymentMethod
       (Collective.getHostCollective (Order.collective order))
       (existingSubscriptionOf (db w) order))
    (restoreAndRethrow E (existingSubscriptionOf (db w) order)
       (Subscription.pickProviderFields (existingSubscriptionOf (db w) order)))
    w.
Proof.
  unfold setupPaypalSubscriptionForOrder, existingSubscriptionOf, bind,
    getSubscription, gets, ret.
  destruct (Js.truthyNumber _); reflexivity.
Qed.

Lemma hasSubscription_existing s order subscription :
  hasSubscription s order subscription ->
  existingSubscriptionOf s order = Some subscription.
Proof.
  intros (Hid & Hnonzero & Hrow). unfold existingSubscriptionOf.
  rewrite Hid. simpl.
  destruct (Z.eqb_spec (Subscription.id subscription) 0); [contradiction|].
  simpl. assumption.
Qed.

(** The [try] block, step by step: fetch, verify, name the payment method,
    persist, activate. *)
Lemma activationSteps_run E order paymentMethod hostCollective existing w :
  let token := PaymentMethod.token paymentMethod in
  let fetch := fetchRequest hostCollective token in
  let activate := activateRequest hostCollective token in
  let fetched := after w [Requested fetch] (db w) in
  activationSteps E order paymentMethod hostCollective existing w =
  match paypalRequest E (log w) fetch with
  | Throw cause => (Throw cause, fetched)
  | Ok paypalSubscription =>
      match fst (verifySubscription order paypalSubscription fetched) with
      | Throw cause => (Throw cause, fetched)
      | Ok _ =>
          let named :=
            UpdatePaymentMethod (PaymentMethod.id paymentMethod)
              (subscriberName paypalSubscription) in
          if dbFails E (log fetched) named
          then (Throw DatabaseError, after w [Requested fetch; Wrote named] (db w))
          else
            match
              persistSubscription E order token existing
                (after w [Requested fetch; Wrote named]
                   (withPaymentMethods
                      (alter (PaymentMethod.assign (subscriberName paypalSubscription))
                         (PaymentMethod.id paymentMethod))
                      (db w)))
            with
            | (Throw cause, persisted) => (Throw cause, persisted)
            | (Ok order', persisted) =>
                (match paypalRequest E (log persisted) activate with
                 | Ok _ => Ok order'
                 | Throw cause => Throw cause
                 end,
                 after persisted [Requested activate] (db persisted))
            end
      end
  end.
Proof.
  intros token fetch activate fetched.
  unfold activationSteps, fetchPaypalSubscription.
  unfold bind at 1. rewrite request_run. fold token fetch fetched.
  destruct (paypalRequest E (log w) fetch) as [paypalSubscription|cause]; [|reflexivity].
  unfold bind at 1.
  rewrite (surjective_pairing (verifySubscription order paypalSubscription fetched)).
  rewrite verifySubscription_pure.
  destruct (fst (verifySubscription order paypalSubscription fetched)) as [[]|cause];
    [|reflexivity].
  unfold bind at 1. rewrite updatePaymentMethod_run.
  fold (subscriberName paypalSubscription). cbv zeta.
  destruct (dbFails E (log fetched) _).
  { unfold fetched. rewrite after_after. reflexivity. }
  unfold fetched. rewrite after_after.
  change (db (after w [Requested fetch] (db w))) with (db w).
  change ([Requested fetch] ++ [Wrote ?op]) with [Requested fetch; Wrote op].
  unfold bind at 1.
  destruct (persistSubscription E order token existing _) as [[order'|cause] persisted];
    [|reflexivity].
  unfold bind, ret. rewrite request_run.
  destruct (paypalRequest E (log persisted) _); reflexivity.
Qed.

Lemma truthyString_Some (s : option string) :
  Js.truthyString s = true -> exists v, s = Some v /\ v <> "" /\ Js.interpolate s = v.
Proof.
  destruct s as [v|]; simpl; [|discriminate].
  destruct (String.eqb_spec v ""); [discriminate|]. eauto.
Qed.

(** Moving an existing subscription: cancel the PayPal subscription it had,
    if any, then write the new one. *)
Lemma persistSubscription_existing_run E order token subscription w :
  hasSubscription (db w) order subscription ->
  let hostCollective := Collective.getHostCollective (Order.collective order) in
  let cancel :=
    cancelRequest hostCollective
      (Js.interpolate (Subscription.paypalSubscriptionId subscription))
      (Some "Changed payment method") in
  let moved :=
    UpdateSubscription (Subscription.id subscription) (paypalSubscriptionParams token) in
  let movedStore :=
    withSubscriptions
      (alter (Subscription.assign (paypalSubscriptionParams token))
         (Subscription.id subscription))
      (db w) in
  persistSubscription E order token (Some subscription) w =
  if Js.truthyString (Subscription.paypalSubscriptionId subscription) then
    match paypalRequest E (log w) cancel with
    | Throw cause => (Throw cause, after w [Requested cancel] (db w))
    | Ok _ =>
        if dbFails E (log w ++ [Requested cancel]) moved
        then (Throw DatabaseError, after w [Requested cancel; Wrote moved] (db w))
        else (Ok order, after w [Requested cancel; Wrote moved] movedStore)
    end
  else
    if dbFails E (log w) moved
    then (Throw DatabaseError, after w [Wrote moved] (db w))
    else (Ok order, after w [Wrote moved] movedStore).
Proof.
  intros (Hid & Hnonzero & Hrow) hostCollective cancel moved movedStore.
  unfold persistSubscription.
  destruct (Js.truthyString _).
  - unfold bind at 1. unfold cancelPaypalSubscription.
    unfold bind at 1. unfold getSubscription, gets. rewrite Hid, Hrow.
    unfold bind at 1. rewrite request_run. fold hostCollective cancel.
    destruct (paypalRequest E (log w) cancel) as [response|cause]; [|reflexivity].
    unfold ret at 1. unfold bind at 1. rewrite updateSubscription_run. cbv zeta.
    fold moved. change (log (after w [Requested cancel] (db w))) with (log w ++ [Requested cancel]).
    destruct (dbFails E (log w ++ [Requested cancel]) moved);
      rewrite after_after; reflexivity.
  - unfold ret at 1. unfold bind at 1. unfold bind at 1.
    rewrite updateSubscription_run. cbv zeta. fold moved.
    destruct (dbFails E (log w) moved); reflexivity.
Qed.

(** Creating the subscription of an order that has none. *)
Lemma persistSubscription_new_run E order token w :
  let row :=
    subscriptionValues order token (nextId (subscriptions (db w)))
      (clock E (clockReads w)) (clock E (S (clockReads w))) in
  let created := CreateSubscription (Order.id order) row in
  persistSubscription E order token None w =
  if dbFails E (log w) created
  then (Throw DatabaseError,
        {| db := db w; log := log w ++ [Wrote created];
           clockReads := S (S (clockReads w)) |})
  else (Ok (Order.set (Order.SetSubscriptionId (Some (Subscription.id row))) order),
        {| db := withOrders
                   (alter (Order.set (Order.SetSubscriptionId (Some (Subscription.id row))))
                      (Order.id order))
                   (withSubscriptions (insert (Subscription.id row) row) (db w));
           log := log w ++ [Wrote created];
           clockReads := S (S (clockReads w)) |}).
Proof.
  intros row created.
  unfold persistSubscription, createSubscription, bind, newDate, gets, write, ret.
  simpl. fold row. fold created.
  destruct (dbFails E (log w) created); [reflexivity|].
  change (Subscription.id row) with (nextId (subscriptions (db w))).
  rewrite nextId_fresh. reflexivity.
Qed.

(** Case analysis on the step that decides the run at hand. *)
Ltac scrutinee t :=
  lazymatch t with
  | match ?x with _ => _ end => scrutinee x
  | _ => t
  end.

Ltac case_step :=
  cbv beta iota zeta;
  lazymatch goal with
  | |- (match ?x with _ => _ end) = _ -> _ =>
      let y := scrutinee x in destruct y eqn:?
  | |- (match ?x with _ => _ end, _) = _ -> _ =>
      let y := scrutinee x in destruct y eqn:?
  end;
  cbv beta iota zeta.

(** ** Activation of an order that has no subscription *)

(** C10. When an order with no subscription is activated successfully, the
    subscription created for it is not active: [isActive] is false, with
    [isManagedExternally] true, [chargeNumber] 0, the amount, currency,
    interval and quantity of the order, the payment method's token as
    PayPal subscription id, and the two clock readings taken at creation
    as next charge date and next period start.  The rows that were there
    are left as they were. *)
Theorem createSubscription_inactive E order paymentMethod w order' w' :
  existingSubscriptionOf (db w) order = None ->
  setupPaypalSubscriptionForOrder E order paymentMethod w = (Ok order', w') ->
  exists created,
    Order.SubscriptionId order' = Some (Subscription.id created) /\
    subscriptions (db w) !! Subscription.id created = None /\
    subscriptions (db w') !! Subscription.id created = Some created /\
    Subscription.isActive created = false /\
    Subscription.isManagedExternally created = true /\
    Subscription.chargeNumber created = Some 0 /\
    Subscription.amount created = Order.totalAmount order /\
    Subscription.currency created = Order.currency order /\
    Subscription.interval created = Order.interval order /\
    Subscription.quantity created = Order.quantity order /\
    Subscription.paypalSubscriptionId created = Some (PaymentMethod.token paymentMethod) /\
    Subscription.nextChargeDate created = Some (clock E (clockReads w)) /\
    Subscription.nextPeriodStart created = Some (clock E (S (clockReads w))) /\
    (forall id row,
       subscriptions (db w) !! id = Some row -> subscriptions (db w') !! id = Some row).
Proof.
  intros Hnone. rewrite setupPaypalSubscriptionForOrder_run, Hnone.
  unfold tryCatch. rewrite activationSteps_run.
  do 3 (case_step; try discriminate).
  rewrite persistSubscription_new_run.
  repeat (case_step; try discriminate).
  intros [= <- <-].
  exists (subscriptionValues order (PaymentMethod.token paymentMethod)
            (nextId (subscriptions (db w)))
            (clock E (clockReads w)) (clock E (S (clockReads w)))).
  unfold after. simpl.
  split; [reflexivity|].
  split; [apply nextId_fresh|].
  split; [apply lookup_insert_eq|].
  repeat (split; [reflexivity|]).
  intros id row Hrow. rewrite lookup_insert_ne; [assumption|].
  intros <-. rewrite nextId_fresh in Hrow. discriminate.
Qed.

Lemma createSubscription_inactive_witness :
  exists created,
    subscriptions
      (db (snd (setupPaypalSubscriptionForOrder Sample.reliable Sample.newOrder
                  (Sample.paymentMethod "I-NEW") (Sample.start Sample.catalog))))
      !! 1 = Some created /\
    Subscription.isActive created = false.
Proof.
  destruct (createSubscription_inactive Sample.reliable Sample.newOrder
              (Sample.paymentMethod "I-NEW") (Sample.start Sample.catalog)
              (Order.set (Order.SetSubscriptionId (Some 1)) Sample.newOrder)
              (snd (setupPaypalSubscriptionForOrder Sample.reliable Sample.newOrder
                      (Sample.paymentMethod "I-NEW") (Sample.start Sample.catalog))))
    as (created & Hid & _ & Hrow & Hinactive & _).
  - reflexivity.
  - vm_compute. reflexivity.
  - exists created. injection Hid as Hid. rewrite Hid. split; assumption.
Defined.

(** ** Activation of an order that has a subscription *)

Lemma verifySubscription_db order paypalSubscription w1 w2 :
  db w1 = db w2 ->
  fst (verifySubscription order paypalSubscription w1) =
  fst (verifySubscription order paypalSubscription w2).
Proof. intros Hdb. rewrite !verifySubscription_run, Hdb. reflexivity. Qed.

Lemma restore_kept subscription :
  Subscription.assign (Subscription.pickProviderFields (Some subscription)) subscription
  = subscription.
Proof. destruct subscription. reflexivity. Qed.

Lemma restore_moved subscription token :
  Subscription.assign (Subscription.pickProviderFields (Some subscription))
    (Subscription.assign (paypalSubscriptionParams token) subscription)
  = subscription.
Proof. destruct subscription. reflexivity. Qed.

(** Whatever the outcome of the [try] block, the row of the subscription is
    the one found at the start, or that one moved to the new PayPal
    subscription. *)
Lemma activationSteps_subscription E order paymentMethod subscription w r w1 :
  hasSubscription (db w) order subscription ->
  activationSteps E order paymentMethod
    (Collective.getHostCollective (Order.collective order)) (Some subscription) w
  = (r, w1) ->
  subscriptions (db w1) !! Subscription.id subscription = Some subscription \/
  subscriptions (db w1) !! Subscription.id subscription =
    Some (Subscription.assign
            (paypalSubscriptionParams (PaymentMethod.token paymentMethod)) subscription).
Proof.
  intros Hhas. pose proof Hhas as (_ & _ & Hrow).
  rewrite activationSteps_run.
  do 3 (case_step; try (intros [= <- <-]; left; exact Hrow)).
  rewrite persistSubscription_existing_run by exact Hhas.
  repeat (case_step; try (intros [= <- <-]; left; exact Hrow));
    intros [= <- <-]; right; unfold after; simpl;
    rewrite lookup_alter_eq, Hrow; reflexivity.
Qed.

(** C1, as the code has it.  When the activation of an order that has a
    subscription throws, a step of the [try] block has thrown, and the
    [catch] block has written the snapshot back.  When the store accepts
    that write, the row of the subscription is as it was before the call, so
    [isManagedExternally], [stripeSubscriptionId] and [paypalSubscriptionId]
    have their snapshot values, and the exception is the activation error
    carrying the exception of the failed step; it is neither a verification
    nor a validation error.  When the store fails that write, the exception
    is the failure of the store, which carries nothing, and the tables stay
    as the failed step left them.  In particular, when the verification
    fails, the row is as it was before the call in either case. *)
Theorem activation_failure_restores E order paymentMethod w subscription e w' :
  let restored :=
    UpdateSubscription (Subscription.id subscription)
      (Subscription.pickProviderFields (Some subscription)) in
  hasSubscription (db w) order subscription ->
  setupPaypalSubscriptionForOrder E order paymentMethod w = (Throw e, w') ->
  exists cause failed,
    activationSteps E order paymentMethod
      (Collective.getHostCollective (Order.collective order)) (Some subscription) w
    = (Throw cause, failed) /\
    (dbFails E (log failed) restored = false ->
     e = activationError cause /\
     subscriptions (db w') !! Subscription.id subscription = Some subscription /\
     (forall paypalSubscription, ~ VerificationError paypalSubscription e) /\
     (forall order0 tier, ~ ValidationError order0 tier e)) /\
    (dbFails E (log failed) restored = true ->
     e = DatabaseError /\ db w' = db failed) /\
    (forall paypalSubscription refusal,
       paypalRequest E (log w)
         (fetchRequest (Collective.getHostCollective (Order.collective order))
            (PaymentMethod.token paymentMethod)) = Ok paypalSubscription ->
       fst (verifySubscription order paypalSubscription w) = Throw refusal ->
       cause = refusal /\
       subscriptions (db w') !! Subscription.id subscription = Some subscription).
Proof.
  intros restored Hhas. pose proof Hhas as (_ & _ & Hstored).
  rewrite setupPaypalSubscriptionForOrder_run, (hasSubscription_existing _ _ _ Hhas).
  unfold tryCatch.
  destruct (activationSteps E order paymentMethod _ (Some subscription) w)
    as [[order1|cause] failed] eqn:Hsteps; [discriminate|].
  apply (activationSteps_subscription _ _ _ _ _ _ _ Hhas) in Hsteps as Hrow.
  assert (Hrefused : forall paypalSubscription refusal,
            paypalRequest E (log w)
              (fetchRequest (Collective.getHostCollective (Order.collective order))
                 (PaymentMethod.token paymentMethod)) = Ok paypalSubscription ->
            fst (verifySubscription order paypalSubscription w) = Throw refusal ->
            cause = refusal /\ db failed = db w).
  { intros paypalSubscription refusal Hfetch Hverify.
    rewrite activationSteps_run in Hsteps. cbv zeta in Hsteps.
    rewrite Hfetch in Hsteps.
    rewrite (verifySubscription_db order paypalSubscription _ w) in Hsteps
      by reflexivity.
    rewrite Hverify in Hsteps. injection Hsteps as <- <-. split; reflexivity. }
  unfold restoreAndRethrow. unfold bind at 1. unfold bind at 1.
  rewrite updateSubscription_run. cbv zeta. fold restored.
  destruct (dbFails E (log failed) restored) eqn:Hwrite; unfold ret, throw;
    intros [= <- <-]; exists cause, failed; rewrite Hwrite; (split; [reflexivity|]).
  - split; [discriminate|]. split; [intros _; split; reflexivity|].
    intros paypalSubscription refusal Hfetch Hverify.
    destruct (Hrefused _ _ Hfetch Hverify) as [-> Hdb].
    split; [reflexivity|]. unfold after. cbn [db]. rewrite Hdb. exact Hstored.
  - assert (Hrestored :
              subscriptions
                (db (after failed [Wrote restored]
                       (withSubscriptions
                          (alter
                             (Subscription.assign
                                (Subscription.pickProviderFields (Some subscription)))
                             (Subscription.id subscription))
                          (db failed))))
                !! Subscription.id subscription = Some subscription).
    { unfold after. simpl. rewrite lookup_alter_eq.
      destruct Hrow as [-> | ->]; unfold fmap, option_fmap, option_map; f_equal;
        [apply restore_kept | apply restore_moved]. }
    split; [|split; [discriminate|]].
    + intros _. split; [reflexivity|]. split; [exact Hrestored|]. split.
      * intros paypalSubscription Hverification. inversion Hverification.
      * intros order0 tier Hvalidation. inversion Hvalidation.
    + intros paypalSubscription refusal Hfetch Hverify.
      destruct (Hrefused _ _ Hfetch Hverify) as [-> _].
      split; [reflexivity | exact Hrestored].
Qed.

(** C1 fails on the code as the spec words it: when the activation of
    [I-NEW] fails and the store then fails the write of the snapshot, the
    call throws the failure of the store, which carries no cause, and the
    subscription keeps the new PayPal subscription [I-NEW] in place of the
    one of the snapshot, [I-OLD]. *)
Lemma restore_failure_not_restored :
  let run :=
    setupPaypalSubscriptionForOrder Sample.restoreFails Sample.recurringOrder
      (Sample.paymentMethod "I-NEW") (Sample.start Sample.recurring) in
  hasSubscription (db (Sample.start Sample.recurring)) Sample.recurringOrder
    Sample.subscription /\
  Subscription.paypalSubscriptionId Sample.subscription = Some "I-OLD" /\
  fst run = Throw DatabaseError /\
  Subscription.paypalSubscriptionId <$> subscriptions (db (snd run)) !! 3
    = Some (Some "I-NEW").
Proof.
  split; [repeat split; discriminate|].
  vm_compute. repeat split.
Qed.

(** X12. The restore is best effort: when the store fails the write of the
    snapshot, that failure is what the call throws, in place of the
    activation error, and the tables stay as the failed steps left them. *)
Lemma restore_failure_escapes E order paymentMethod w subscription cause failed :
  let restored :=
    UpdateSubscription (Subscription.id subscription)
      (Subscription.pickProviderFields (Some subscription)) in
  hasSubscription (db w) order subscription ->
  activationSteps E order paymentMethod
    (Collective.getHostCollective (Order.collective order)) (Some subscription) w
  = (Throw cause, failed) ->
  dbFails E (log failed) restored = true ->
  setupPaypalSubscriptionForOrder E order paymentMethod w =
  (Throw DatabaseError, after failed [Wrote restored] (db failed)).
Proof.
  intros restored Hhas Hsteps Hfails.
  rewrite setupPaypalSubscriptionForOrder_run, (hasSubscription_existing _ _ _ Hhas).
  unfold tryCatch. rewrite Hsteps.
  unfold restoreAndRethrow. unfold bind at 1. unfold bind at 1.
  rewrite updateSubscription_run. cbv zeta. fold restored. rewrite Hfails.
  reflexivity.
Qed.

Lemma activation_failure_restores_witness :
  subscriptions
    (db (snd (setupPaypalSubscriptionForOrder Sample.activateFails Sample.recurringOrder
                (Sample.paymentMethod "I-NEW") (Sample.start Sample.recurring))))
    !! 3 = Some Sample.subscription.
Proof.
  destruct (activation_failure_restores Sample.activateFails Sample.recurringOrder
              (Sample.paymentMethod "I-NEW") (Sample.start Sample.recurring)
              Sample.subscription
              (activationError (RequestError "PayPal request failed"))
              (snd (setupPaypalSubscriptionForOrder Sample.activateFails
                      Sample.recurringOrder (Sample.paymentMethod "I-NEW")
                      (Sample.start Sample.recurring))))
    as (cause & failed & _ & Haccepted & _).
  - repeat split; [discriminate].
  - vm_compute. reflexivity.
  - exact (proj1 (proj2 (Haccepted eq_refl))).
Defined.

(** C3, as the code has it.  When the cancellation of the PayPal
    subscription that the order's subscription had fails, the activation is
    abandoned.  What the call does is, in this order: fetch, name the
    payment method, request the cancellation, write the snapshot back;
    no activation is requested.  The call throws: the activation error
    carrying the failure of the cancellation when the store accepts the
    write of the snapshot, the failure of the store when it does not.  In
    both cases the row of the subscription is as it was before the call:
    the subscription is not moved to the new PayPal subscription. *)
Theorem cancel_failure_aborts E order paymentMethod w subscription paypalSubscription cause :
  let hostCollective := Collective.getHostCollective (Order.collective order) in
  let token := PaymentMethod.token paymentMethod in
  let fetch := Requested (fetchRequest hostCollective token) in
  let named :=
    UpdatePaymentMethod (PaymentMethod.id paymentMethod)
      (subscriberName paypalSubscription) in
  let cancel :=
    cancelRequest hostCollective
      (Js.interpolate (Subscription.paypalSubscriptionId subscription))
      (Some "Changed payment method") in
  let restored :=
    UpdateSubscription (Subscription.id subscription)
      (Subscription.pickProviderFields (Some subscription)) in
  let run := setupPaypalSubscriptionForOrder E order paymentMethod w in
  hasSubscription (db w) order subscription ->
  Js.truthyString (Subscription.paypalSubscriptionId subscription) = true ->
  paypalRequest E (log w) (fetchRequest hostCollective token) = Ok paypalSubscription ->
  fst (verifySubscription order paypalSubscription w) = Ok tt ->
  dbFails E (log w ++ [fetch]) named = false ->
  paypalRequest E (log w ++ [fetch; Wrote named]) cancel = Throw cause ->
  fst run =
    Throw (if dbFails E (log w ++ [fetch; Wrote named; Requested cancel]) restored
           then DatabaseError
           else activationError cause) /\
  log (snd run) = log w ++ [fetch; Wrote named; Requested cancel; Wrote restored] /\
  Forall (fun effect => effect <> Requested (activateRequest hostCollective token))
    [fetch; Wrote named; Requested cancel; Wrote restored] /\
  subscriptions (db (snd run)) !! Subscription.id subscription = Some subscription.
Proof.
  intros hostCollective token fetch named cancel restored run
    Hhas Htruthy Hfetch Hverify Hnamed Hcancel.
  pose proof Hhas as (_ & _ & Hrow).
  subst run.
  destruct (setupPaypalSubscriptionForOrder E order paymentMethod w) as [r final]
    eqn:Hrun.
  cbn [fst snd]. revert Hrun.
  rewrite setupPaypalSubscriptionForOrder_run, (hasSubscription_existing _ _ _ Hhas).
  unfold tryCatch. rewrite activationSteps_run. cbv zeta.
  fold hostCollective token. rewrite Hfetch.
  rewrite (verifySubscription_db order paypalSubscription _ w) by reflexivity.
  rewrite Hverify.
  change (log (after w [Requested (fetchRequest hostCollective token)] (db w)))
    with (log w ++ [fetch]).
  fold named. rewrite Hnamed.
  rewrite persistSubscription_existing_run by exact Hhas. cbv zeta.
  rewrite Htruthy. fold hostCollective cancel.
  change (log (after w [Requested (fetchRequest hostCollective token); Wrote named] _))
    with (log w ++ [fetch; Wrote named]).
  rewrite Hcancel.
  unfold restoreAndRethrow. unfold bind at 1. unfold bind at 1.
  rewrite updateSubscription_run. cbv zeta. fold restored.
  rewrite !after_after.
  change (log (after w ([Requested (fetchRequest hostCollective token); Wrote named]
                          ++ [Requested cancel]) _))
    with (log w ++ [fetch; Wrote named; Requested cancel]).
  assert (Hnone :
            Forall (fun effect => effect <> Requested (activateRequest hostCollective token))
              [fetch; Wrote named; Requested cancel; Wrote restored]).
  { repeat constructor; discriminate. }
  destruct (dbFails E (log w ++ [fetch; Wrote named; Requested cancel]) restored);
    unfold ret, throw, after; intros [= <- <-]; simpl.
  - split; [reflexivity|]. split; [reflexivity|]. split; [exact Hnone | exact Hrow].
  - split; [reflexivity|]. split; [reflexivity|]. split; [exact Hnone|].
    rewrite lookup_alter_eq, Hrow. unfold fmap, option_fmap, option_map. f_equal.
    destruct subscription; reflexivity.
Qed.

Lemma cancel_failure_aborts_witness :
  subscriptions
    (db (snd (setupPaypalSubscriptionForOrder Sample.cancelFails Sample.recurringOrder
                (Sample.paymentMethod "I-NEW") (Sample.start Sample.recurring))))
    !! 3 = Some Sample.subscription.
Proof.
  refine (proj2 (proj2 (proj2
    (cancel_failure_aborts Sample.cancelFails Sample.recurringOrder
       (Sample.paymentMethod "I-NEW") (Sample.start Sample.recurring)
       Sample.subscription Sample.approved (RequestError "PayPal request failed")
       _ _ _ _ _ _)))).
  - repeat split; [discriminate].
  - reflexivity.
  - reflexivity.
  - reflexivity.
  - reflexivity.
  - reflexivity.
Defined.

(** C3 fails on the code: with a cancellation that fails and everything
    else in order, the activation throws, the subscription keeps the old
    PayPal subscription [I-OLD], and no activation is requested. *)
Lemma cancel_failure_not_tolerated :
  let run :=
    setupPaypalSubscriptionForOrder Sample.cancelFails Sample.recurringOrder
      (Sample.paymentMethod "I-NEW") (Sample.start Sample.recurring) in
  fst run = Throw (activationError (RequestError "PayPal request failed")) /\
  Subscription.paypalSubscriptionId <$> subscriptions (db (snd run)) !! 3
    = Some (Some "I-OLD") /\
  ~ In (Requested (activateRequest (Some 1) "I-NEW")) (log (snd run)).
Proof.
  vm_compute. split; [reflexivity|]. split; [reflexivity|].
  intros [H | [H | [H | [H | []]]]]; discriminate.
Qed.

(** The [catch] block always throws. *)
Lemma restoreAndRethrow_Ok E existing values e w order w' :
  restoreAndRethrow E existing values e w = (Ok order, w') -> False.
Proof.
  unfold restoreAndRethrow, bind, throw, ret.
  destruct existing as [subscription|]; [|discriminate].
  rewrite updateSubscription_run. cbv zeta.
  destruct (dbFails E _ _); discriminate.
Qed.

Ltac caught :=
  let H := fresh "Hcaught" in
  intros H; exfalso; exact (restoreAndRethrow_Ok _ _ _ _ _ _ _ H).

(** C4, as the code has it.  In a successful activation of an order that
    has a subscription, a cancellation is requested for the PayPal
    subscription that the subscription had whenever it had one (not null,
    not empty), be it the new one or another; what the call does is, in
    this order: fetch, name the payment method, request that cancellation
    if any, write the subscription (managed externally, no Stripe
    subscription, the new PayPal subscription), request the activation of
    the new PayPal subscription. *)
Theorem cancel_then_move_then_activate E order paymentMethod w subscription order' w' :
  let hostCollective := Collective.getHostCollective (Order.collective order) in
  let token := PaymentMethod.token paymentMethod in
  let old := Subscription.paypalSubscriptionId subscription in
  let cancel :=
    cancelRequest hostCollective (Js.interpolate old) (Some "Changed payment method") in
  let moved :=
    UpdateSubscription (Subscription.id subscription) (paypalSubscriptionParams token) in
  hasSubscription (db w) order subscription ->
  setupPaypalSubscriptionForOrder E order paymentMethod w = (Ok order', w') ->
  exists paypalSubscription current,
    log w' =
      log w
      ++ [Requested (fetchRequest hostCollective token);
          Wrote (UpdatePaymentMethod (PaymentMethod.id paymentMethod)
                   (subscriberName paypalSubscription))]
      ++ (if Js.truthyString old then [Requested cancel] else [])
      ++ [Wrote moved; Requested (activateRequest hostCollective token)] /\
    subscriptions (db w') !! Subscription.id subscription = Some current /\
    current = Subscription.assign (paypalSubscriptionParams token) subscription /\
    Subscription.isManagedExternally current = true /\
    Subscription.stripeSubscriptionId current = None /\
    Subscription.paypalSubscriptionId current = Some token.
Proof.
  intros hostCollective token old cancel moved Hhas.
  pose proof Hhas as (_ & _ & Hrow).
  rewrite setupPaypalSubscriptionForOrder_run, (hasSubscription_existing _ _ _ Hhas).
  unfold tryCatch. rewrite activationSteps_run.
  do 3 (case_step; try discriminate; try caught).
  rewrite persistSubscription_existing_run by exact Hhas.
  fold hostCollective token old cancel moved.
  repeat (case_step; try discriminate; try caught);
    intros [= <- <-];
    match goal with
    | H : paypalRequest E (log w) _ = Ok ?p |- _ => exists p
    end;
    exists (Subscription.assign (paypalSubscriptionParams token) subscription);
    unfold after; simpl;
    (split; [rewrite <- !app_assoc; reflexivity|]);
    (split; [rewrite lookup_alter_eq, Hrow; reflexivity|]);
    repeat split.
Qed.

Lemma cancel_then_move_then_activate_witness :
  exists current,
    subscriptions
      (db (snd (setupPaypalSubscriptionForOrder Sample.reliable Sample.recurringOrder
                  (Sample.paymentMethod "I-NEW") (Sample.start Sample.recurring))))
      !! 3 = Some current /\
    Subscription.paypalSubscriptionId current = Some "I-NEW".
Proof.
  destruct (cancel_then_move_then_activate Sample.reliable Sample.recurringOrder
              (Sample.paymentMethod "I-NEW") (Sample.start Sample.recurring)
              Sample.subscription Sample.recurringOrder
              (snd (setupPaypalSubscriptionForOrder Sample.reliable Sample.recurringOrder
                      (Sample.paymentMethod "I-NEW") (Sample.start Sample.recurring))))
    as (paypalSubscription & current & _ & Hrow & _ & _ & _ & Hid).
  - repeat split; [discriminate].
  - vm_compute. reflexivity.
  - exists current. split; assumption.
Defined.

(** C4 fails on the code: the subscription already has the PayPal
    subscription [I-OLD] that the payment method brings, so the old id is
    not different from the new one, and its cancellation is requested all
    the same, before its activation. *)
Lemma cancel_requested_for_same_id :
  let paymentMethod := Sample.paymentMethod "I-OLD" in
  let run :=
    setupPaypalSubscriptionForOrder Sample.reliable Sample.recurringOrder
      paymentMethod (Sample.start Sample.recurring) in
  Subscription.paypalSubscriptionId Sample.subscription
    = Some (PaymentMethod.token paymentMethod) /\
  fst run = Ok Sample.recurringOrder /\
  log (snd run) =
    [Requested (fetchRequest (Some 1) "I-OLD");
     Wrote (UpdatePaymentMethod 7 (subscriberName Sample.approved));
     Requested (cancelRequest (Some 1) "I-OLD" (Some "Changed payment method"));
     Wrote (UpdateSubscription 3 (paypalSubscriptionParams "I-OLD"));
     Requested (activateRequest (Some 1) "I-OLD")].
Proof. vm_compute. repeat split. Qed.

(** ** The payment method during activation *)

(** After the payment method is named, nothing writes to the payment
    methods: not the cancellation, not the writes of subscriptions, not
    the [catch] block. *)
Lemma persistSubscription_paymentMethods E order token existing w r w1 :
  persistSubscription E order token existing w = (r, w1) ->
  paymentMethods (db w1) = paymentMethods (db w).
Proof.
  unfold persistSubscription, cancelPaypalSubscription, createSubscription,
    updateSubscription, getSubscription, bind, gets, ret, throw, newDate, request, write.
  destruct existing as [subscription|]; simpl;
    repeat match goal with
           | |- context [match ?x with _ => _ end] =>
               lazymatch x with
               | context [match _ with _ => _ end] => fail
               | _ => destruct x eqn:?
               end; simpl
           end;
    intros [= <- <-]; reflexivity.
Qed.

Lemma restoreAndRethrow_paymentMethods E existing values e w r w1 :
  restoreAndRethrow E existing values e w = (r, w1) ->
  paymentMethods (db w1) = paymentMethods (db w).
Proof.
  unfold restoreAndRethrow, bind, throw, ret.
  destruct existing as [subscription|].
  - rewrite updateSubscription_run. cbv zeta.
    destruct (dbFails E _ _); intros [= <- <-]; reflexivity.
  - intros [= <- <-]. reflexivity.
Qed.

(** C9. When the activation throws after the external subscription was
    fetched and verified and the payment method was named after the
    subscriber's email address, the payment method keeps that name: the
    [catch] block writes the snapshot of the subscription and nothing else. *)
Theorem payment_method_name_survives E order paymentMethod w paypalSubscription row e w' :
  let hostCollective := Collective.getHostCollective (Order.collective order) in
  let fetch := fetchRequest hostCollective (PaymentMethod.token paymentMethod) in
  let named :=
    UpdatePaymentMethod (PaymentMethod.id paymentMethod)
      (subscriberName paypalSubscription) in
  paymentMethods (db w) !! PaymentMethod.id paymentMethod = Some row ->
  paypalRequest E (log w) fetch = Ok paypalSubscription ->
  fst (verifySubscription order paypalSubscription w) = Ok tt ->
  dbFails E (log w ++ [Requested fetch]) named = false ->
  setupPaypalSubscriptionForOrder E order paymentMethod w = (Throw e, w') ->
  exists current,
    paymentMethods (db w') !! PaymentMethod.id paymentMethod = Some current /\
    current = PaymentMethod.assign (subscriberName paypalSubscription) row /\
    PaymentMethod.name current
      = Some (Paypal.email_address (Paypal.subscriber paypalSubscription)).
Proof.
  intros hostCollective fetch named Hrow Hfetch Hverify Hnamed.
  rewrite setupPaypalSubscriptionForOrder_run.
  unfold tryCatch. rewrite activationSteps_run. cbv zeta.
  fold hostCollective fetch. rewrite Hfetch.
  rewrite (verifySubscription_db order paypalSubscription _ w) by reflexivity.
  rewrite Hverify.
  change (log (after w [Requested fetch] (db w))) with (log w ++ [Requested fetch]).
  fold named. rewrite Hnamed.
  destruct (persistSubscription E order _ _ _) as [[order1|cause] persisted] eqn:Hpersist;
    apply persistSubscription_paymentMethods in Hpersist; simpl in Hpersist.
  - destruct (paypalRequest E (log persisted) _) as [response|cause]; [discriminate|].
    intros Hcatch. apply restoreAndRethrow_paymentMethods in Hcatch.
    simpl in Hcatch. rewrite Hcatch, Hpersist, lookup_alter_eq, Hrow.
    eexists. split; [reflexivity|]. split; reflexivity.
  - intros Hcatch. apply restoreAndRethrow_paymentMethods in Hcatch.
    rewrite Hcatch, Hpersist, lookup_alter_eq, Hrow.
    eexists. split; [reflexivity|]. split; reflexivity.
Qed.

Lemma payment_method_name_survives_witness :
  exists current,
    paymentMethods
      (db (snd (setupPaypalSubscriptionForOrder Sample.activateFails Sample.recurringOrder
                  (Sample.paymentMethod "I-NEW") (Sample.start Sample.recurring))))
      !! 7 = Some current /\
    PaymentMethod.name current = Some "payer@example.org".
Proof.
  destruct (payment_method_name_survives Sample.activateFails Sample.recurringOrder
              (Sample.paymentMethod "I-NEW") (Sample.start Sample.recurring)
              Sample.approved (Sample.paymentMethod "I-NEW")
              (activationError (RequestError "PayPal request failed"))
              (snd (setupPaypalSubscriptionForOrder Sample.activateFails
                      Sample.recurringOrder (Sample.paymentMethod "I-NEW")
                      (Sample.start Sample.recurring))))
    as (current & Hcurrent & _ & Hname).
  - reflexivity.
  - reflexivity.
  - reflexivity.
  - reflexivity.
  - vm_compute. reflexivity.
  - exists current. split; assumption.
Defined.

(** ** Plans and products *)

Lemma findOne_unique {K} `{Countable K} {A} (where_ : A -> bool)
    (table : gmap K A) k row :
  table !! k = Some row ->
  where_ row = true ->
  (forall k' row', table !! k' = Some row' -> where_ row' = true -> row' = row) ->
  findOne where_ table = Some row.
Proof.
  intros Hrow Hwhere Hunique.
  destruct (findOne where_ table) as [found|] eqn:Hfind.
  - apply findOne_Some in Hfind as [Hfound [k' Hk']].
    f_equal. exact (Hunique k' found Hk' Hfound).
  - pose proof (findOne_None _ _ Hfind k row Hrow). congruence.
Qed.

Lemma tierIdOrNull_stored tier :
  storedTier tier -> tierIdOrNull tier = Tier.id <$> tier.
Proof.
  intros Hstored. destruct tier as [t|]; [|reflexivity]. simpl.
  specialize (Hstored t eq_refl).
  destruct (Z.eqb_spec (Tier.id t) 0); [lia | reflexivity].
Qed.

Lemma planWhere_spec ProductId currency interval amount plan :
  planWhere ProductId currency interval amount plan = true <->
  PaypalPlan.ProductId plan = ProductId /\
  PaypalPlan.currency plan = currency /\
  PaypalPlan.interval plan = interval /\
  PaypalPlan.amount plan = amount.
Proof.
  unfold planWhere. rewrite !andb_true_iff, !String.eqb_eq, Z.eqb_eq. tauto.
Qed.

(** C5. When no product is recorded for the collective and tier, and the
    gateway and the store accept what is asked of them, [getOrCreatePlan]
    requests one product and one plan from the gateway and records one
    product, then one plan; a second call with the same parameters returns
    that plan and leaves the world as it is: no request, no write. *)
Theorem getOrCreatePlan_idempotent E host collective interval amount currency tier w
    createdProduct createdPlan :
  let productRequested := productRequest E host collective tier in
  let planRequested :=
    planRequest E host collective (Paypal.id createdProduct) interval amount currency tier in
  let product :=
    {| PaypalProduct.id := Paypal.id createdProduct;
       PaypalProduct.CollectiveId := Collective.id collective;
       PaypalProduct.TierId := Tier.id <$> tier |} in
  let plan :=
    {| PaypalPlan.id := Paypal.id createdPlan;
       PaypalPlan.ProductId := Paypal.id createdProduct;
       PaypalPlan.amount := amount;
       PaypalPlan.currency := currency;
       PaypalPlan.interval := interval |} in
  let createProduct := CreatePaypalProduct product in
  let createPlan := CreatePaypalPlan plan in
  let w1 :=
    after w
      [Requested productRequested; Requested planRequested;
       Wrote createProduct; Wrote createPlan]
      (withPaypalPlans (insert (Paypal.id createdPlan) plan)
         (withPaypalProducts (insert (Paypal.id createdProduct) product) (db w))) in
  storedTier tier ->
  noProduct (db w) collective tier ->
  plansBelongToProducts (db w) ->
  paypalRequest E (log w) productRequested = Ok createdProduct ->
  paypalRequest E (log w ++ [Requested productRequested]) planRequested = Ok createdPlan ->
  paypalProducts (db w) !! Paypal.id createdProduct = None ->
  paypalPlans (db w) !! Paypal.id createdPlan = None ->
  dbFails E (log w ++ [Requested productRequested; Requested planRequested])
    createProduct = false ->
  dbFails E
    (log w ++ [Requested productRequested; Requested planRequested; Wrote createProduct])
    createPlan = false ->
  getOrCreatePlan E host collective interval amount currency tier w = (Ok plan, w1) /\
  getOrCreatePlan E host collective interval amount currency tier w1 = (Ok plan, w1).
Proof.
  intros productRequested planRequested product plan createProduct createPlan w1
    Hstored Hnone Hplans HproductOk HplanOk HfreshProduct HfreshPlan
    HwriteProduct HwritePlan.
  assert (Hwhere : productWhere (Collective.id collective) (tierIdOrNull tier) product = true).
  { apply productWhere_spec. rewrite (tierIdOrNull_stored _ Hstored). split; reflexivity. }
  split.
  - unfold getOrCreatePlan. unfold bind at 1. unfold gets at 1.
    destruct (findOne _ (paypalProducts (db w))) as [found|] eqn:Hfind.
    { apply findOne_Some in Hfind as [Hfound [k Hk]].
      apply productWhere_spec in Hfound. rewrite (tierIdOrNull_stored _ Hstored) in Hfound.
      destruct (Hnone k found Hk Hfound). }
    unfold createPaypalProduct, createPaypalPlan.
    unfold bind at 1. rewrite request_run. fold productRequested. rewrite HproductOk.
    unfold bind at 1. rewrite request_run. fold planRequested.
    change (log (after w [Requested productRequested] (db w)))
      with (log w ++ [Requested productRequested]).
    rewrite HplanOk. fold product. fold plan. fold createProduct. fold createPlan.
    rewrite after_after.
    unfold bind at 1.
    rewrite (write_accepted E createProduct _
               (withPaypalProducts (insert (Paypal.id createdProduct) product) (db w)));
      [| simpl; exact HwriteProduct | simpl; rewrite HfreshProduct; reflexivity].
    unfold bind, ret.
    rewrite (write_accepted E createPlan _
               (withPaypalPlans (insert (Paypal.id createdPlan) plan)
                  (withPaypalProducts (insert (Paypal.id createdProduct) product) (db w)))).
    + unfold w1, after. simpl. rewrite <- !app_assoc. reflexivity.
    + simpl. rewrite <- app_assoc. exact HwritePlan.
    + simpl. rewrite HfreshPlan. reflexivity.
  - unfold getOrCreatePlan. unfold bind at 1. unfold gets at 1.
    assert (Hfind : findOne (productWhere (Collective.id collective) (tierIdOrNull tier))
                      (paypalProducts (db w1)) = Some product).
    { apply (findOne_unique _ _ (Paypal.id createdProduct)).
      - apply lookup_insert_eq.
      - exact Hwhere.
      - intros k found Hk Hfound. simpl in Hk.
        apply lookup_insert_Some in Hk as [[_ <-] | [_ Hk]]; [reflexivity|].
        apply productWhere_spec in Hfound.
        rewrite (tierIdOrNull_stored _ Hstored) in Hfound.
        destruct (Hnone k found Hk Hfound). }
    rewrite Hfind.
    unfold bind at 1. unfold gets at 1.
    assert (Hfind' : findOne (planWhere (PaypalProduct.id product) currency interval amount)
                       (paypalPlans (db w1)) = Some plan).
    { apply (findOne_unique _ _ (Paypal.id createdPlan)).
      - apply lookup_insert_eq.
      - apply planWhere_spec. repeat split.
      - intros k found Hk Hfound. simpl in Hk.
        apply lookup_insert_Some in Hk as [[_ <-] | [_ Hk]]; [reflexivity|].
        apply planWhere_spec in Hfound as [Hproduct _].
        destruct (Hplans k found Hk) as [owner Howner].
        simpl in Hproduct. rewrite Hproduct in Howner. congruence. }
    rewrite Hfind'. reflexivity.
Qed.

Lemma getOrCreatePlan_idempotent_witness :
  exists plan w1,
    getOrCreatePlan Sample.reliableCatalog Sample.host Sample.host "month" 2000 "USD"
      (Some Sample.flexibleTier) (Sample.start Sample.catalog) = (Ok plan, w1) /\
    getOrCreatePlan Sample.reliableCatalog Sample.host Sample.host "month" 2000 "USD"
      (Some Sample.flexibleTier) w1 = (Ok plan, w1).
Proof.
  eexists. eexists.
  apply (getOrCreatePlan_idempotent Sample.reliableCatalog Sample.host Sample.host
           "month" 2000 "USD" (Some Sample.flexibleTier) (Sample.start Sample.catalog)
           Sample.createdProduct Sample.createdPlan).
  - intros t [= <-]. reflexivity.
  - intros k product Hk [_ Htier].
    cbn [db Sample.start Sample.catalog paypalProducts] in Hk.
    apply lookup_singleton_Some in Hk as [_ <-]. discriminate.
  - intros k plan Hk.
    cbn [db Sample.start Sample.catalog paypalPlans] in Hk.
    apply lookup_singleton_Some in Hk as [_ <-]. exists Sample.product. reflexivity.
  - reflexivity.
  - reflexivity.
  - reflexivity.
  - reflexivity.
  - reflexivity.
  - reflexivity.
Defined.

(** ** Writes that belong together *)

(** X14. The change of payment method runs in a transaction: when it throws,
    also after the order was written, the tables are as before the call. *)
Lemma updatePaymentMethodForSubscription_atomic E user order newPaymentMethod w e w' :
  updatePaymentMethodForSubscription E user order newPaymentMethod w = (Throw e, w') ->
  db w' = db w.
Proof.
  unfold updatePaymentMethodForSubscription.
  destruct (negb _).
  - intros [= <- <-]. reflexivity.
  - unfold transaction.
    destruct (bind _ _ w) as [[order1|cause] w1]; [discriminate|].
    intros [= <- <-]. reflexivity.
Qed.

(** The product and the plan are recorded one after the other, outside any
    transaction: when the store fails the write of the plan, the product
    stays recorded without a plan. *)
Lemma getOrCreatePlan_torn E host collective interval amount currency tier w
    createdProduct createdPlan :
  let productRequested := productRequest E host collective tier in
  let planRequested :=
    planRequest E host collective (Paypal.id createdProduct) interval amount currency tier in
  let product :=
    {| PaypalProduct.id := Paypal.id createdProduct;
       PaypalProduct.CollectiveId := Collective.id collective;
       PaypalProduct.TierId := Tier.id <$> tier |} in
  let plan :=
    {| PaypalPlan.id := Paypal.id createdPlan;
       PaypalPlan.ProductId := Paypal.id createdProduct;
       PaypalPlan.amount := amount;
       PaypalPlan.currency := currency;
       PaypalPlan.interval := interval |} in
  let createProduct := CreatePaypalProduct product in
  let createPlan := CreatePaypalPlan plan in
  findOne (productWhere (Collective.id collective) (tierIdOrNull tier))
    (paypalProducts (db w)) = None ->
  paypalRequest E (log w) productRequested = Ok createdProduct ->
  paypalRequest E (log w ++ [Requested productRequested]) planRequested = Ok createdPlan ->
  paypalProducts (db w) !! Paypal.id createdProduct = None ->
  dbFails E (log w ++ [Requested productRequested; Requested planRequested])
    createProduct = false ->
  dbFails E
    (log w ++ [Requested productRequested; Requested planRequested; Wrote createProduct])
    createPlan = true ->
  getOrCreatePlan E host collective interval amount currency tier w =
  (Throw DatabaseError,
   after w
     [Requested productRequested; Requested planRequested;
      Wrote createProduct; Wrote createPlan]
     (withPaypalProducts (insert (Paypal.id createdProduct) product) (db w))).
Proof.
  intros productRequested planRequested product plan createProduct createPlan
    Hnone HproductOk HplanOk HfreshProduct HwriteProduct HwritePlan.
  unfold getOrCreatePlan. unfold bind at 1. unfold gets at 1. rewrite Hnone.
  unfold createPaypalProduct, createPaypalPlan.
  unfold bind at 1. rewrite request_run. fold productRequested. rewrite HproductOk.
  unfold bind at 1. rewrite request_run. fold planRequested.
  change (log (after w [Requested productRequested] (db w)))
    with (log w ++ [Requested productRequested]).
  rewrite HplanOk. fold product. fold plan. fold createProduct. fold createPlan.
  rewrite after_after.
  unfold bind at 1.
  rewrite (write_accepted E createProduct _
             (withPaypalProducts (insert (Paypal.id createdProduct) product) (db w)));
    [| simpl; exact HwriteProduct | simpl; rewrite HfreshProduct; reflexivity].
  unfold bind. rewrite write_failed.
  - unfold after. simpl. rewrite <- !app_assoc. reflexivity.
  - simpl. rewrite <- app_assoc. exact HwritePlan.
Qed.

(** The change of amount writes the order, then the subscription, outside
    any transaction: when the store fails the second write, the first one
    stays. *)
Lemma updateSubscriptionDetails_torn E user order tier amountInCents w subscription :
  let orderWrite := UpdateOrder (Order.id order) [Order.SetTotalAmount amountInCents] in
  let subscriptionWrite :=
    UpdateSubscription (Subscription.id subscription)
      [Subscription.Amount amountInCents] in
  checkSubscriptionDetails order tier amountInCents = Ok tt ->
  amountInCents <> Order.totalAmount order ->
  Order.Subscription order = Some subscription ->
  dbFails E (log w) orderWrite = false ->
  dbFails E (log w ++ [Wrote orderWrite]) subscriptionWrite = true ->
  updateSubscriptionDetails E user order tier amountInCents w =
  (Throw DatabaseError,
   after w [Wrote orderWrite; Wrote subscriptionWrite]
     (withOrders
        (alter (Order.assign [Order.SetTotalAmount amountInCents]) (Order.id order))
        (db w))).
Proof.
  intros orderWrite subscriptionWrite Hcheck Hamount Hloaded HorderWrite HsubscriptionWrite.
  unfold updateSubscriptionDetails, liftResult.
  unfold bind at 1. rewrite Hcheck.
  destruct (Z.eqb_spec amountInCents (Order.totalAmount order)) as [|_]; [contradiction|].
  cbn [negb].
  unfold bind at 1. unfold bind at 1.
  rewrite updateOrder_run. cbv zeta. fold orderWrite. rewrite HorderWrite.
  unfold updateLoadedSubscription.
  replace (Order.Subscription (Order.assign [Order.SetTotalAmount amountInCents] order))
    with (Some subscription) by (rewrite <- Hloaded; reflexivity).
  unfold bind at 1. rewrite updateSubscription_run. cbv zeta. fold subscriptionWrite.
  change (log (after w [Wrote orderWrite] _)) with (log w ++ [Wrote orderWrite]).
  rewrite HsubscriptionWrite, after_after. reflexivity.
Qed.

(** C6 fails on the code.  The order and its subscription are at 1000, the
    amount is changed to 2000, and the store fails the write of the
    subscription: the call throws, and the order is left at 2000 with its
    subscription at 1000. *)
Theorem updateSubscriptionDetails_not_atomic :
  let run :=
    updateSubscriptionDetails Sample.subscriptionWritesFail Sample.user
      Sample.recurringOrder None 2000 (Sample.start Sample.recurring) in
  fst run = Throw DatabaseError /\
  Order.totalAmount <$> orders (db (snd run)) !! 10 = Some 2000 /\
  Subscription.amount <$> subscriptions (db (snd run)) !! 3 = Some 1000.
Proof. vm_compute. repeat split. Qed.

(** ** The price of a plan *)

(** *** Rounding *)

Lemma roundHalfEven_near n d :
  0 < d ->
  - d <= 2 * (n - Js.roundHalfEven n d * d) <= d.
Proof.
  intros Hd. unfold Js.roundHalfEven.
  pose proof (Z.div_mod n d ltac:(lia)) as Hdiv.
  pose proof (Z.mod_pos_bound n d Hd) as Hmod.
  destruct (Z.compare_spec (2 * (n mod d)) d); [destruct (Z.even (n / d))| |]; nia.
Qed.

Lemma roundHalfEven_floor n d :
  0 < d ->
  Js.roundHalfEven n d = n / d \/ Js.roundHalfEven n d = n / d + 1.
Proof.
  intros Hd. unfold Js.roundHalfEven.
  destruct (Z.compare _ _); [destruct (Z.even _)| |]; auto.
Qed.

Lemma div_ratio n d n' d' :
  0 < d -> 0 < d' -> n * d' = n' * d -> n / d = n' / d'.
Proof.
  intros Hd Hd' Hratio.
  rewrite <- (Z.div_mul_cancel_r n d d') by lia.
  rewrite Hratio, (Z.mul_comm d d').
  apply Z.div_mul_cancel_r; lia.
Qed.

Lemma roundHalfEven_ratio n d n' d' :
  0 < d -> 0 < d' -> n * d' = n' * d ->
  Js.roundHalfEven n d = Js.roundHalfEven n' d'.
Proof.
  intros Hd Hd' Hratio. unfold Js.roundHalfEven.
  rewrite <- (div_ratio n d n' d' Hd Hd' Hratio).
  assert (Hmod : (n mod d) * d' = (n' mod d') * d).
  { rewrite !Z.mod_eq by lia.
    rewrite <- (div_ratio n d n' d' Hd Hd' Hratio). nia. }
  assert (Hcompare : Z.compare (2 * (n mod d)) d = Z.compare (2 * (n' mod d')) d').
  { rewrite (Zmult_compare_compat_r (2 * (n mod d)) d d') by lia.
    rewrite (Zmult_compare_compat_r (2 * (n' mod d')) d' d) by lia.
    f_equal; lia. }
  rewrite Hcompare. reflexivity.
Qed.

Lemma floorLog2_ratio n d n' d' :
  0 < d -> 0 < d' -> n * d' = n' * d -> Js.floorLog2 n d = Js.floorLog2 n' d'.
Proof.
  intros Hd Hd' Hratio. unfold Js.floorLog2.
  rewrite (div_ratio (n * 2 ^ 1100) d (n' * 2 ^ 1100) d'); [reflexivity|lia|lia|].
  transitivity (n * d' * 2 ^ 1100); [ring|]. rewrite Hratio. ring.
Qed.

Lemma roundTiesToEven_ratio negative n d n' d' :
  0 < d -> 0 < d' -> n * d' = n' * d ->
  Js.roundTiesToEven negative n d = Js.roundTiesToEven negative n' d'.
Proof.
  intros Hd Hd' Hratio. unfold Js.roundTiesToEven.
  rewrite (floorLog2_ratio n d n' d' Hd Hd' Hratio).
  set (e := Z.max (Js.floorLog2 n' d' - 52) (-1074)).
  assert (0 < 2 ^ Z.max 0 e) by (apply Z.pow_pos_nonneg; lia).
  rewrite (roundHalfEven_ratio (n * 2 ^ Z.max 0 (- e)) (d * 2 ^ Z.max 0 e)
             (n' * 2 ^ Z.max 0 (- e)) (d' * 2 ^ Z.max 0 e)); [reflexivity|nia|nia|].
  transitivity (n * d' * (2 ^ Z.max 0 (- e) * 2 ^ Z.max 0 e)); [ring|].
  rewrite Hratio. ring.
Qed.

Lemma roundTiesToEven_sign negative n d :
  Js.roundTiesToEven negative n d =
  match Js.roundTiesToEven false n d with
  | Js.Finite _ m e => Js.Finite negative m e
  | Js.Infinity _ => Js.Infinity negative
  | Js.NaN => Js.NaN
  end.
Proof.
  unfold Js.roundTiesToEven. cbv zeta.
  destruct (Z.ltb 971 _); reflexivity.
Qed.

Lemma sameNumber_refl x : Js.sameNumber x x = true.
Proof.
  destruct x as [|s|s m e]; simpl; [reflexivity| |].
  - destruct s; reflexivity.
  - rewrite !Z.eqb_refl. destruct s; reflexivity.
Qed.

Lemma sameNumber_eq x y : Js.sameNumber x y = true -> x = y.
Proof.
  destruct x as [|s|s m e], y as [|t|t m' e']; simpl; try discriminate; try reflexivity.
  - intros H. apply Bool.eqb_prop in H. congruence.
  - rewrite !andb_true_iff, !Z.eqb_eq. intros [[H ->] ->].
    apply Bool.eqb_prop in H. congruence.
Qed.

(** *** The quotient of an amount by 100 *)

Lemma roundHalfEven_one n : Js.roundHalfEven n 1 = n.
Proof.
  unfold Js.roundHalfEven. rewrite Z.mod_1_r, Z.div_1_r. reflexivity.
Qed.

Lemma ofZ_exact a :
  0 < a < 2 ^ 53 ->
  Js.ofZ a = Js.Finite false (a * 2 ^ (52 - Z.log2 a)) (Z.log2 a - 52).
Proof.
  intros Ha.
  assert (Hlog : 0 <= Z.log2 a < 53).
  { split; [apply Z.log2_nonneg|]. apply Z.log2_lt_pow2; lia. }
  pose proof (Z.log2_spec a ltac:(lia)) as Hspec.
  unfold Js.ofZ, Js.roundTiesToEven, Js.floorLog2.
  rewrite Z.div_1_r, Z.log2_mul_pow2 by lia.
  replace (Z.ltb a 0) with false by (symmetry; apply Z.ltb_ge; lia).
  rewrite Z.abs_eq by lia.
  replace (Z.max (1100 + Z.log2 a - 1100 - 52) (-1074)) with (Z.log2 a - 52) by lia.
  replace (Z.max 0 (- (Z.log2 a - 52))) with (52 - Z.log2 a) by lia.
  replace (Z.max 0 (Z.log2 a - 52)) with 0 by lia.
  rewrite Z.pow_0_r, roundHalfEven_one.
  assert (Hm : a * 2 ^ (52 - Z.log2 a) < 2 ^ 53).
  { replace (2 ^ 53) with (2 ^ (Z.succ (Z.log2 a)) * 2 ^ (52 - Z.log2 a)).
    - apply Z.mul_lt_mono_pos_r; [apply Z.pow_pos_nonneg; lia | lia].
    - rewrite <- Z.pow_add_r by lia. f_equal. lia. }
  replace (Z.eqb (a * 2 ^ (52 - Z.log2 a)) (2 ^ 53)) with false
    by (symmetry; apply Z.eqb_neq; lia).
  replace (Z.ltb 971 (Z.log2 a - 52)) with false by (symmetry; apply Z.ltb_ge; lia).
  reflexivity.
Qed.

Lemma ofZ_100 : Js.ofZ 100 = Js.Finite false 7036874417766400 (-46).
Proof. vm_compute. reflexivity. Qed.

(** The quotient of an integer by 100 is the fraction rounded. *)
Lemma divide_by_100 a :
  0 < a < 2 ^ 53 ->
  Js.divide (Js.ofZ a) (Js.ofZ 100) = Js.roundTiesToEven false a 100.
Proof.
  intros Ha. rewrite (ofZ_exact a Ha), ofZ_100.
  assert (Hlog : 0 <= Z.log2 a < 53).
  { split; [apply Z.log2_nonneg|]. apply Z.log2_lt_pow2; lia. }
  unfold Js.divide.
  replace (Z.eqb 7036874417766400 0) with false by reflexivity.
  replace (xorb false false) with false by reflexivity.
  replace (Z.max 0 (Z.log2 a - 52)) with 0 by lia.
  replace (Z.max 0 (- (Z.log2 a - 52))) with (52 - Z.log2 a) by lia.
  replace (Z.max 0 (- -46)) with 46 by reflexivity.
  replace (Z.max 0 (-46)) with 0 by reflexivity.
  assert (0 < 2 ^ (52 - Z.log2 a)) by (apply Z.pow_pos_nonneg; lia).
  apply roundTiesToEven_ratio; [|lia|].
  - rewrite Z.pow_0_r. lia.
  - rewrite !Z.pow_0_r. change (2 ^ 46) with 70368744177664. ring.
Qed.

Lemma div_lt_inv a b q : 0 < b -> a / b < q -> a < b * q.
Proof.
  intros Hb Hlt.
  pose proof (Z.div_mod a b ltac:(lia)). pose proof (Z.mod_pos_bound a b Hb). nia.
Qed.

Lemma mul_pow2_lt_inv a b c : a * 2 ^ 1100 < b * 2 ^ c * 2 ^ 1100 -> a < b * 2 ^ c.
Proof.
  intros H. apply (Z.mul_lt_mono_pos_r (2 ^ 1100)); [|exact H].
  apply Z.pow_pos_nonneg; lia.
Qed.

(** The quotient of an amount from 100 up to 100 * 2^46 by 100: its
    exponent is at most -7, so that the quotient is within 1/256 of the
    fraction. *)
Lemma quotient_rounded a :
  100 <= a < 7036874417766400 ->
  exists g m,
    7 <= g <= 52 /\
    Js.roundTiesToEven false a 100 = Js.Finite false m (- g) /\
    m = Js.roundHalfEven (a * 2 ^ g) 100 /\
    2 ^ g <= m <= 70368744177664 * 2 ^ g.
Proof.
  intros Ha.
  set (y := a * 2 ^ 1100 / 100).
  assert (Hpos : 0 < 2 ^ 1100) by (apply Z.pow_pos_nonneg; lia).
  assert (Hlow : 2 ^ 1100 <= y).
  { apply Z.div_le_lower_bound; lia. }
  assert (Hhigh : y < 2 ^ 1146).
  { apply Z.div_lt_upper_bound; [lia|].
    replace (2 ^ 1146) with (70368744177664 * 2 ^ 1100)
      by (change 70368744177664 with (2 ^ 46); rewrite <- Z.pow_add_r by lia; reflexivity).
    nia. }
  assert (Hlog : 1100 <= Z.log2 y < 1146).
  { split; [apply Z.log2_le_pow2; lia | apply Z.log2_lt_pow2; lia]. }
  pose proof (Z.log2_spec y ltac:(lia)) as [_ Hspec].
  set (g := 52 - (Z.log2 y - 1100)).
  assert (Hg : 7 <= g <= 52) by (unfold g; lia).
  set (P := 2 ^ g).
  assert (HP : 128 <= P).
  { change 128 with (2 ^ 7). apply Z.pow_le_mono_r; lia. }
  assert (Hbelow : a + 1 <= 100 * 2 ^ (53 - g)).
  { assert (a < 100 * 2 ^ (53 - g)); [|lia].
    apply mul_pow2_lt_inv.
    rewrite <- Z.mul_assoc, <- Z.pow_add_r by lia.
    replace (53 - g + 1100) with (Z.succ (Z.log2 y)) by (unfold g; lia).
    apply div_lt_inv; [lia | exact Hspec]. }
  assert (Hsplit : 2 ^ (53 - g) * P = 9007199254740992).
  { unfold P. rewrite <- Z.pow_add_r by lia.
    replace (53 - g + g) with 53 by lia. reflexivity. }
  pose proof (roundHalfEven_near (a * P) 100 ltac:(lia)) as Hnear.
  pose proof (roundHalfEven_floor (a * P) 100 ltac:(lia)) as Hfloor.
  assert (Hdiv : P <= a * P / 100).
  { apply Z.div_le_lower_bound; nia. }
  set (m := Js.roundHalfEven (a * P) 100) in *.
  exists g, m.
  split; [exact Hg|]. split; [|split; [reflexivity | nia]].
  unfold Js.roundTiesToEven, Js.floorLog2. fold y.
  replace (Z.max (Z.log2 y - 1100 - 52) (-1074)) with (- g) by (unfold g; lia).
  replace (Z.max 0 (- - g)) with g by lia.
  replace (Z.max 0 (- g)) with 0 by lia.
  rewrite Z.pow_0_r, Z.mul_1_r. fold P. fold m.
  replace (Z.eqb m (2 ^ 53)) with false.
  - replace (Z.ltb 971 (- g)) with false by (symmetry; apply Z.ltb_ge; lia).
    reflexivity.
  - symmetry. apply Z.eqb_neq. change (2 ^ 53) with 9007199254740992. nia.
Qed.

(** Another fraction of hundredths that rounds to the same Number is the
    same fraction. *)
Lemma quotient_unique a g m n d c :
  7 <= g <= 52 ->
  m = Js.roundHalfEven (a * 2 ^ g) 100 ->
  0 < d ->
  n * 100 = c * d ->
  Js.roundTiesToEven false n d = Js.Finite false m (- g) ->
  c = a.
Proof.
  intros Hg Hm Hd Hratio.
  set (P := 2 ^ g).
  assert (HP : 128 <= P).
  { change 128 with (2 ^ 7). apply Z.pow_le_mono_r; lia. }
  pose proof (roundHalfEven_near (a * P) 100 ltac:(lia)) as Hnear.
  fold P in Hm. rewrite <- Hm in Hnear.
  unfold Js.roundTiesToEven.
  set (e := Z.max (Js.floorLog2 n d - 52) (-1074)).
  set (rounded := Js.roundHalfEven (n * 2 ^ Z.max 0 (- e)) (d * 2 ^ Z.max 0 e)).
  destruct (Z.eqb_spec rounded (2 ^ 53)) as [Hcarried|Hnot].
  - destruct (Z.ltb 971 (e + 1)); [discriminate|].
    intros [= Hm' He].
    assert (He' : e = - g - 1) by lia.
    pose proof (roundHalfEven_near (n * 2 ^ Z.max 0 (- e)) (d * 2 ^ Z.max 0 e)) as Hnear'.
    fold rounded in Hnear'. rewrite Hcarried in Hnear'.
    replace (Z.max 0 (- e)) with (g + 1) in Hnear' by lia.
    replace (Z.max 0 e) with 0 in Hnear' by lia.
    rewrite Z.pow_add_r, Z.pow_0_r, Z.pow_1_r, Z.mul_1_r in Hnear' by lia.
    fold P in Hnear'. specialize (Hnear' Hd).
    change (2 ^ 53) with 9007199254740992 in Hnear'.
    change (2 ^ 52) with 4503599627370496 in Hm'.
    assert (Hscaled : 100 * (n * (P * 2) - 9007199254740992 * d)
                      = d * (c * (P * 2) - 900719925474099200)) by nia.
    assert (- 100 <= 2 * (c * (P * 2) - 900719925474099200) <= 100) by nia.
    nia.
  - destruct (Z.ltb 971 e); [discriminate|].
    intros [= Hm' He].
    pose proof (roundHalfEven_near (n * 2 ^ Z.max 0 (- e)) (d * 2 ^ Z.max 0 e)) as Hnear'.
    fold rounded in Hnear'. rewrite Hm' in Hnear'.
    replace (Z.max 0 (- e)) with g in Hnear' by lia.
    replace (Z.max 0 e) with 0 in Hnear' by lia.
    rewrite Z.pow_0_r, Z.mul_1_r in Hnear'. fold P in Hnear'. specialize (Hnear' Hd).
    assert (Hscaled : 100 * (n * P - m * d) = d * (c * P - 100 * m)) by nia.
    assert (- 100 <= 2 * (c * P - 100 * m) <= 100) by nia.
    nia.
Qed.

(** *** The digits of a Number *)

Lemma digitCount_spec fuel z :
  1 <= z < 2 ^ Z.of_nat fuel ->
  1 <= Js.digitCount fuel z /\
  10 ^ (Js.digitCount fuel z - 1) <= z < 10 ^ Js.digitCount fuel z.
Proof.
  revert z. induction fuel as [|fuel IH]; intros z Hz.
  - simpl in Hz. lia.
  - cbn [Js.digitCount]. destruct (Z.ltb_spec z 10) as [Hsmall|Hbig].
    + simpl. lia.
    + assert (Hz' : 1 <= z / 10 < 2 ^ Z.of_nat fuel).
      { split; [apply Z.div_le_lower_bound; lia|].
        apply Z.div_lt_upper_bound; [lia|].
        rewrite Nat2Z.inj_succ, Z.pow_succ_r in Hz by lia. lia. }
      destruct (IH _ Hz') as (Hone & Hlow & Hhigh).
      set (c := Js.digitCount fuel (z / 10)) in *.
      pose proof (Z.div_mod z 10 ltac:(lia)). pose proof (Z.mod_pos_bound z 10 ltac:(lia)).
      replace (1 + c - 1) with (Z.succ (c - 1)) by lia.
      replace (1 + c) with (Z.succ c) by lia.
      rewrite !Z.pow_succ_r by lia. lia.
Qed.

Lemma decimalExponent_spec m P :
  0 < P <= m ->
  1 <= Js.decimalExponent m P /\
  10 ^ (Js.decimalExponent m P - 1) * P <= m < 10 ^ Js.decimalExponent m P * P.
Proof.
  intros HP. unfold Js.decimalExponent.
  replace (Z.leb P m) with true by (symmetry; apply Z.leb_le; lia).
  assert (Hz : 1 <= m / P < 2 ^ Z.of_nat (S (Z.to_nat (Z.log2 m)))).
  { split; [apply Z.div_le_lower_bound; lia|].
    apply Z.div_lt_upper_bound; [lia|].
    rewrite Nat2Z.inj_succ, Z2Nat.id by apply Z.log2_nonneg.
    pose proof (Z.log2_spec m ltac:(lia)) as [_ Hm].
    assert (0 < 2 ^ Z.succ (Z.log2 m)) by lia. nia. }
  destruct (digitCount_spec _ _ Hz) as (Hone & Hlow & Hhigh).
  split; [exact Hone|].
  pose proof (Z.div_mod m P ltac:(lia)). pose proof (Z.mod_pos_bound m P ltac:(lia)).
  set (c := Js.digitCount _ _) in *.
  assert (0 < 10 ^ (c - 1)) by (apply Z.pow_pos_nonneg; lia).
  split; [nia|]. rewrite Z.mul_comm. apply div_lt_inv; lia.
Qed.

Lemma shortestDigits_finds fuel x num den n first last :
  first <= last < first + Z.of_nat fuel ->
  Js.digitsOfLength x num den n last <> None ->
  exists s n' k,
    Js.shortestDigits fuel x num den n first = Some (s, n', k) /\
    first <= k <= last /\
    Js.digitsOfLength x num den n k = Some (s, n').
Proof.
  revert first. induction fuel as [|fuel IH]; intros first Hrange Hlast.
  - simpl in Hrange. lia.
  - cbn [Js.shortestDigits].
    destruct (Js.digitsOfLength x num den n first) as [[s n']|] eqn:Hfirst.
    + exists s, n', first. split; [reflexivity|]. split; [lia | exact Hfirst].
    + assert (first <> last) by (intros ->; congruence).
      destruct (IH (first + 1)) as (s & n' & k & Hfound & Hk & Hdigits);
        [lia | exact Hlast |].
      exists s, n', k. split; [exact Hfound|]. split; [lia | exact Hdigits].
Qed.

Lemma digitsOfLength_inv x num den n k s' n' :
  0 < den ->
  Js.digitsOfLength x num den n k = Some (s', n') ->
  let p := num * 10 ^ Z.max 0 (k - n) in
  let q := den * 10 ^ Z.max 0 (n - k) in
  exists s,
    Js.roundsTo x n k s = true /\
    (s = p / q \/ s = p / q + 1) /\
    ((s = 10 ^ k /\ s' = 10 ^ (k - 1) /\ n' = n + 1) \/
     (s <> 10 ^ k /\ s' = s /\ n' = n)).
Proof.
  intros Hden. unfold Js.digitsOfLength. cbv zeta.
  set (p := num * 10 ^ Z.max 0 (k - n)).
  set (q := den * 10 ^ Z.max 0 (n - k)).
  assert (Hq : 0 < q).
  { assert (0 < 10 ^ Z.max 0 (n - k)) by (apply Z.pow_pos_nonneg; lia). nia. }
  assert (Hout : forall s,
            (if Z.eqb s (10 ^ k) then Some (10 ^ (k - 1), n + 1) else Some (s, n))
            = Some (s', n') ->
            (s = 10 ^ k /\ s' = 10 ^ (k - 1) /\ n' = n + 1) \/
            (s <> 10 ^ k /\ s' = s /\ n' = n)).
  { intros s. destruct (Z.eqb_spec s (10 ^ k)); intros [= <- <-]; auto. }
  destruct (Js.roundsTo x n k (p / q)) eqn:Hbelow;
    destruct (Js.roundsTo x n k (p / q + 1)) eqn:Habove; try discriminate.
  - intros Hchosen. exists (Js.roundHalfEven p q).
    split; [|split; [exact (roundHalfEven_floor p q Hq) | exact (Hout _ Hchosen)]].
    destruct (roundHalfEven_floor p q Hq) as [-> | ->]; assumption.
  - intros Hchosen. exists (p / q).
    split; [assumption|]. split; [left; reflexivity | exact (Hout _ Hchosen)].
  - intros Hchosen. exists (p / q + 1).
    split; [assumption|]. split; [right; reflexivity | exact (Hout _ Hchosen)].
Qed.

Lemma digitsOfLength_some x num den n k s :
  let p := num * 10 ^ Z.max 0 (k - n) in
  let q := den * 10 ^ Z.max 0 (n - k) in
  Js.roundsTo x n k s = true ->
  s = p / q \/ s = p / q + 1 ->
  Js.digitsOfLength x num den n k <> None.
Proof.
  intros p q Hrounds Hs. unfold Js.digitsOfLength. fold p q.
  destruct Hs as [<- | <-]; rewrite Hrounds.
  - destruct (Js.roundsTo x n k (s + 1));
      match goal with |- context [Z.eqb ?a ?b] => destruct (Z.eqb a b) end; discriminate.
  - destruct (Js.roundsTo x n k (p / q));
      match goal with |- context [Z.eqb ?a ?b] => destruct (Z.eqb a b) end; discriminate.
Qed.

Lemma pow10_pos e : 0 < 10 ^ Z.max 0 e.
Proof. apply Z.pow_pos_nonneg; lia. Qed.

(** The digits of the quotient of an amount by 100 are those of the
    amount. *)
Lemma quotient_digits a g m :
  100 <= a < 7036874417766400 ->
  7 <= g <= 52 ->
  m = Js.roundHalfEven (a * 2 ^ g) 100 ->
  2 ^ g <= m <= 70368744177664 * 2 ^ g ->
  Js.roundTiesToEven false a 100 = Js.Finite false m (- g) ->
  exists s n k,
    Js.numberToString (Js.Finite false m (- g)) = Js.formatDigits s n k /\
    1 <= k /\ 1 <= n <= 15 /\ 0 <= s < 10 ^ k /\ 0 <= n - k + 2 /\
    s * 10 ^ (n - k + 2) = a.
Proof.
  intros Ha Hg Hm Hbounds Hrounded.
  set (P := 2 ^ g) in *.
  assert (HP : 128 <= P).
  { change 128 with (2 ^ 7). apply Z.pow_le_mono_r; lia. }
  pose proof (roundHalfEven_near (a * P) 100 ltac:(lia)) as Hnear.
  rewrite <- Hm in Hnear.
  unfold Js.numberToString.
  replace (Z.eqb m 0) with false by (symmetry; apply Z.eqb_neq; lia).
  cbv zeta.
  replace (Z.max 0 (- - g)) with g by lia.
  replace (Z.max 0 (- g)) with 0 by lia.
  rewrite Z.pow_0_r, Z.mul_1_r. fold P.
  destruct (decimalExponent_spec m P ltac:(lia)) as (Hone & Hlow & Hhigh).
  set (nx := Js.decimalExponent m P) in *.
  assert (Hnx : nx <= 14).
  { assert (Hlt : 10 ^ (nx - 1) < 10 ^ 14).
    { assert (10 ^ (nx - 1) <= 70368744177664) by nia.
      change (10 ^ 14) with 100000000000000. lia. }
    apply Z.pow_lt_mono_r_iff in Hlt; lia. }
  set (x := Js.Finite false m (- g)) in *.
  assert (Hstar : Js.digitsOfLength x m P nx (nx + 2) <> None).
  { apply (digitsOfLength_some x m P nx (nx + 2) a).
    - unfold Js.roundsTo.
      replace (Z.max 0 (nx - (nx + 2))) with 0 by lia.
      replace (Z.max 0 (nx + 2 - nx)) with 2 by lia.
      rewrite Z.pow_0_r, Z.mul_1_r. change (10 ^ 2) with 100.
      rewrite Hrounded. apply sameNumber_refl.
    - replace (Z.max 0 (nx - (nx + 2))) with 0 by lia.
      replace (Z.max 0 (nx + 2 - nx)) with 2 by lia.
      rewrite Z.pow_0_r, Z.mul_1_r. change (10 ^ 2) with 100.
      assert (a - 1 <= m * 100 / P) by (apply Z.div_le_lower_bound; nia).
      assert (m * 100 / P < a + 1) by (apply Z.div_lt_upper_bound; nia).
      lia. }
  destruct (shortestDigits_finds 17 x m P nx 1 (nx + 2) ltac:(lia) Hstar)
    as (s' & n' & k & -> & Hk & Hdigits).
  exists s', n', k. split; [reflexivity|].
  destruct (digitsOfLength_inv x m P nx k s' n' ltac:(lia) Hdigits)
    as (s & Hrounds & Hs & Hout).
  apply sameNumber_eq in Hrounds.
  pose proof (pow10_pos (nx - k)) as Hup. pose proof (pow10_pos (k - nx)) as Hdown.
  assert (Hvalue : s * 10 ^ (nx - k + 2) = a).
  { apply (quotient_unique a g m (s * 10 ^ Z.max 0 (nx - k)) (10 ^ Z.max 0 (k - nx)));
      [exact Hg | exact Hm | exact Hdown | | exact Hrounds].
    rewrite <- !Z.mul_assoc. f_equal.
    change 100 with (10 ^ 2).
    rewrite <- !Z.pow_add_r by lia. f_equal. lia. }
  assert (Hrange : 0 <= s <= 10 ^ k).
  { set (p := m * 10 ^ Z.max 0 (k - nx)) in *.
    set (q := P * 10 ^ Z.max 0 (nx - k)) in *.
    assert (Hq : 0 < q) by (unfold q; nia).
    assert (0 <= p / q) by (apply Z.div_pos; [unfold p; nia | exact Hq]).
    assert (p / q < 10 ^ k); [|lia].
    apply Z.div_lt_upper_bound; [exact Hq|].
    unfold p, q.
    replace (P * 10 ^ Z.max 0 (nx - k) * 10 ^ k)
      with (10 ^ nx * P * 10 ^ Z.max 0 (k - nx)).
    - apply Z.mul_lt_mono_pos_r; [exact Hdown | exact Hhigh].
    - rewrite <- !Z.mul_assoc, (Z.mul_comm (10 ^ nx)), <- !Z.mul_assoc. f_equal.
      rewrite <- !Z.pow_add_r by lia. f_equal. lia. }
  split; [lia|].
  destruct Hout as [(Hten & -> & ->) | (Hnot & -> & ->)].
  - assert (0 < 10 ^ (k - 1)) by (apply Z.pow_pos_nonneg; lia).
    split; [lia|]. split.
    + split; [lia|]. apply Z.pow_lt_mono_r; lia.
    + split; [lia|]. rewrite <- Hvalue, Hten.
      rewrite <- !Z.pow_add_r by lia. f_equal. lia.
  - split; [lia|]. split; [lia|]. split; [lia | exact Hvalue].
Qed.

(** *** Numerals *)

Lemma digitChar_spec d :
  0 <= d <= 9 -> digitValue (Js.digitChar d) = Some d /\ notPoint (Js.digitChar d).
Proof.
  intros Hd.
  assert (Hcases : d = 0 \/ d = 1 \/ d = 2 \/ d = 3 \/ d = 4 \/ d = 5 \/ d = 6 \/
                   d = 7 \/ d = 8 \/ d = 9) by lia.
  destruct Hcases as [->|[->|[->|[->|[->|[->|[->|[->|[->| ->]]]]]]]]];
    split; reflexivity.
Qed.

Lemma digits_length k s : length (Js.digits k s) = k.
Proof.
  revert s. induction k as [|k IH]; intros s; [reflexivity|].
  cbn [Js.digits]. rewrite length_app, IH. simpl. lia.
Qed.

Lemma digits_notPoint k s : Forall notPoint (Js.digits k s).
Proof.
  revert s. induction k as [|k IH]; intros s; [constructor|].
  cbn [Js.digits]. apply Forall_app. split; [apply IH|].
  constructor; [|constructor].
  apply digitChar_spec. pose proof (Z.mod_pos_bound s 10 ltac:(lia)). lia.
Qed.

Lemma digitsValue_digits k s acc rest :
  0 <= s < 10 ^ Z.of_nat k ->
  digitsValue acc (Js.digits k s ++ rest) =
  digitsValue (acc * 10 ^ Z.of_nat k + s) rest.
Proof.
  revert s rest. induction k as [|k IH]; intros s rest Hs.
  - simpl in *. f_equal. lia.
  - cbn [Js.digits]. rewrite <- app_assoc.
    pose proof (Z.div_mod s 10 ltac:(lia)) as Hdiv.
    pose proof (Z.mod_pos_bound s 10 ltac:(lia)) as Hmod.
    rewrite Nat2Z.inj_succ, Z.pow_succ_r in * by lia.
    rewrite IH.
    + cbn [app digitsValue].
      destruct (digitChar_spec (s mod 10) ltac:(lia)) as [-> _].
      f_equal. lia.
    + split; [apply Z.div_pos; lia|]. apply Z.div_lt_upper_bound; lia.
Qed.

Lemma digitsValue_zeros j acc :
  digitsValue acc (repeat "0"%char j) = Some (acc * 10 ^ Z.of_nat j).
Proof.
  revert acc. induction j as [|j IH]; intros acc.
  - simpl. f_equal. lia.
  - cbn [repeat digitsValue]. change (digitValue "0") with (Some 0). cbv iota beta.
    rewrite IH, Nat2Z.inj_succ, Z.pow_succ_r by lia. f_equal. lia.
Qed.

Lemma splitAtPoint_none l :
  Forall notPoint l -> splitAtPoint l = (l, None).
Proof.
  induction 1 as [|c l Hc _ IH]; [reflexivity|].
  cbn [splitAtPoint]. rewrite Hc, IH. reflexivity.
Qed.

Lemma splitAtPoint_point whole fraction :
  Forall notPoint whole ->
  splitAtPoint (whole ++ "."%char :: fraction) = (whole, Some fraction).
Proof.
  induction 1 as [|c l Hc _ IH]; [reflexivity|].
  cbn [app splitAtPoint]. rewrite Hc, IH. reflexivity.
Qed.

Lemma zeros_notPoint j : Forall notPoint (repeat "0"%char j).
Proof. induction j; constructor; [reflexivity | assumption]. Qed.

(** The numeral of digits and a decimal exponent, read back. *)
Lemma formatDigits_value s n k :
  1 <= k -> 1 <= n <= 21 -> 0 <= s < 10 ^ k ->
  unsignedDecimalValue (list_ascii_of_string (Js.formatDigits s n k)) =
  Some (if Z.leb k n then (s * 10 ^ (n - k), 1) else (s, 10 ^ (k - n))).
Proof.
  intros Hk Hn Hs. unfold Js.formatDigits. cbv zeta.
  replace (Z.leb (-5) n && Z.leb n 21) with true
    by (symmetry; apply andb_true_iff; split; apply Z.leb_le; lia).
  set (ds := Js.digits (Z.to_nat k) s).
  assert (Hlength : length ds = Z.to_nat k) by apply digits_length.
  assert (Hdigits : Forall notPoint ds) by apply digits_notPoint.
  assert (Hvalue : forall rest, digitsValue 0 (ds ++ rest) = digitsValue s rest).
  { intros rest. unfold ds. rewrite digitsValue_digits by (rewrite Z2Nat.id; lia).
    reflexivity. }
  destruct (Z.leb_spec k n) as [Hwhole|Hpoint].
  - rewrite list_ascii_of_string_of_list_ascii. unfold unsignedDecimalValue.
    rewrite splitAtPoint_none by (apply Forall_app; split; [exact Hdigits | apply zeros_notPoint]).
    rewrite Hvalue, digitsValue_zeros, Z2Nat.id by lia.
    destruct (ds ++ repeat "0"%char (Z.to_nat (n - k))) as [|c l] eqn:Hlist; [|reflexivity].
    apply (f_equal (@length ascii)) in Hlist. rewrite length_app, Hlength in Hlist.
    simpl in Hlist. lia.
  - replace (Z.ltb 0 n) with true by (symmetry; apply Z.ltb_lt; lia).
    rewrite list_ascii_of_string_of_list_ascii. unfold unsignedDecimalValue.
    rewrite splitAtPoint_point by (apply Forall_take; exact Hdigits).
    assert (Hfirst : length (firstn (Z.to_nat n) ds) = Z.to_nat n)
      by (rewrite length_firstn; lia).
    assert (Hrest : length (skipn (Z.to_nat n) ds) = Z.to_nat (k - n))
      by (rewrite length_skipn; lia).
    destruct (firstn (Z.to_nat n) ds) as [|c whole] eqn:Hwhole;
      [simpl in Hfirst; lia|].
    destruct (skipn (Z.to_nat n) ds) as [|c' fraction] eqn:Hfraction;
      [simpl in Hrest; lia|].
    assert (Hall : digitsValue 0 ((c :: whole) ++ c' :: fraction) = Some s).
    { rewrite <- Hwhole, <- Hfraction, firstn_skipn.
      rewrite <- (app_nil_r ds), Hvalue. reflexivity. }
    rewrite Hall, Hrest, Z2Nat.id by lia. reflexivity.
Qed.

Lemma unsignedDecimalValue_minus l : unsignedDecimalValue ("-"%char :: l) = None.
Proof.
  unfold unsignedDecimalValue. cbn [splitAtPoint].
  change (Ascii.eqb "-" ".") with false. cbv iota.
  destruct (splitAtPoint l) as [whole [[|c fraction]|]]; reflexivity.
Qed.

Lemma decimalValue_unsigned s v :
  unsignedDecimalValue (list_ascii_of_string s) = Some v -> decimalValue s = Some v.
Proof.
  unfold decimalValue.
  destruct (list_ascii_of_string s) as [|c l]; [intros H; exact H|].
  destruct (Ascii.eqb_spec c "-"%char) as [->|Hc].
  - rewrite unsignedDecimalValue_minus. discriminate.
  - intros H. destruct c as [[] [] [] [] [] [] [] []]; try exact H.
    destruct Hc. reflexivity.
Qed.

Lemma decimalValue_minus s n d :
  unsignedDecimalValue (list_ascii_of_string s) = Some (n, d) ->
  decimalValue ("-" +:+ s) = Some (- n, d).
Proof.
  intros H. unfold decimalValue.
  change (list_ascii_of_string ("-" +:+ s)) with ("-"%char :: list_ascii_of_string s).
  cbv iota beta. rewrite H. reflexivity.
Qed.

(** *** Amounts *)

Lemma exactNumeral_denotes amount :
  exactNumeral amount = true -> denotes (amountToString amount) amount 100.
Proof.
  unfold exactNumeral, denotes.
  destruct (decimalValue (amountToString amount)) as [[n d]|]; [|discriminate].
  rewrite andb_true_iff, Z.ltb_lt, Z.eqb_eq. intros [Hd Hn]. eauto.
Qed.

Lemma amountToString_small amount :
  - 100 < amount < 100 -> exactNumeral amount = true.
Proof.
  intros Hrange.
  assert (Hall : forallb exactNumeral (seqZ (-99) 199) = true)
    by (vm_compute; reflexivity).
  rewrite forallb_forall in Hall. apply Hall.
  apply list_elem_of_In, elem_of_seqZ. lia.
Qed.

Lemma amountToString_middle amount :
  100 <= amount < 7036874417766400 ->
  exists n d,
    unsignedDecimalValue (list_ascii_of_string (amountToString amount)) = Some (n, d) /\
    0 < d /\ n * 100 = amount * d.
Proof.
  intros Hrange. unfold amountToString.
  rewrite divide_by_100 by (change (2 ^ 53) with 9007199254740992; lia).
  destruct (quotient_rounded amount Hrange) as (g & m & Hg & Hrounded & Hm & Hbounds).
  rewrite Hrounded.
  destruct (quotient_digits amount g m Hrange Hg Hm Hbounds Hrounded)
    as (s & n & k & -> & Hk & Hn & Hs & Hscale & Hvalue).
  rewrite formatDigits_value by lia.
  destruct (Z.leb_spec k n) as [Hwhole|Hpoint].
  - exists (s * 10 ^ (n - k)), 1. split; [reflexivity|]. split; [lia|].
    rewrite <- Hvalue, Z.mul_1_r, <- Z.mul_assoc. f_equal.
    change 100 with (10 ^ 2). rewrite <- Z.pow_add_r by lia. reflexivity.
  - exists s, (10 ^ (k - n)). split; [reflexivity|].
    split; [apply Z.pow_pos_nonneg; lia|].
    rewrite <- Hvalue, <- Z.mul_assoc. f_equal.
    change 100 with (10 ^ 2). rewrite <- Z.pow_add_r by lia. f_equal. lia.
Qed.

Lemma numberToString_negative m e :
  m <> 0 ->
  Js.numberToString (Js.Finite true m e) = "-" +:+ Js.numberToString (Js.Finite false m e).
Proof.
  intros Hm. unfold Js.numberToString.
  destruct (Z.eqb_spec m 0); [contradiction | reflexivity].
Qed.

Lemma divide_negative a :
  0 < a < 2 ^ 53 ->
  Js.divide (Js.ofZ (- a)) (Js.ofZ 100) =
  match Js.divide (Js.ofZ a) (Js.ofZ 100) with
  | Js.Finite _ m e => Js.Finite true m e
  | Js.Infinity _ => Js.Infinity true
  | Js.NaN => Js.NaN
  end.
Proof.
  intros Ha.
  assert (Hof : Js.ofZ (- a) =
                match Js.ofZ a with
                | Js.Finite _ m e => Js.Finite true m e
                | Js.Infinity _ => Js.Infinity true
                | Js.NaN => Js.NaN
                end).
  { unfold Js.ofZ.
    replace (Z.ltb (- a) 0) with true by (symmetry; apply Z.ltb_lt; lia).
    replace (Z.ltb a 0) with false by (symmetry; apply Z.ltb_ge; lia).
    rewrite Z.abs_opp. apply roundTiesToEven_sign. }
  rewrite Hof, (ofZ_exact a Ha), ofZ_100. unfold Js.divide.
  replace (Z.eqb 7036874417766400 0) with false by reflexivity.
  change (xorb true false) with true. change (xorb false false) with false.
  apply roundTiesToEven_sign.
Qed.


(** The division of Numbers gives what the division of the processor
    gives, on amounts small and large. *)
Lemma divide_agrees_with_binary64 :
  forallb (fun amount => sameQuotient amount 100)
    [0; 1; 5; 10; 99; 100; 1667; 1999; 123456789; 2147483647;
     7036874417766399; 7036874417766400; 7036874417766401; 9007199254740991]
  = true.
Proof. vm_compute. reflexivity. Qed.

(** C8, with the bound that the code has.  For every amount, the price
    value of the payload of the request for a plan is the string of the
    amount divided by 100, 1667 giving [16.67]; for an amount of at most
    [100 * 2 ^ 46] in absolute value, this numeral denotes exactly the
    amount divided by 100. *)
Theorem amountToString_exact amount :
  (forall E host collective productId interval currency tier,
     fixedPrices
       (planRequest E host collective productId interval amount currency tier)
     = [amountToString amount]) /\
  amountToString 1667 = "16.67" /\
  (- 7036874417766400 <= amount <= 7036874417766400 ->
   denotes (amountToString amount) amount 100).
Proof.
  split; [intros; reflexivity|]. split; [vm_compute; reflexivity|].
  intros Hrange.
  destruct (Z.eq_dec amount 7036874417766400) as [->|Htop].
  { apply exactNumeral_denotes. vm_compute. reflexivity. }
  destruct (Z.eq_dec amount (- 7036874417766400)) as [->|Hbottom].
  { apply exactNumeral_denotes. vm_compute. reflexivity. }
  destruct (Z_lt_le_dec amount 100) as [Hless|Hmore].
  - destruct (Z_lt_le_dec (- 100) amount) as [Hsmall|Hnegative].
    + apply exactNumeral_denotes, amountToString_small. lia.
    + destruct (amountToString_middle (- amount) ltac:(lia)) as (n & d & Hvalue & Hd & Hn).
      exists (- n), d. split; [|split; [exact Hd | lia]].
      assert (Hsign : amountToString amount = "-" +:+ amountToString (- amount)).
      { unfold amountToString.
        replace amount with (- - amount) at 1 by lia.
        rewrite divide_negative by (change (2 ^ 53) with 9007199254740992; lia).
        rewrite divide_by_100 by (change (2 ^ 53) with 9007199254740992; lia).
        destruct (quotient_rounded (- amount) ltac:(lia))
          as (g & m & Hg & -> & Hm & Hbounds).
        apply numberToString_negative.
        assert (0 < 2 ^ g) by (apply Z.pow_pos_nonneg; lia). lia. }
      rewrite Hsign. apply decimalValue_minus. exact Hvalue.
  - destruct (amountToString_middle amount ltac:(lia)) as (n & d & Hvalue & Hd & Hn).
    exists n, d. split; [|split; assumption].
    apply decimalValue_unsigned. exact Hvalue.
Qed.

Lemma amountToString_exact_witness : denotes (amountToString 1667) 1667 100.
Proof.
  refine (proj2 (proj2 (amountToString_exact 1667)) _). lia.
Defined.

(** C8 fails on the code for large amounts: the amount
    [100 * 2 ^ 46 + 1] and the next one have the same quotient by 100, so
    the same string, which denotes the next one divided by 100. *)
Lemma amountToString_inexact :
  amountToString 7036874417766401 = "70368744177664.02" /\
  decimalValue "70368744177664.02" = Some (7036874417766402, 100) /\
  Js.divide (Js.ofZ 7036874417766401) (Js.ofZ 100)
  = Js.divide (Js.ofZ 7036874417766402) (Js.ofZ 100) /\
  ~ denotes (amountToString 7036874417766401) 7036874417766401 100.
Proof.
  assert (Hstring : amountToString 7036874417766401 = "70368744177664.02")
    by (vm_compute; reflexivity).
  assert (Hvalue : decimalValue "70368744177664.02" = Some (7036874417766402, 100))
    by (vm_compute; reflexivity).
  split; [exact Hstring|]. split; [exact Hvalue|].
  split; [vm_compute; reflexivity|].
  intros (n & d & Hdenoted & Hd & Hn).
  rewrite Hstring, Hvalue in Hdenoted. injection Hdenoted as <- <-. lia.
Qed.

(** * Further properties *)

(** ** What the verifier does not look at *)

Lemma findPlanForOrder_terms order order' plan_id s f :
  (forall plan, PaypalPlan.ProductId (f plan) = PaypalPlan.ProductId plan) ->
  Order.CollectiveId order' = Order.CollectiveId order ->
  Order.TierId order' = Order.TierId order ->
  findPlanForOrder order' plan_id (withPaypalPlans (fmap f) s) =
  f <$> findPlanForOrder order plan_id s.
Proof.
  intros Hproduct Hcollective Htier. unfold findPlanForOrder. simpl.
  rewrite lookup_fmap, Hcollective, Htier.
  destruct (paypalPlans s !! plan_id) as [plan|]; simpl; [|reflexivity].
  rewrite Hproduct.
  destruct (paypalProducts s !! PaypalPlan.ProductId plan) as [product|];
    [|reflexivity].
  destruct (productWhere _ _ product); reflexivity.
Qed.

(** X1. The verdict of [verifySubscription] depends on the order only
    through its collective, tier and total amount, and on a plan only
    through its id, product and amount: the currency and the interval of
    the order and of the plan are not compared. *)
Theorem verifySubscription_terms_unchecked order order' paypalSubscription w f :
  (forall plan, PaypalPlan.ProductId (f plan) = PaypalPlan.ProductId plan) ->
  (forall plan, PaypalPlan.amount (f plan) = PaypalPlan.amount plan) ->
  Order.CollectiveId order' = Order.CollectiveId order ->
  Order.TierId order' = Order.TierId order ->
  Order.totalAmount order' = Order.totalAmount order ->
  fst (verifySubscription order' paypalSubscription (withPlanTerms f w)) =
  fst (verifySubscription order paypalSubscription w).
Proof.
  intros Hproduct Hamount Hcollective Htier Htotal.
  rewrite !verifySubscription_run. cbn [fst db withPlanTerms].
  destruct (negb _); [reflexivity|].
  rewrite (findPlanForOrder_terms order order' _ _ f Hproduct Hcollective Htier).
  destruct (findPlanForOrder order _ (db w)) as [plan|]; simpl; [|reflexivity].
  rewrite Hamount, Htotal. reflexivity.
Qed.

Lemma verifySubscription_terms_unchecked_witness :
  fst (verifySubscription Sample.yearlyOrder Sample.approved
         (withPlanTerms Sample.monthlyDollars (Sample.start Sample.catalog)))
  = Ok tt.
Proof.
  refine (eq_trans
    (verifySubscription_terms_unchecked Sample.newOrder Sample.yearlyOrder
       Sample.approved (Sample.start Sample.catalog) Sample.monthlyDollars
       _ _ _ _ _) _).
  - reflexivity.
  - reflexivity.
  - reflexivity.
  - reflexivity.
  - reflexivity.
  - reflexivity.
Defined.

(** ** Amounts that are accepted *)

Lemma checkSubscriptionDetails_Ok_iff order tier amountInCents :
  checkSubscriptionDetails order tier amountInCents = Ok tt <->
  ~ rejected order tier amountInCents.
Proof.
  rewrite <- checkSubscriptionDetails_Throw_iff.
  destruct (checkSubscriptionDetails order tier amountInCents) as [[]|e].
  - split; [intros _ [e He]; discriminate | reflexivity].
  - split; [discriminate | intros Hnot; destruct Hnot; eauto].
Qed.

(** X2. The checks of [checkSubscriptionDetails] are lower bounds only: an
    amount above an accepted amount is accepted for the same order and
    tier; so a FIXED tier accepts every amount from its own amount up. *)
Theorem checkSubscriptionDetails_monotone order tier amountInCents more :
  checkSubscriptionDetails order tier amountInCents = Ok tt ->
  amountInCents <= more ->
  checkSubscriptionDetails order tier more = Ok tt.
Proof.
  rewrite !checkSubscriptionDetails_Ok_iff. intros Haccepted Hle Hrejected.
  apply Haccepted. unfold rejected in *.
  destruct Hrejected as [Hlow | (t & Htier & [Hother | [Hflexible | Hfixed]])].
  - left. lia.
  - right. exists t. auto.
  - right. exists t. split; [assumption|]. right. left.
    destruct Hflexible as (Htype & minimum & Hminimum & Hlt).
    split; [assumption|]. exists minimum. split; [assumption | lia].
  - right. exists t. split; [assumption|]. right. right.
    destruct Hfixed as (Htype & fixed & Hfixed & Hlt).
    split; [assumption|]. exists fixed. split; [assumption | lia].
Qed.

Lemma checkSubscriptionDetails_monotone_witness :
  checkSubscriptionDetails Sample.recurringOrder
    (Some (Sample.tier 1 "FIXED" (Some 500) None)) 900 = Ok tt.
Proof.
  apply (checkSubscriptionDetails_monotone Sample.recurringOrder
           (Some (Sample.tier 1 "FIXED" (Some 500) None)) 500 900).
  - reflexivity.
  - lia.
Defined.

(** ** Plans and products: every path *)

(** [getOrCreatePlan], path by path. *)
Lemma getOrCreatePlan_run E host collective interval amount currency tier w :
  getOrCreatePlan E host collective interval amount currency tier w =
  match findOne (productWhere (Collective.id collective) (tierIdOrNull tier))
          (paypalProducts (db w)) with
  | Some product =>
      match findOne (planWhere (PaypalProduct.id product) currency interval amount)
              (paypalPlans (db w)) with
      | Some plan => (Ok plan, w)
      | None =>
          let planRequested :=
            planRequest E host collective (PaypalProduct.id product)
              interval amount currency tier in
          match paypalRequest E (log w) planRequested with
          | Throw e => (Throw e, after w [Requested planRequested] (db w))
          | Ok createdPlan =>
              let row :=
                planRow createdPlan (PaypalProduct.id product) amount currency interval in
              let create := CreatePaypalPlan row in
              if dbFails E (log w ++ [Requested planRequested]) create
              then (Throw DatabaseError,
                    after w [Requested planRequested; Wrote create] (db w))
              else
                match paypalPlans (db w) !! Paypal.id createdPlan with
                | Some _ =>
                    (Throw UniqueConstraintError,
                     after w [Requested planRequested; Wrote create] (db w))
                | None =>
                    (Ok row,
                     after w [Requested planRequested; Wrote create]
                       (withPaypalPlans (insert (Paypal.id createdPlan) row) (db w)))
                end
          end
      end
  | None =>
      let productRequested := productRequest E host collective tier in
      match paypalRequest E (log w) productRequested with
      | Throw e => (Throw e, after w [Requested productRequested] (db w))
      | Ok createdProduct =>
          let planRequested :=
            planRequest E host collective (Paypal.id createdProduct)
              interval amount currency tier in
          match paypalRequest E (log w ++ [Requested productRequested]) planRequested with
          | Throw e =>
              (Throw e,
               after w [Requested productRequested; Requested planRequested] (db w))
          | Ok createdPlan =>
              let product := productRow createdProduct collective tier in
              let row :=
                planRow createdPlan (Paypal.id createdProduct) amount currency interval in
              let createProduct := CreatePaypalProduct product in
              let createPlan := CreatePaypalPlan row in
              let first :=
                [Requested productRequested; Requested planRequested;
                 Wrote createProduct] in
              let logged :=
                [Requested productRequested; Requested planRequested;
                 Wrote createProduct; Wrote createPlan] in
              let recorded :=
                withPaypalProducts (insert (Paypal.id createdProduct) product) (db w) in
              if dbFails E
                   (log w ++ [Requested productRequested; Requested planRequested])
                   createProduct
              then (Throw DatabaseError, after w first (db w))
              else
                match paypalProducts (db w) !! Paypal.id createdProduct with
                | Some _ => (Throw UniqueConstraintError, after w first (db w))
                | None =>
                    if dbFails E (log w ++ first) createPlan
                    then (Throw DatabaseError, after w logged recorded)
                    else
                      match paypalPlans (db w) !! Paypal.id createdPlan with
                      | Some _ => (Throw UniqueConstraintError, after w logged recorded)
                      | None =>
                          (Ok row,
                           after w logged
                             (withPaypalPlans (insert (Paypal.id createdPlan) row)
                                recorded))
                      end
                end
          end
      end
  end.
Proof.
  unfold getOrCreatePlan, createPaypalProduct, createPaypalPlan, planRow, productRow.
  unfold bind at 1. unfold gets at 1.
  destruct (findOne _ (paypalProducts (db w))) as [product|].
  - unfold bind at 1. unfold gets at 1.
    destruct (findOne _ (paypalPlans (db w))) as [plan|]; [reflexivity|].
    unfold bind at 1. rewrite request_run.
    destruct (paypalRequest E (log w) _) as [createdPlan|e]; [|reflexivity].
    unfold bind, ret, write, after. simpl.
    destruct (dbFails E _ _); [rewrite <- app_assoc; reflexivity|].
    destruct (paypalPlans (db w) !! Paypal.id createdPlan);
      rewrite <- app_assoc; reflexivity.
  - unfold bind at 1. rewrite request_run.
    destruct (paypalRequest E (log w) _) as [createdProduct|e]; [|reflexivity].
    unfold bind at 1. rewrite request_run.
    change (log (after w [Requested (productRequest E host collective tier)] (db w)))
      with (log w ++ [Requested (productRequest E host collective tier)]).
    destruct (paypalRequest E _ _) as [createdPlan|e].
    2:{ rewrite after_after. reflexivity. }
    unfold bind, ret, write, after. simpl.
    rewrite <- !app_assoc. simpl.
    destruct (dbFails E _ _); [reflexivity|].
    destruct (paypalProducts (db w) !! Paypal.id createdProduct);
      [reflexivity|].
    simpl. rewrite <- !app_assoc. simpl.
    destruct (dbFails E _ _); [reflexivity|].
    destruct (paypalPlans (db w) !! Paypal.id createdPlan); reflexivity.
Qed.

Lemma findOne_product_None collective tier s :
  storedTier tier ->
  noProduct s collective tier ->
  findOne (productWhere (Collective.id collective) (tierIdOrNull tier))
    (paypalProducts s) = None.
Proof.
  intros Hstored Hnone.
  destruct (findOne _ (paypalProducts s)) as [found|] eqn:Hfind; [|reflexivity].
  apply findOne_Some in Hfind as [Hfound [k Hk]].
  apply productWhere_spec in Hfound. rewrite (tierIdOrNull_stored _ Hstored) in Hfound.
  destruct (Hnone k found Hk Hfound).
Qed.

Lemma findOne_product_Some collective tier s k product :
  uniqueProducts s ->
  paypalProducts s !! k = Some product ->
  PaypalProduct.CollectiveId product = Collective.id collective ->
  PaypalProduct.TierId product = tierIdOrNull tier ->
  findOne (productWhere (Collective.id collective) (tierIdOrNull tier))
    (paypalProducts s) = Some product.
Proof.
  intros Hunique Hk Hcollective Htier.
  apply (findOne_unique _ _ k); [assumption | apply productWhere_spec; auto |].
  intros k' found Hk' Hfound. apply productWhere_spec in Hfound as [Hc Ht].
  assert (k' = k) by (apply (Hunique k' k found product); congruence).
  congruence.
Qed.

(** X3. When the product of the collective and tier is recorded and none of
    its plans has the currency, interval and amount asked for,
    [getOrCreatePlan] requests one plan for that product from the gateway,
    records it under that product, and returns it: no product is requested
    and the products are as they were. *)
Theorem getOrCreatePlan_adds_plan E host collective interval amount currency tier w
    k product createdPlan :
  let planRequested :=
    planRequest E host collective (PaypalProduct.id product) interval amount currency tier in
  let row := planRow createdPlan (PaypalProduct.id product) amount currency interval in
  let create := CreatePaypalPlan row in
  uniqueProducts (db w) ->
  paypalProducts (db w) !! k = Some product ->
  PaypalProduct.CollectiveId product = Collective.id collective ->
  PaypalProduct.TierId product = tierIdOrNull tier ->
  (forall k' plan,
     paypalPlans (db w) !! k' = Some plan ->
     ~ (PaypalPlan.ProductId plan = PaypalProduct.id product /\
        PaypalPlan.currency plan = currency /\
        PaypalPlan.interval plan = interval /\
        PaypalPlan.amount plan = amount)) ->
  paypalRequest E (log w) planRequested = Ok createdPlan ->
  paypalPlans (db w) !! Paypal.id createdPlan = None ->
  dbFails E (log w ++ [Requested planRequested]) create = false ->
  getOrCreatePlan E host collective interval amount currency tier w =
  (Ok row,
   after w [Requested planRequested; Wrote create]
     (withPaypalPlans (insert (Paypal.id createdPlan) row) (db w))).
Proof.
  intros planRequested row create Hunique Hk Hcollective Htier Hnoplan Hrequest
    Hfresh Hwrite.
  rewrite getOrCreatePlan_run.
  rewrite (findOne_product_Some _ _ _ _ _ Hunique Hk Hcollective Htier).
  destruct (findOne _ (paypalPlans (db w))) as [found|] eqn:Hfind.
  { apply findOne_Some in Hfind as [Hfound [k' Hk']].
    apply planWhere_spec in Hfound. destruct (Hnoplan k' found Hk' Hfound). }
  cbv zeta. fold planRequested. rewrite Hrequest. fold row. fold create.
  rewrite Hwrite, Hfresh. reflexivity.
Qed.

Lemma getOrCreatePlan_adds_plan_witness :
  exists plan w1,
    getOrCreatePlan Sample.reliableCatalog Sample.host Sample.host "year" 12000 "USD"
      None (Sample.start Sample.catalog) = (Ok plan, w1) /\
    paypalProducts (db w1) = paypalProducts Sample.catalog.
Proof.
  eexists. eexists. split.
  - apply (getOrCreatePlan_adds_plan Sample.reliableCatalog Sample.host Sample.host
             "year" 12000 "USD" None (Sample.start Sample.catalog)
             "PROD-1" Sample.product Sample.createdPlan).
    + intros k1 k2 p1 p2 H1 H2 _ _.
      cbn [db Sample.start Sample.catalog paypalProducts] in H1, H2.
      apply lookup_singleton_Some in H1 as [<- _].
      apply lookup_singleton_Some in H2 as [<- _]. reflexivity.
    + reflexivity.
    + reflexivity.
    + reflexivity.
    + intros k' plan Hk' (_ & _ & Hinterval & _).
      cbn [db Sample.start Sample.catalog paypalPlans] in Hk'.
      apply lookup_singleton_Some in Hk' as [_ <-]. discriminate.
    + reflexivity.
    + reflexivity.
    + reflexivity.
  - reflexivity.
Defined.

(** X4. The plan that [getOrCreatePlan] returns has the amount, currency
    and interval asked for, is recorded, and its product is recorded for
    the collective and tier asked for. *)
Theorem getOrCreatePlan_returns_terms E host collective interval amount currency tier
    w plan w' :
  storedTier tier ->
  getOrCreatePlan E host collective interval amount currency tier w = (Ok plan, w') ->
  PaypalPlan.amount plan = amount /\
  PaypalPlan.currency plan = currency /\
  PaypalPlan.interval plan = interval /\
  (exists k, paypalPlans (db w') !! k = Some plan) /\
  (exists k product,
     paypalProducts (db w') !! k = Some product /\
     PaypalProduct.id product = PaypalPlan.ProductId plan /\
     PaypalProduct.CollectiveId product = Collective.id collective /\
     PaypalProduct.TierId product = Tier.id <$> tier).
Proof.
  intros Hstored. rewrite getOrCreatePlan_run.
  destruct (findOne _ (paypalProducts (db w))) as [product|] eqn:Hproduct.
  - apply findOne_Some in Hproduct as [Hwhere [k Hk]].
    apply productWhere_spec in Hwhere as [Hcollective Htier].
    rewrite (tierIdOrNull_stored _ Hstored) in Htier.
    destruct (findOne _ (paypalPlans (db w))) as [found|] eqn:Hplan.
    + apply findOne_Some in Hplan as [Hfound [k' Hk']].
      apply planWhere_spec in Hfound as (Hp & Hc & Hi & Ha).
      intros [= <- <-]. repeat (split; [assumption|]).
      split; [eauto|]. exists k, product. auto.
    + cbv zeta. repeat case_step; try discriminate.
      intros [= <- <-]. repeat (split; [reflexivity|]).
      split; [exists (Paypal.id a); apply lookup_insert_eq|].
      exists k, product. auto.
  - cbv zeta. repeat case_step; try discriminate.
    intros [= <- <-]. repeat (split; [reflexivity|]).
    split; [exists (Paypal.id a0); apply lookup_insert_eq|].
    exists (Paypal.id a), (productRow a collective tier).
    split; [apply lookup_insert_eq|]. repeat split.
Qed.

Lemma getOrCreatePlan_returns_terms_witness :
  PaypalPlan.amount
    match fst (getOrCreatePlan Sample.reliableCatalog Sample.host Sample.host "month"
                 1000 "USD" None (Sample.start Sample.catalog)) with
    | Ok plan => plan
    | Throw _ => Sample.plan
    end = 1000.
Proof.
  refine (proj1
    (getOrCreatePlan_returns_terms Sample.reliableCatalog Sample.host Sample.host
       "month" 1000 "USD" None (Sample.start Sample.catalog)
       Sample.plan (Sample.start Sample.catalog) _ _)).
  - intros t [=].
  - vm_compute. reflexivity.
Defined.

(** X5. A failure of the gateway goes through [getOrCreatePlan] as it is
    and nothing is recorded: when the request for the product fails, no
    plan is requested; when the request for the plan fails after the
    product was created at the gateway, that product is not recorded. *)
Theorem getOrCreatePlan_gateway_failure E host collective interval amount currency tier w :
  let productRequested := productRequest E host collective tier in
  storedTier tier ->
  noProduct (db w) collective tier ->
  (forall e,
     paypalRequest E (log w) productRequested = Throw e ->
     getOrCreatePlan E host collective interval amount currency tier w =
     (Throw e, after w [Requested productRequested] (db w))) /\
  (forall createdProduct e,
     let planRequested :=
       planRequest E host collective (Paypal.id createdProduct)
         interval amount currency tier in
     paypalRequest E (log w) productRequested = Ok createdProduct ->
     paypalRequest E (log w ++ [Requested productRequested]) planRequested = Throw e ->
     getOrCreatePlan E host collective interval amount currency tier w =
     (Throw e, after w [Requested productRequested; Requested planRequested] (db w))).
Proof.
  intros productRequested Hstored Hnone.
  split.
  - intros e Hproduct. rewrite getOrCreatePlan_run.
    rewrite (findOne_product_None _ _ _ Hstored Hnone).
    cbv zeta. fold productRequested. rewrite Hproduct. reflexivity.
  - intros createdProduct e planRequested Hproduct Hplan. rewrite getOrCreatePlan_run.
    rewrite (findOne_product_None _ _ _ Hstored Hnone).
    cbv zeta. fold productRequested. rewrite Hproduct.
    fold planRequested. rewrite Hplan. reflexivity.
Qed.

Lemma getOrCreatePlan_gateway_failure_witness :
  db (snd (getOrCreatePlan Sample.plansFail Sample.host Sample.host "month" 1000 "USD"
             None (Sample.start Sample.empty)))
  = Sample.empty.
Proof.
  refine (eq_trans (f_equal (fun run => db (snd run))
    (proj2
       (getOrCreatePlan_gateway_failure Sample.plansFail Sample.host Sample.host
          "month" 1000 "USD" None (Sample.start Sample.empty) _ _)
       Sample.createdProduct (RequestError "PayPal request failed") _ _)) _).
  - intros t [=].
  - intros k product Hk. cbn [db Sample.start Sample.empty paypalProducts] in Hk.
    rewrite lookup_empty in Hk. discriminate.
  - reflexivity.
  - reflexivity.
  - reflexivity.
Defined.

(** ** The catalog keeps its shape *)

Lemma insert_plan_unique s k row :
  uniquePlans s ->
  paypalPlans s !! k = None ->
  (forall k' plan,
     paypalPlans s !! k' = Some plan ->
     ~ (PaypalPlan.ProductId plan = PaypalPlan.ProductId row /\
        PaypalPlan.currency plan = PaypalPlan.currency row /\
        PaypalPlan.interval plan = PaypalPlan.interval row /\
        PaypalPlan.amount plan = PaypalPlan.amount row)) ->
  uniquePlans (withPaypalPlans (insert k row) s).
Proof.
  intros Hunique Hfresh Hnone k1 k2 p1 p2 H1 H2 Hp Ha Hc Hi. simpl in H1, H2.
  apply lookup_insert_Some in H1 as [[<- <-] | [Hne1 H1]];
    apply lookup_insert_Some in H2 as [[<- <-] | [Hne2 H2]].
  - reflexivity.
  - destruct (Hnone k2 p2 H2). auto.
  - destruct (Hnone k1 p1 H1). auto.
  - exact (Hunique k1 k2 p1 p2 H1 H2 Hp Ha Hc Hi).
Qed.

(** A plan that is new for its product, and whose product is recorded,
    keeps the catalog in shape. *)
Lemma catalogInvariant_plan s row :
  catalogInvariant s ->
  paypalPlans s !! PaypalPlan.id row = None ->
  (forall k plan,
     paypalPlans s !! k = Some plan ->
     ~ (PaypalPlan.ProductId plan = PaypalPlan.ProductId row /\
        PaypalPlan.currency plan = PaypalPlan.currency row /\
        PaypalPlan.interval plan = PaypalPlan.interval row /\
        PaypalPlan.amount plan = PaypalPlan.amount row)) ->
  is_Some (paypalProducts s !! PaypalPlan.ProductId row) ->
  catalogInvariant (withPaypalPlans (insert (PaypalPlan.id row) row) s).
Proof.
  intros (Hown & Hproducts & Hplans & Hbelong) Hfresh Hnone Hproduct.
  split; [exact Hown|]. split; [exact Hproducts|]. split.
  - apply insert_plan_unique; assumption.
  - intros k plan Hk. simpl in Hk.
    apply lookup_insert_Some in Hk as [[_ <-] | [_ Hk]].
    + exact Hproduct.
    + exact (Hbelong k plan Hk).
Qed.

(** A product under its own id, the first for its collective and tier,
    keeps the catalog in shape, with or without a plan. *)
Lemma catalogInvariant_product s product :
  catalogInvariant s ->
  (forall k p,
     paypalProducts s !! k = Some p ->
     ~ (PaypalProduct.CollectiveId p = PaypalProduct.CollectiveId product /\
        PaypalProduct.TierId p = PaypalProduct.TierId product)) ->
  catalogInvariant
    (withPaypalProducts (insert (PaypalProduct.id product) product) s).
Proof.
  intros (Hown & Hproducts & Hplans & Hbelong) Hfresh.
  split; [|split; [|split]].
  - intros k p Hk. simpl in Hk.
    apply lookup_insert_Some in Hk as [[<- <-] | [_ Hk]]; [reflexivity|].
    exact (Hown k p Hk).
  - intros k1 k2 p1 p2 H1 H2 Hc Ht. simpl in H1, H2.
    apply lookup_insert_Some in H1 as [[<- <-] | [Hne1 H1]];
      apply lookup_insert_Some in H2 as [[<- <-] | [Hne2 H2]].
    + reflexivity.
    + destruct (Hfresh k2 p2 H2). auto.
    + destruct (Hfresh k1 p1 H1). auto.
    + exact (Hproducts k1 k2 p1 p2 H1 H2 Hc Ht).
  - exact Hplans.
  - intros k plan Hk. simpl in Hk. simpl.
    destruct (Hbelong k plan Hk) as [owner Howner].
    destruct (decide (PaypalProduct.id product = PaypalPlan.ProductId plan)) as [Heq|Hne].
    + rewrite <- Heq, lookup_insert_eq. eauto.
    + rewrite lookup_insert_ne by assumption. eauto.
Qed.

(** X6. [getOrCreatePlan] keeps the catalog in shape, whatever its outcome:
    every product under its own id, at most one product for a collective
    and tier, at most one plan for a product, amount, currency and
    interval, and every plan with a recorded product. *)
Theorem getOrCreatePlan_keeps_catalog E host collective interval amount currency tier
    w r w' :
  storedTier tier ->
  catalogInvariant (db w) ->
  getOrCreatePlan E host collective interval amount currency tier w = (r, w') ->
  catalogInvariant (db w').
Proof.
  intros Hstored Hinvariant. pose proof Hinvariant as (Hown & Hproducts & Hplans & Hbelong).
  rewrite getOrCreatePlan_run.
  destruct (findOne _ (paypalProducts (db w))) as [product|] eqn:Hproduct.
  - apply findOne_Some in Hproduct as [Hwhere [k Hk]].
    destruct (findOne _ (paypalPlans (db w))) as [found|] eqn:Hplan.
    { intros [= <- <-]. exact Hinvariant. }
    pose proof (findOne_None _ _ Hplan) as Hnone.
    cbv zeta. repeat case_step; intros [= <- <-]; try exact Hinvariant.
    unfold after. cbn [db].
    apply (catalogInvariant_plan (db w)
             (planRow a (PaypalProduct.id product) amount currency interval));
      [exact Hinvariant | assumption | |].
    + intros k' plan Hk' Hsame. specialize (Hnone k' plan Hk').
      assert (planWhere (PaypalProduct.id product) currency interval amount plan = true)
        by (apply planWhere_spec; exact Hsame).
      congruence.
    + simpl. rewrite (Hown k product Hk). eauto.
  - pose proof (findOne_None _ _ Hproduct) as Hnone.
    assert (Hrecorded : forall created,
              catalogInvariant
                (withPaypalProducts
                   (insert (Paypal.id created) (productRow created collective tier))
                   (db w))).
    { intros created.
      apply (catalogInvariant_product (db w) (productRow created collective tier));
        [exact Hinvariant|].
      intros k p Hk Hsame. specialize (Hnone k p Hk).
      assert (productWhere (Collective.id collective) (tierIdOrNull tier) p = true).
      { apply productWhere_spec. rewrite (tierIdOrNull_stored _ Hstored). exact Hsame. }
      congruence. }
    cbv zeta. repeat case_step; intros [= <- <-]; try exact Hinvariant;
      unfold after; cbn [db]; try apply Hrecorded.
    apply (catalogInvariant_plan
             (withPaypalProducts
                (insert (Paypal.id a) (productRow a collective tier)) (db w))
             (planRow a0 (Paypal.id a) amount currency interval));
      [apply Hrecorded | assumption | |].
    + intros k' plan Hk' (Hsame & _). simpl in Hsame, Hk'.
      destruct (Hbelong k' plan Hk') as [owner Howner].
      rewrite Hsame in Howner. congruence.
    + simpl. rewrite lookup_insert_eq. eauto.
Qed.

Lemma getOrCreatePlan_keeps_catalog_witness :
  catalogInvariant
    (db (snd (getOrCreatePlan Sample.reliableCatalog Sample.host Sample.host "month"
                2000 "USD" (Some Sample.flexibleTier) (Sample.start Sample.catalog)))).
Proof.
  apply (getOrCreatePlan_keeps_catalog Sample.reliableCatalog Sample.host Sample.host
           "month" 2000 "USD" (Some Sample.flexibleTier) (Sample.start Sample.catalog)
           (fst (getOrCreatePlan Sample.reliableCatalog Sample.host Sample.host "month"
                   2000 "USD" (Some Sample.flexibleTier) (Sample.start Sample.catalog)))).
  - intros t [= <-]. reflexivity.
  - cbn [db Sample.start Sample.catalog]. repeat split.
    + intros k product Hk. cbn [paypalProducts Sample.catalog] in Hk.
      apply lookup_singleton_Some in Hk as [<- <-]. reflexivity.
    + intros k1 k2 p1 p2 H1 H2 _ _. cbn [paypalProducts Sample.catalog] in H1, H2.
      apply lookup_singleton_Some in H1 as [<- _].
      apply lookup_singleton_Some in H2 as [<- _]. reflexivity.
    + intros k1 k2 p1 p2 H1 H2 _ _ _ _. cbn [paypalPlans Sample.catalog] in H1, H2.
      apply lookup_singleton_Some in H1 as [<- _].
      apply lookup_singleton_Some in H2 as [<- _]. reflexivity.
    + intros k plan Hk. cbn [paypalPlans Sample.catalog] in Hk.
      apply lookup_singleton_Some in Hk as [_ <-]. exists Sample.product. reflexivity.
  - apply surjective_pairing.
Defined.

(** ** Activation: what a success means *)

Lemma verifySubscription_Ok_inv order paypalSubscription w u :
  fst (verifySubscription order paypalSubscription w) = Ok u ->
  Paypal.status paypalSubscription = "APPROVED" /\
  exists plan,
    matchingPlan (db w) order (Paypal.plan_id paypalSubscription) plan /\
    PaypalPlan.amount plan = Order.totalAmount order.
Proof.
  rewrite verifySubscription_run. cbn [fst].
  destruct (String.eqb_spec (Paypal.status paypalSubscription) "APPROVED")
    as [Happroved|]; [|discriminate]. cbn [negb].
  destruct (findPlanForOrder order _ (db w)) as [plan|] eqn:Hfind; [|discriminate].
  destruct (Z.eqb_spec (PaypalPlan.amount plan) (Order.totalAmount order))
    as [Hamount|]; [|discriminate].
  intros _. split; [assumption|]. exists plan.
  split; [apply findPlanForOrder_spec; assumption | assumption].
Qed.

(** X7. An activation succeeds only for a verified subscription: when
    [setupPaypalSubscriptionForOrder] returns, the gateway has answered the
    fetch of the payment method's token with a subscription that is
    APPROVED and whose plan is recorded, under the product of the order's
    collective and tier, for the order's total amount. *)
Theorem activation_implies_verified E order paymentMethod w order' w' :
  setupPaypalSubscriptionForOrder E order paymentMethod w = (Ok order', w') ->
  exists paypalSubscription plan,
    paypalRequest E (log w)
      (fetchRequest (Collective.getHostCollective (Order.collective order))
         (PaymentMethod.token paymentMethod)) = Ok paypalSubscription /\
    Paypal.status paypalSubscription = "APPROVED" /\
    matchingPlan (db w) order (Paypal.plan_id paypalSubscription) plan /\
    PaypalPlan.amount plan = Order.totalAmount order.
Proof.
  rewrite setupPaypalSubscriptionForOrder_run. unfold tryCatch.
  rewrite activationSteps_run. cbv zeta.
  destruct (paypalRequest E (log w) _) as [paypalSubscription|cause]; [|caught].
  destruct (fst (verifySubscription order paypalSubscription _)) as [u|cause]
    eqn:Hverify; [|caught].
  intros _. apply verifySubscription_Ok_inv in Hverify as (Happroved & plan & Hplan & Hamount).
  exists paypalSubscription, plan. auto.
Qed.

Lemma activation_implies_verified_witness :
  exists paypalSubscription plan,
    Paypal.status paypalSubscription = "APPROVED" /\
    PaypalPlan.amount plan = 1000.
Proof.
  destruct (activation_implies_verified Sample.reliable Sample.newOrder
              (Sample.paymentMethod "I-NEW") (Sample.start Sample.catalog)
              (Order.set (Order.SetSubscriptionId (Some 1)) Sample.newOrder)
              (snd (setupPaypalSubscriptionForOrder Sample.reliable Sample.newOrder
                      (Sample.paymentMethod "I-NEW") (Sample.start Sample.catalog))))
    as (paypalSubscription & plan & _ & Happroved & _ & Hamount).
  - vm_compute. reflexivity.
  - exists paypalSubscription, plan. split; assumption.
Defined.

(** ** Activation of an order that has no subscription: every step *)

(** X8. A successful activation of an order that has no subscription does,
    in this order: fetch, name the payment method, create the
    subscription, request the activation; nothing is cancelled and the
    activation is requested once.  The order returned, and the stored
    order, refer to the new subscription. *)
Theorem activation_creates_then_activates E order paymentMethod w order' w' :
  let hostCollective := Collective.getHostCollective (Order.collective order) in
  let token := PaymentMethod.token paymentMethod in
  let created :=
    subscriptionValues order token (nextId (subscriptions (db w)))
      (clock E (clockReads w)) (clock E (S (clockReads w))) in
  let linked := Order.set (Order.SetSubscriptionId (Some (Subscription.id created))) in
  existingSubscriptionOf (db w) order = None ->
  setupPaypalSubscriptionForOrder E order paymentMethod w = (Ok order', w') ->
  exists paypalSubscription,
    log w' =
      log w ++
      [Requested (fetchRequest hostCollective token);
       Wrote (UpdatePaymentMethod (PaymentMethod.id paymentMethod)
                (subscriberName paypalSubscription));
       Wrote (CreateSubscription (Order.id order) created);
       Requested (activateRequest hostCollective token)] /\
    order' = linked order /\
    orders (db w') !! Order.id order = linked <$> orders (db w) !! Order.id order.
Proof.
  intros hostCollective token created linked Hnone.
  rewrite setupPaypalSubscriptionForOrder_run, Hnone.
  unfold tryCatch. rewrite activationSteps_run.
  case_step; try discriminate.
  do 2 (case_step; try discriminate).
  rewrite persistSubscription_new_run.
  repeat (case_step; try discriminate).
  intros [= <- <-].
  match goal with
  | H : paypalRequest E (log w) _ = Ok ?p |- _ => exists p
  end.
  unfold after. simpl.
  split; [rewrite <- !app_assoc; reflexivity|].
  split; [reflexivity|].
  apply lookup_alter_eq.
Qed.

Lemma activation_creates_then_activates_witness :
  Order.SubscriptionId <$>
    orders
      (db (snd (setupPaypalSubscriptionForOrder Sample.reliable Sample.newOrder
                  (Sample.paymentMethod "I-NEW") (Sample.start Sample.catalog))))
      !! 10
  = Some (Some 1).
Proof.
  destruct (activation_creates_then_activates Sample.reliable Sample.newOrder
              (Sample.paymentMethod "I-NEW") (Sample.start Sample.catalog)
              (Order.set (Order.SetSubscriptionId (Some 1)) Sample.newOrder)
              (snd (setupPaypalSubscriptionForOrder Sample.reliable Sample.newOrder
                      (Sample.paymentMethod "I-NEW") (Sample.start Sample.catalog))))
    as (paypalSubscription & _ & _ & Hlinked).
  - reflexivity.
  - vm_compute. reflexivity.
  - exact (eq_trans (f_equal (fmap Order.SubscriptionId) Hlinked) eq_refl).
Defined.

(** X9. When the fetch fails, or the subscription fetched is refused by the
    verifier, the activation of an order that has no subscription throws
    the activation error carrying that failure, and all it has done is the
    fetch: the tables are as before, no subscription is created, no
    activation is requested. *)
Theorem activation_refused_early E order paymentMethod w cause :
  let fetch :=
    fetchRequest (Collective.getHostCollective (Order.collective order))
      (PaymentMethod.token paymentMethod) in
  existingSubscriptionOf (db w) order = None ->
  (paypalRequest E (log w) fetch = Throw cause \/
   exists paypalSubscription,
     paypalRequest E (log w) fetch = Ok paypalSubscription /\
     fst (verifySubscription order paypalSubscription w) = Throw cause) ->
  setupPaypalSubscriptionForOrder E order paymentMethod w =
  (Throw (activationError cause), after w [Requested fetch] (db w)).
Proof.
  intros fetch Hnone Hrefused.
  rewrite setupPaypalSubscriptionForOrder_run, Hnone.
  unfold tryCatch. rewrite activationSteps_run. cbv zeta. fold fetch.
  destruct Hrefused as [Hfetch | (paypalSubscription & Hfetch & Hverify)];
    rewrite Hfetch; [reflexivity|].
  rewrite (verifySubscription_db order paypalSubscription _ w) by reflexivity.
  rewrite Hverify. reflexivity.
Qed.

Lemma activation_refused_early_witness :
  setupPaypalSubscriptionForOrder Sample.reliable (Sample.order None 5000)
    (Sample.paymentMethod "I-NEW") (Sample.start Sample.catalog)
  = (Throw (activationError amountMismatch),
     after (Sample.start Sample.catalog)
       [Requested (fetchRequest (Some 1) "I-NEW")] Sample.catalog).
Proof.
  apply (activation_refused_early Sample.reliable (Sample.order None 5000)
           (Sample.paymentMethod "I-NEW") (Sample.start Sample.catalog) amountMismatch).
  - reflexivity.
  - right. exists Sample.approved. split; reflexivity.
Defined.

(** X10. The [catch] block does not undo a creation: when the activation
    request fails for an order that had no subscription, the call throws
    the activation error and the subscription created for the order stays
    recorded, inactive, with the order referring to it. *)
Theorem activation_failure_keeps_created E order paymentMethod w paypalSubscription cause :
  let hostCollective := Collective.getHostCollective (Order.collective order) in
  let token := PaymentMethod.token paymentMethod in
  let fetch := Requested (fetchRequest hostCollective token) in
  let named :=
    Wrote (UpdatePaymentMethod (PaymentMethod.id paymentMethod)
             (subscriberName paypalSubscription)) in
  let created :=
    subscriptionValues order token (nextId (subscriptions (db w)))
      (clock E (clockReads w)) (clock E (S (clockReads w))) in
  let create := CreateSubscription (Order.id order) created in
  let run := setupPaypalSubscriptionForOrder E order paymentMethod w in
  existingSubscriptionOf (db w) order = None ->
  paypalRequest E (log w) (fetchRequest hostCollective token) = Ok paypalSubscription ->
  fst (verifySubscription order paypalSubscription w) = Ok tt ->
  dbFails E (log w ++ [fetch])
    (UpdatePaymentMethod (PaymentMethod.id paymentMethod)
       (subscriberName paypalSubscription)) = false ->
  dbFails E (log w ++ [fetch; named]) create = false ->
  paypalRequest E (log w ++ [fetch; named; Wrote create])
    (activateRequest hostCollective token) = Throw cause ->
  fst run = Throw (activationError cause) /\
  subscriptions (db (snd run)) !! Subscription.id created = Some created /\
  Subscription.isActive created = false /\
  orders (db (snd run)) !! Order.id order =
    Order.set (Order.SetSubscriptionId (Some (Subscription.id created)))
      <$> orders (db w) !! Order.id order.
Proof.
  intros hostCollective token fetch named created create run
    Hnone Hfetch Hverify Hnamed Hcreate Hactivate.
  subst run.
  destruct (setupPaypalSubscriptionForOrder E order paymentMethod w) as [r final]
    eqn:Hrun.
  cbn [fst snd]. revert Hrun.
  rewrite setupPaypalSubscriptionForOrder_run, Hnone.
  unfold tryCatch. rewrite activationSteps_run. cbv zeta.
  fold hostCollective token. rewrite Hfetch.
  rewrite (verifySubscription_db order paypalSubscription _ w) by reflexivity.
  rewrite Hverify.
  change (log (after w [Requested (fetchRequest hostCollective token)] (db w)))
    with (log w ++ [fetch]).
  rewrite Hnamed.
  rewrite persistSubscription_new_run. cbv zeta.
  unfold after. cbn [db log clockReads withPaymentMethods subscriptions].
  fold created. fold create.
  rewrite <- !app_assoc. cbn [app]. fold fetch named.
  rewrite Hcreate. cbn [log]. rewrite <- !app_assoc. cbn [app].
  rewrite Hactivate.
  intros [= <- <-]. simpl.
  split; [reflexivity|]. split; [apply lookup_insert_eq|].
  split; [reflexivity|]. apply lookup_alter_eq.
Qed.

Lemma activation_failure_keeps_created_witness :
  Subscription.isActive <$>
    subscriptions
      (db (snd (setupPaypalSubscriptionForOrder Sample.activateFails Sample.newOrder
                  (Sample.paymentMethod "I-NEW") (Sample.start Sample.catalog))))
      !! 1
  = Some false.
Proof.
  refine (f_equal (fmap Subscription.isActive)
    (proj1 (proj2
       (activation_failure_keeps_created Sample.activateFails Sample.newOrder
          (Sample.paymentMethod "I-NEW") (Sample.start Sample.catalog)
          Sample.approved (RequestError "PayPal request failed") _ _ _ _ _ _)))).
  - reflexivity.
  - reflexivity.
  - reflexivity.
  - reflexivity.
  - reflexivity.
  - reflexivity.
Defined.

(** ** What an activation leaves alone *)

Lemma activationFrame_refl order paymentMethod existing s :
  activationFrame order paymentMethod existing s s.
Proof. unfold activationFrame. auto. Qed.

Lemma activationFrame_trans order paymentMethod existing s1 s2 s3 :
  activationFrame order paymentMethod existing s1 s2 ->
  activationFrame order paymentMethod existing s2 s3 ->
  activationFrame order paymentMethod existing s1 s3.
Proof.
  intros (Hplans & Hproducts & Hmethods & Horders & Hsubscriptions)
         (Hplans' & Hproducts' & Hmethods' & Horders' & Hsubscriptions').
  unfold activationFrame.
  split; [congruence|]. split; [congruence|].
  split; [intros k Hk; rewrite Hmethods', Hmethods; auto|].
  split; [intros k Hk; rewrite Horders', Horders; auto|].
  intros k row Hrow Hother. apply Hsubscriptions'; [|assumption].
  apply Hsubscriptions; assumption.
Qed.

Lemma activationFrame_named order paymentMethod existing values s :
  activationFrame order paymentMethod existing s
    (withPaymentMethods
       (alter (PaymentMethod.assign values) (PaymentMethod.id paymentMethod)) s).
Proof.
  unfold activationFrame. simpl.
  split; [reflexivity|]. split; [reflexivity|].
  split; [intros k Hk; apply lookup_alter_ne; congruence|].
  split; [reflexivity|]. auto.
Qed.

Lemma activationFrame_moved order paymentMethod subscription values s :
  activationFrame order paymentMethod (Some subscription) s
    (withSubscriptions
       (alter (Subscription.assign values) (Subscription.id subscription)) s).
Proof.
  unfold activationFrame. simpl.
  split; [reflexivity|]. split; [reflexivity|].
  split; [reflexivity|]. split; [reflexivity|].
  intros k row Hrow Hother. rewrite lookup_alter_ne; [assumption|].
  intros Heq. exact (Hother subscription eq_refl (eq_sym Heq)).
Qed.

Lemma activationFrame_created order paymentMethod existing row s :
  subscriptions s !! Subscription.id row = None ->
  activationFrame order paymentMethod existing s
    (withOrders
       (alter (Order.set (Order.SetSubscriptionId (Some (Subscription.id row))))
          (Order.id order))
       (withSubscriptions (insert (Subscription.id row) row) s)).
Proof.
  intros Hfresh. unfold activationFrame. simpl.
  split; [reflexivity|]. split; [reflexivity|].
  split; [reflexivity|].
  split; [intros k Hk; apply lookup_alter_ne; congruence|].
  intros k found Hfound _. rewrite lookup_insert_ne; [assumption|].
  intros Heq. rewrite Heq in Hfresh. congruence.
Qed.

Lemma cancelPaypalSubscription_db E order reason w r w1 :
  cancelPaypalSubscription E order reason w = (r, w1) -> db w1 = db w.
Proof.
  unfold cancelPaypalSubscription, bind, getSubscription, gets, throw, ret.
  destruct (match Order.SubscriptionId order with
            | Some id => subscriptions (db w) !! id
            | None => None
            end) as [subscription|].
  - rewrite request_run. destruct (paypalRequest E _ _); intros [= <- <-]; reflexivity.
  - intros [= <- <-]. reflexivity.
Qed.

Lemma persistSubscription_frame E order paymentMethod existing w r w1 :
  persistSubscription E order (PaymentMethod.token paymentMethod) existing w = (r, w1) ->
  activationFrame order paymentMethod existing (db w) (db w1).
Proof.
  destruct existing as [subscription|].
  - unfold persistSubscription.
    assert (Hmove : forall w0 r0 w2,
              db w0 = db w ->
              bind (updateSubscription E subscription
                      (paypalSubscriptionParams (PaymentMethod.token paymentMethod)))
                (fun _ => ret order) w0 = (r0, w2) ->
              activationFrame order paymentMethod (Some subscription) (db w) (db w2)).
    { intros w0 r0 w2 Hdb. unfold bind, ret. rewrite updateSubscription_run. cbv zeta.
      destruct (dbFails E _ _); intros [= <- <-]; unfold after; cbn [db];
        rewrite Hdb; [apply activationFrame_refl | apply activationFrame_moved]. }
    destruct (Js.truthyString _).
    + unfold bind at 1.
      destruct (cancelPaypalSubscription E order _ w) as [[u|e] cancelled] eqn:Hcancel;
        apply cancelPaypalSubscription_db in Hcancel.
      * apply Hmove. assumption.
      * intros [= <- <-]. rewrite Hcancel. apply activationFrame_refl.
    + unfold bind at 1. unfold ret at 1. apply Hmove. reflexivity.
  - rewrite persistSubscription_new_run. cbv zeta.
    destruct (dbFails E _ _); intros [= <- <-]; cbn [db].
    + apply activationFrame_refl.
    + apply (activationFrame_created order paymentMethod None
               (subscriptionValues order (PaymentMethod.token paymentMethod)
                  (nextId (subscriptions (db w))) (clock E (clockReads w))
                  (clock E (S (clockReads w))))).
      apply nextId_fresh.
Qed.

Lemma activationSteps_frame E order paymentMethod existing w r w1 :
  activationSteps E order paymentMethod
    (Collective.getHostCollective (Order.collective order)) existing w = (r, w1) ->
  activationFrame order paymentMethod existing (db w) (db w1).
Proof.
  rewrite activationSteps_run. cbv zeta.
  destruct (paypalRequest E (log w) _) as [paypalSubscription|cause];
    [|intros [= <- <-]; apply activationFrame_refl].
  destruct (fst (verifySubscription order paypalSubscription _)) as [u|cause];
    [|intros [= <- <-]; apply activationFrame_refl].
  destruct (dbFails E _ _); [intros [= <- <-]; apply activationFrame_refl|].
  destruct (persistSubscription E order _ existing _) as [[order1|cause] persisted]
    eqn:Hpersist;
    apply persistSubscription_frame in Hpersist; cbn [db after] in Hpersist;
    intros [= <- <-]; cbn [db after];
    (eapply activationFrame_trans; [apply activationFrame_named | exact Hpersist]).
Qed.

Lemma restoreAndRethrow_frame E order paymentMethod existing values e w r w1 :
  restoreAndRethrow E existing values e w = (r, w1) ->
  activationFrame order paymentMethod existing (db w) (db w1).
Proof.
  unfold restoreAndRethrow, bind, throw, ret.
  destruct existing as [subscription|].
  - rewrite updateSubscription_run. cbv zeta.
    destruct (dbFails E _ _); intros [= <- <-]; unfold after; cbn [db];
      [apply activationFrame_refl | apply activationFrame_moved].
  - intros [= <- <-]. apply activationFrame_refl.
Qed.

(** X11. Whatever its outcome, [setupPaypalSubscriptionForOrder] leaves the
    plans and the products as they are, and does not touch any payment
    method but the one given, any order but the one given, or any
    subscription but the one the order had. *)
Theorem activation_leaves_alone E order paymentMethod w r w' :
  setupPaypalSubscriptionForOrder E order paymentMethod w = (r, w') ->
  paypalPlans (db w') = paypalPlans (db w) /\
  paypalProducts (db w') = paypalProducts (db w) /\
  (forall k, k <> PaymentMethod.id paymentMethod ->
             paymentMethods (db w') !! k = paymentMethods (db w) !! k) /\
  (forall k, k <> Order.id order -> orders (db w') !! k = orders (db w) !! k) /\
  (forall k row,
     subscriptions (db w) !! k = Some row ->
     (forall subscription,
        existingSubscriptionOf (db w) order = Some subscription ->
        k <> Subscription.id subscription) ->
     subscriptions (db w') !! k = Some row).
Proof.
  rewrite setupPaypalSubscriptionForOrder_run. unfold tryCatch.
  destruct (activationSteps E order paymentMethod _ _ w) as [[order1|cause] w1]
    eqn:Hsteps;
    apply activationSteps_frame in Hsteps.
  - intros [= <- <-]. exact Hsteps.
  - intros Hcatch.
    apply (restoreAndRethrow_frame E order paymentMethod) in Hcatch.
    exact (activationFrame_trans _ _ _ _ _ _ Hsteps Hcatch).
Qed.

Lemma activation_leaves_alone_witness :
  paypalPlans
    (db (snd (setupPaypalSubscriptionForOrder Sample.reliable Sample.recurringOrder
                (Sample.paymentMethod "I-NEW") (Sample.start Sample.recurring))))
  = paypalPlans Sample.recurring.
Proof.
  refine (proj1
    (activation_leaves_alone Sample.reliable Sample.recurringOrder
       (Sample.paymentMethod "I-NEW") (Sample.start Sample.recurring)
       (fst (setupPaypalSubscriptionForOrder Sample.reliable Sample.recurringOrder
               (Sample.paymentMethod "I-NEW") (Sample.start Sample.recurring)))
       (snd (setupPaypalSubscriptionForOrder Sample.reliable Sample.recurringOrder
               (Sample.paymentMethod "I-NEW") (Sample.start Sample.recurring)))
       _)).
  apply surjective_pairing.
Defined.

(** With the activation failed and the snapshot not written, the
    subscription is left at the new PayPal subscription [I-NEW]. *)
Lemma restore_failure_escapes_witness :
  let run :=
    setupPaypalSubscriptionForOrder Sample.restoreFails Sample.recurringOrder
      (Sample.paymentMethod "I-NEW") (Sample.start Sample.recurring) in
  fst run = Throw DatabaseError /\
  Subscription.paypalSubscriptionId <$> subscriptions (db (snd run)) !! 3
    = Some (Some "I-NEW").
Proof.
  cbv zeta.
  rewrite (restore_failure_escapes Sample.restoreFails Sample.recurringOrder
             (Sample.paymentMethod "I-NEW") (Sample.start Sample.recurring)
             Sample.subscription (RequestError "PayPal request failed")
             (snd (activationSteps Sample.restoreFails Sample.recurringOrder
                     (Sample.paymentMethod "I-NEW") (Some 1) (Some Sample.subscription)
                     (Sample.start Sample.recurring)))).
  - split; [reflexivity | vm_compute; reflexivity].
  - repeat split; [discriminate].
  - vm_compute. reflexivity.
  - vm_compute. reflexivity.
Defined.

(** ** Changing the payment method *)

(** [updatePaymentMethodForSubscription], path by path. *)
Lemma updatePaymentMethodForSubscription_run E user order newPaymentMethod w :
  let wasExternal := getIsSubscriptionManagedExternally E (Order.paymentMethod order) in
  let isExternal := getIsSubscriptionManagedExternally E (Some newPaymentMethod) in
  let orderWrite :=
    UpdateOrder (Order.id order) (paymentMethodValues order newPaymentMethod) in
  let updated :=
    withOrders
      (alter (Order.assign (paymentMethodValues order newPaymentMethod)) (Order.id order))
      (db w) in
  updatePaymentMethodForSubscription E user order newPaymentMethod w =
  if negb (User.isAdminOfCollective user (PaymentMethod.CollectiveId newPaymentMethod))
  then (Throw (Unauthorized "You don't have permission to use this payment method"), w)
  else if dbFails E (log w) orderWrite
  then (Throw DatabaseError, after w [Wrote orderWrite] (db w))
  else if negb (Bool.eqb wasExternal isExternal)
  then
    match Order.Subscription order with
    | None => (Throw TypeError, after w [Wrote orderWrite] (db w))
    | Some subscription =>
        let values :=
          [Subscription.IsManagedExternally isExternal; Subscription.PaypalSubscriptionId None] in
        let subscriptionWrite :=
          UpdateSubscription (Subscription.id subscription) values in
        if dbFails E (log w ++ [Wrote orderWrite]) subscriptionWrite
        then (Throw DatabaseError,
              after w [Wrote orderWrite; Wrote subscriptionWrite] (db w))
        else
          (Ok (Order.withSubscription (Some (Subscription.assign values subscription))
                 (Order.assign (paymentMethodValues order newPaymentMethod) order)),
           after w [Wrote orderWrite; Wrote subscriptionWrite]
             (withSubscriptions
                (alter (Subscription.assign values) (Subscription.id subscription))
                updated))
    end
  else (Ok (Order.assign (paymentMethodValues order newPaymentMethod) order),
        after w [Wrote orderWrite] updated).
Proof.
  cbv zeta. unfold updatePaymentMethodForSubscription.
  destruct (negb (User.isAdminOfCollective _ _)); [reflexivity|].
  fold (normalizedStatus order). fold (paymentMethodValues order newPaymentMethod).
  unfold transaction. unfold bind at 1. rewrite updateOrder_run. cbv zeta.
  destruct (dbFails E (log w) _); [reflexivity|].
  destruct (negb (Bool.eqb _ _)); [|reflexivity].
  unfold updateLoadedSubscription.
  replace (Order.Subscription
             (Order.assign (paymentMethodValues order newPaymentMethod) order))
    with (Order.Subscription order) by reflexivity.
  destruct (Order.Subscription order) as [subscription|]; [|reflexivity].
  unfold bind, ret. rewrite updateSubscription_run. cbv zeta.
  change (log (after w [Wrote ?op] ?s)) with (log w ++ [Wrote op]).
  destruct (dbFails E _ _); rewrite after_after; reflexivity.
Qed.

Lemma normalizedStatus_not_error order :
  normalizedStatus order <> OrderStatus.ERROR.
Proof. unfold normalizedStatus. destruct (Order.status order); simpl; discriminate. Qed.

(** X13. When [updatePaymentMethodForSubscription] returns, the user
    administers the collective of the new payment method; the order, as
    returned and as stored, refers to the new payment method and is not in
    error (an order in error has become active); and the subscription is
    written exactly when the old and the new payment method differ in being
    managed externally: it then takes the new payment method's flag and
    loses its PayPal subscription id. *)
Theorem payment_method_change_effect E user order newPaymentMethod w order' w' :
  let wasExternal := getIsSubscriptionManagedExternally E (Order.paymentMethod order) in
  let isExternal := getIsSubscriptionManagedExternally E (Some newPaymentMethod) in
  let values :=
    [Subscription.IsManagedExternally isExternal;
     Subscription.PaypalSubscriptionId None] in
  updatePaymentMethodForSubscription E user order newPaymentMethod w = (Ok order', w') ->
  User.isAdminOfCollective user (PaymentMethod.CollectiveId newPaymentMethod) = true /\
  Order.PaymentMethodId order' = Some (PaymentMethod.id newPaymentMethod) /\
  Order.status order' = normalizedStatus order /\
  Order.status order' <> OrderStatus.ERROR /\
  orders (db w') !! Order.id order =
    Order.assign (paymentMethodValues order newPaymentMethod)
      <$> orders (db w) !! Order.id order /\
  (if Bool.eqb wasExternal isExternal
   then subscriptions (db w') = subscriptions (db w)
   else exists subscription,
          Order.Subscription order = Some subscription /\
          subscriptions (db w') =
            alter (Subscription.assign values) (Subscription.id subscription)
              (subscriptions (db w)) /\
          Order.Subscription order' = Some (Subscription.assign values subscription) /\
          Subscription.isManagedExternally (Subscription.assign values subscription)
            = isExternal /\
          Subscription.paypalSubscriptionId (Subscription.assign values subscription)
            = None).
Proof.
  intros wasExternal isExternal values.
  rewrite updatePaymentMethodForSubscription_run. cbv zeta.
  fold wasExternal isExternal. fold values.
  destruct (User.isAdminOfCollective user _); [|discriminate]. cbn [negb].
  destruct (dbFails E (log w) _); [discriminate|].
  destruct (Bool.eqb wasExternal isExternal); cbn [negb].
  - intros [= <- <-]. unfold after. cbn [db].
    split; [reflexivity|]. split; [reflexivity|]. split; [reflexivity|].
    split; [apply normalizedStatus_not_error|].
    split; [apply lookup_alter_eq | reflexivity].
  - destruct (Order.Subscription order) as [subscription|]; [|discriminate].
    destruct (dbFails E _ _); [discriminate|].
    intros [= <- <-]. unfold after. cbn [db].
    split; [reflexivity|]. split; [reflexivity|]. split; [reflexivity|].
    split; [apply normalizedStatus_not_error|].
    split; [apply lookup_alter_eq|].
    exists subscription. repeat split.
Qed.

Lemma payment_method_change_effect_witness :
  let run :=
    updatePaymentMethodForSubscription Sample.reliable Sample.user Sample.failedOrder
      Sample.creditCard (Sample.start Sample.recurring) in
  Order.status (match fst run with Ok order' => order' | Throw _ => Sample.failedOrder end)
  = OrderStatus.ACTIVE.
Proof.
  refine (proj1 (proj2 (proj2
    (payment_method_change_effect Sample.reliable Sample.user Sample.failedOrder
       Sample.creditCard (Sample.start Sample.recurring) _
       (snd (updatePaymentMethodForSubscription Sample.reliable Sample.user
               Sample.failedOrder Sample.creditCard (Sample.start Sample.recurring)))
       _)))).
  vm_compute. reflexivity.
Defined.

(** The order is written, the write of the subscription fails, and the
    order is as it was. *)
Lemma updatePaymentMethodForSubscription_atomic_witness :
  db (snd (updatePaymentMethodForSubscription Sample.subscriptionWritesFail Sample.user
             Sample.recurringOrder Sample.creditCard (Sample.start Sample.recurring)))
  = Sample.recurring.
Proof.
  apply (updatePaymentMethodForSubscription_atomic Sample.subscriptionWritesFail
           Sample.user Sample.recurringOrder Sample.creditCard
           (Sample.start Sample.recurring) DatabaseError).
  vm_compute. reflexivity.
Defined.

(** ** What is logged *)

Lemma logs_ret {A} allowed (a : A) : logs allowed (ret a).
Proof.
  intros w r w' [= <- <-]. exists []. rewrite app_nil_r. split; [reflexivity | constructor].
Qed.

Lemma logs_throw {A} allowed e : logs allowed (@throw A e).
Proof.
  intros w r w' [= <- <-]. exists []. rewrite app_nil_r. split; [reflexivity | constructor].
Qed.

Lemma logs_liftResult {A} allowed (result : Result A) : logs allowed (liftResult result).
Proof.
  intros w r w' [= <- <-]. exists []. rewrite app_nil_r. split; [reflexivity | constructor].
Qed.

Lemma logs_gets {A} allowed (f : Store -> A) : logs allowed (gets f).
Proof.
  intros w r w' [= <- <-]. exists []. rewrite app_nil_r. split; [reflexivity | constructor].
Qed.

Lemma logs_bind {A B} allowed (m : M A) (k : A -> M B) :
  logs allowed m -> (forall a, logs allowed (k a)) -> logs allowed (bind m k).
Proof.
  intros Hm Hk w r w'. unfold bind.
  destruct (m w) as [[a|e] w1] eqn:Hrun; destruct (Hm _ _ _ Hrun) as (first & Hfirst & Hall).
  - intros Hrest. destruct (Hk a _ _ _ Hrest) as (second & Hsecond & Hall').
    exists (first ++ second). rewrite Hsecond, Hfirst, app_assoc.
    split; [reflexivity | apply Forall_app; auto].
  - intros [= <- <-]. eauto.
Qed.

Lemma logs_tryCatch {A} allowed (body : M A) handler :
  logs allowed body -> (forall e, logs allowed (handler e)) ->
  logs allowed (tryCatch body handler).
Proof.
  intros Hbody Hhandler w r w'. unfold tryCatch.
  destruct (body w) as [[a|e] w1] eqn:Hrun;
    destruct (Hbody _ _ _ Hrun) as (first & Hfirst & Hall).
  - intros [= <- <-]. eauto.
  - intros Hrest. destruct (Hhandler e _ _ _ Hrest) as (second & Hsecond & Hall').
    exists (first ++ second). rewrite Hsecond, Hfirst, app_assoc.
    split; [reflexivity | apply Forall_app; auto].
Qed.

Lemma logs_transaction {A} allowed (body : M A) :
  logs allowed body -> logs allowed (transaction body).
Proof.
  intros Hbody w r w'. unfold transaction.
  destruct (body w) as [[a|e] w1] eqn:Hrun;
    destruct (Hbody _ _ _ Hrun) as (effects & Heffects & Hall);
    intros [= <- <-]; eauto.
Qed.

Lemma logs_write E (allowed : Effect -> Prop) op :
  allowed (Wrote op) -> logs allowed (write E op).
Proof.
  intros Hallowed w r w' Hrun. exists [Wrote op].
  split; [|repeat constructor; assumption].
  revert Hrun. unfold write.
  destruct (dbFails E _ _); [intros [= <- <-]; reflexivity|].
  destruct (perform op (db w)); intros [= <- <-]; reflexivity.
Qed.

Lemma logs_request E (allowed : Effect -> Prop) request0 :
  allowed (Requested request0) -> logs allowed (request E request0).
Proof.
  intros Hallowed w r w' [= <- <-]. exists [Requested request0].
  split; [reflexivity | repeat constructor; assumption].
Qed.

Lemma logs_updateOrder E order values : logs isWrite (updateOrder E order values).
Proof.
  apply logs_bind; [apply logs_write; exact I | intros; apply logs_ret].
Qed.

Lemma logs_updateLoadedSubscription E order values :
  logs isWrite (updateLoadedSubscription E order values).
Proof.
  unfold updateLoadedSubscription.
  destruct (Order.Subscription order); [|apply logs_throw].
  apply logs_bind; [|intros; apply logs_ret].
  apply logs_bind; [apply logs_write; exact I | intros; apply logs_ret].
Qed.

(** X15. Neither [updatePaymentMethodForSubscription] nor
    [updateSubscriptionDetails] asks anything of the gateway: whatever
    their outcome, all they add to the log is writes to the store.  A
    subscription that leaves PayPal, or changes amount, is not cancelled or
    revised at PayPal by them. *)
Theorem subscription_updates_are_local E user order :
  (forall newPaymentMethod,
     logs isWrite (updatePaymentMethodForSubscription E user order newPaymentMethod)) /\
  (forall tier amountInCents,
     logs isWrite (updateSubscriptionDetails E user order tier amountInCents)).
Proof.
  split.
  - intros newPaymentMethod. unfold updatePaymentMethodForSubscription.
    destruct (negb _); [apply logs_throw|].
    apply logs_transaction. apply logs_bind; [apply logs_updateOrder|].
    intros order1. destruct (negb _); [apply logs_updateLoadedSubscription | apply logs_ret].
  - intros tier amountInCents. unfold updateSubscriptionDetails.
    apply logs_bind; [apply logs_liftResult|]. intros _.
    apply logs_bind.
    { destruct (negb _); [|apply logs_ret].
      apply logs_bind; [apply logs_updateOrder|].
      intros order1. apply logs_updateLoadedSubscription. }
    intros order1. apply logs_bind.
    { destruct (negb _); [|apply logs_ret].
      apply logs_bind; [apply logs_updateOrder|].
      intros order2. apply logs_updateLoadedSubscription. }
    intros order2. apply logs_updateOrder.
Qed.

(** ** Changing the amount, the interval and the tier *)





(** ** Moving an order to a PayPal subscription *)

Lemma createPaypalPaymentMethodForSubscription_run E order user subscriptionId w :
  let row :=
    paypalPaymentMethodRow order user subscriptionId (nextId (paymentMethods (db w))) in
  let create := CreatePaymentMethod row in
  createPaypalPaymentMethodForSubscription E order user subscriptionId w =
  if dbFails E (log w) create
  then (Throw DatabaseError, after w [Wrote create] (db w))
  else (Ok row,
        after w [Wrote create]
          (withPaymentMethods (insert (PaymentMethod.id row) row) (db w))).
Proof.
  intros row create.
  unfold createPaypalPaymentMethodForSubscription, bind, gets, ret, write, after.
  fold (paypalPaymentMethodRow order user subscriptionId (nextId (paymentMethods (db w)))).
  fold row. fold create.
  destruct (dbFails E (log w) create); [reflexivity|].
  simpl. change (PaymentMethod.id row) with (nextId (paymentMethods (db w))).
  rewrite nextId_fresh. reflexivity.
Qed.

(** An activation writes to the payment methods at most the name of the
    one it is given. *)
Lemma activation_paymentMethods E order paymentMethod w r w' :
  setupPaypalSubscriptionForOrder E order paymentMethod w = (r, w') ->
  paymentMethods (db w') = paymentMethods (db w) \/
  exists paypalSubscription,
    paymentMethods (db w') =
      alter (PaymentMethod.assign (subscriberName paypalSubscription))
        (PaymentMethod.id paymentMethod) (paymentMethods (db w)).
Proof.
  rewrite setupPaypalSubscriptionForOrder_run. unfold tryCatch.
  destruct (activationSteps E order paymentMethod _ _ w) as [result w1] eqn:Hsteps.
  assert (Hw1 : paymentMethods (db w1) = paymentMethods (db w) \/
                exists paypalSubscription,
                  paymentMethods (db w1) =
                    alter (PaymentMethod.assign (subscriberName paypalSubscription))
                      (PaymentMethod.id paymentMethod) (paymentMethods (db w))).
  { revert Hsteps. rewrite activationSteps_run. cbv zeta.
    destruct (paypalRequest E (log w) _) as [paypalSubscription|cause];
      [|intros [= <- <-]; left; reflexivity].
    destruct (fst (verifySubscription order paypalSubscription _)) as [u|cause];
      [|intros [= <- <-]; left; reflexivity].
    destruct (dbFails E _ _); [intros [= <- <-]; left; reflexivity|].
    destruct (persistSubscription E order _ _ _) as [[order1|cause] persisted]
      eqn:Hpersist;
      apply persistSubscription_paymentMethods in Hpersist;
      intros [= <- <-]; right; exists paypalSubscription; exact Hpersist. }
  destruct result as [order1|cause].
  - intros [= <- <-]. exact Hw1.
  - intros Hcatch. apply restoreAndRethrow_paymentMethods in Hcatch.
    rewrite Hcatch. exact Hw1.
Qed.

(** *** What a computation keeps *)

Lemma preserves_ret {A} P (a : A) : preserves P (ret a).
Proof. intros w r w' [= <- <-]. auto. Qed.

Lemma preserves_throw {A} P e : preserves P (@throw A e).
Proof. intros w r w' [= <- <-]. auto. Qed.

Lemma preserves_gets {A} P (f : Store -> A) : preserves P (gets f).
Proof. intros w r w' [= <- <-]. auto. Qed.

Lemma preserves_bind {A B} P (m : M A) (k : A -> M B) :
  preserves P m -> (forall a, preserves P (k a)) -> preserves P (bind m k).
Proof.
  intros Hm Hk w r w'. unfold bind.
  destruct (m w) as [[a|e] w1] eqn:Hrun.
  - intros Hrest HP. exact (Hk a _ _ _ Hrest (Hm _ _ _ Hrun HP)).
  - intros [= <- <-] HP. exact (Hm _ _ _ Hrun HP).
Qed.

Lemma preserves_tryCatch {A} P (body : M A) handler :
  preserves P body -> (forall e, preserves P (handler e)) ->
  preserves P (tryCatch body handler).
Proof.
  intros Hbody Hhandler w r w'. unfold tryCatch.
  destruct (body w) as [[a|e] w1] eqn:Hrun.
  - intros [= <- <-] HP. exact (Hbody _ _ _ Hrun HP).
  - intros Hrest HP. exact (Hhandler e _ _ _ Hrest (Hbody _ _ _ Hrun HP)).
Qed.

Lemma preserves_request E P request0 : preserves P (request E request0).
Proof. intros w r w' [= <- <-]. auto. Qed.

Lemma preserves_newDate E P : preserves P (newDate E).
Proof. intros w r w' [= <- <-]. auto. Qed.

Lemma preserves_write E (P : Store -> Prop) op :
  (forall s s', P s -> perform op s = Ok s' -> P s') -> preserves P (write E op).
Proof.
  intros Hop w r w'. unfold write.
  destruct (dbFails E _ _); [intros [= <- <-]; auto|].
  destruct (perform op (db w)) as [s|e] eqn:Hperform; intros [= <- <-] HP; [|assumption].
  exact (Hop _ _ HP Hperform).
Qed.

(** An activation changes the tables in three ways only: it updates a
    payment method, it updates a subscription, and it creates a
    subscription that the order given is made to refer to. *)
Lemma activation_preserves E order paymentMethod (P : Store -> Prop) :
  (forall s id values,
     P s -> P (withPaymentMethods (alter (PaymentMethod.assign values) id) s)) ->
  (forall s id values,
     P s -> P (withSubscriptions (alter (Subscription.assign values) id) s)) ->
  (forall s row,
     P s ->
     P (withOrders
          (alter (Order.set (Order.SetSubscriptionId (Some (Subscription.id row))))
             (Order.id order))
          (withSubscriptions (insert (Subscription.id row) row) s))) ->
  preserves P (setupPaypalSubscriptionForOrder E order paymentMethod).
Proof.
  intros Hnamed Hmoved Hcreated.
  assert (Hupdate : forall subscription values,
            preserves P (updateSubscription E subscription values)).
  { intros subscription values. apply preserves_bind; [|intros; apply preserves_ret].
    apply preserves_write. intros s s' HP [= <-]. auto. }
  unfold setupPaypalSubscriptionForOrder.
  apply preserves_bind.
  { destruct (Js.truthyNumber _); [apply preserves_gets | apply preserves_ret]. }
  intros existing. apply preserves_tryCatch.
  - unfold activationSteps.
    apply preserves_bind; [apply preserves_request|]. intros paypalSubscription.
    apply preserves_bind.
    { intros w r w' Hrun HP.
      pose proof (verifySubscription_pure order paypalSubscription w) as Hpure.
      rewrite Hrun in Hpure. simpl in Hpure. subst w'. assumption. }
    intros _. apply preserves_bind.
    { apply preserves_bind; [|intros; apply preserves_ret].
      apply preserves_write. intros s s' HP [= <-]. auto. }
    intros _. apply preserves_bind; [|intros; apply preserves_bind;
                                       [apply preserves_request | intros; apply preserves_ret]].
    unfold persistSubscription. destruct existing as [subscription|].
    + apply preserves_bind.
      { destruct (Js.truthyString _); [|apply preserves_ret].
        unfold cancelPaypalSubscription.
        apply preserves_bind; [apply preserves_gets|].
        intros [stored|]; [|apply preserves_throw].
        apply preserves_bind; [apply preserves_request | intros; apply preserves_ret]. }
      intros _. apply preserves_bind; [apply Hupdate | intros; apply preserves_ret].
    + apply preserves_bind; [|intros; apply preserves_ret].
      unfold createSubscription.
      apply preserves_bind; [apply preserves_newDate|]. intros nextChargeDate.
      apply preserves_bind; [apply preserves_newDate|]. intros nextPeriodStart.
      apply preserves_bind; [apply preserves_gets|]. intros id.
      apply preserves_bind; [|intros; apply preserves_ret].
      apply preserves_write. intros s s' HP. simpl.
      destruct (subscriptions s !! id); [discriminate|]. intros [= <-].
      apply (Hcreated s (subscriptionValues order (PaymentMethod.token paymentMethod)
                           id nextChargeDate nextPeriodStart)).
      assumption.
  - intros e. unfold restoreAndRethrow.
    apply preserves_bind; [|intros; apply preserves_throw].
    destruct existing as [subscription|]; [|apply preserves_ret].
    apply preserves_bind; [apply Hupdate | intros; apply preserves_ret].
Qed.

(** An activation does not change the payment method that a stored order
    refers to. *)
Lemma activation_order_paymentMethod E order paymentMethod w r w' k :
  setupPaypalSubscriptionForOrder E order paymentMethod w = (r, w') ->
  Order.PaymentMethodId <$> orders (db w') !! k
  = Order.PaymentMethodId <$> orders (db w) !! k.
Proof.
  intros Hrun.
  pose proof (activation_preserves E order paymentMethod
                (fun s => Order.PaymentMethodId <$> orders s !! k
                          = Order.PaymentMethodId <$> orders (db w) !! k)) as Hkeeps.
  cbv beta in Hkeeps.
  refine (Hkeeps _ _ _ w r w' Hrun eq_refl); clear Hkeeps; [auto | auto |].
  intros s row HP. cbn [orders withOrders withSubscriptions].
  rewrite <- HP.
  destruct (decide (Order.id order = k)) as [<-|Hne].
  - rewrite lookup_alter_eq. destruct (orders s !! Order.id order); reflexivity.
  - rewrite lookup_alter_ne by assumption. reflexivity.
Qed.

(** The order an activation returns is the order given, up to the
    subscription it refers to; the payment method given has then been
    named. *)
Lemma persistSubscription_returns E order token existing w order' w1 :
  persistSubscription E order token existing w = (Ok order', w1) ->
  order' = order \/
  exists SubscriptionId, order' = Order.set (Order.SetSubscriptionId SubscriptionId) order.
Proof.
  unfold persistSubscription, cancelPaypalSubscription, createSubscription,
    updateSubscription, getSubscription, bind, gets, ret, throw, newDate, request, write.
  destruct existing as [subscription|]; simpl;
    repeat match goal with
           | |- context [match ?x with _ => _ end] =>
               lazymatch x with
               | context [match _ with _ => _ end] => fail
               | _ => destruct x eqn:?
               end; simpl
           end;
    intros [= <- <-]; eauto.
Qed.

Lemma activation_Ok_inv E order paymentMethod w order' w' :
  setupPaypalSubscriptionForOrder E order paymentMethod w = (Ok order', w') ->
  (order' = order \/
   exists SubscriptionId,
     order' = Order.set (Order.SetSubscriptionId SubscriptionId) order) /\
  exists paypalSubscription,
    paymentMethods (db w') =
      alter (PaymentMethod.assign (subscriberName paypalSubscription))
        (PaymentMethod.id paymentMethod) (paymentMethods (db w)).
Proof.
  rewrite setupPaypalSubscriptionForOrder_run. unfold tryCatch.
  rewrite activationSteps_run. cbv zeta.
  destruct (paypalRequest E (log w) _) as [paypalSubscription|cause]; [|caught].
  destruct (fst (verifySubscription order paypalSubscription _)) as [u|cause]; [|caught].
  destruct (dbFails E _ _); [caught|].
  destruct (persistSubscription E order _ _ _) as [[order1|cause] persisted] eqn:Hpersist;
    [|caught].
  destruct (paypalRequest E (log persisted) _); [|caught].
  intros [= <- <-]. split.
  - exact (persistSubscription_returns _ _ _ _ _ _ _ Hpersist).
  - exists paypalSubscription.
    apply persistSubscription_paymentMethods in Hpersist. exact Hpersist.
Qed.

(** X17. A move to a PayPal subscription that fails after its payment
    method was recorded leaves that payment method behind: whatever
    [updateSubscriptionWithPaypal] throws, once the store has accepted the
    creation, the row recorded under the new key is still there, a PayPal
    subscription payment method holding the external id as its token, and
    every stored order refers to the payment method it referred to before. *)
Theorem move_to_paypal_failure_leaves_payment_method
    E user order paypalSubscriptionId w e w' :
  let row :=
    paypalPaymentMethodRow order user paypalSubscriptionId
      (nextId (paymentMethods (db w))) in
  dbFails E (log w) (CreatePaymentMethod row) = false ->
  updateSubscriptionWithPaypal E user order paypalSubscriptionId w = (Throw e, w') ->
  paymentMethods (db w) !! PaymentMethod.id row = None /\
  (exists recorded,
     paymentMethods (db w') !! PaymentMethod.id row = Some recorded /\
     PaymentMethod.token recorded = paypalSubscriptionId /\
     isPaypalSubscriptionPaymentMethod (Some recorded) = true) /\
  forall k,
    Order.PaymentMethodId <$> orders (db w') !! k
    = Order.PaymentMethodId <$> orders (db w) !! k.
Proof.
  intros row Haccepted. unfold updateSubscriptionWithPaypal.
  unfold bind at 1. rewrite createPaypalPaymentMethodForSubscription_run. cbv zeta.
  fold row. rewrite Haccepted. unfold bind.
  destruct (setupPaypalSubscriptionForOrder E order row _) as [[order1|cause] w1]
    eqn:Hsetup.
  - rewrite updateOrder_run. cbv zeta.
    destruct (dbFails E (log w1) _); [|discriminate]. intros [= <- <-].
    unfold after. cbn [db].
    split; [apply nextId_fresh|]. split.
    + apply activation_Ok_inv in Hsetup as (_ & paypalSubscription & ->).
      unfold after. cbn [db paymentMethods withPaymentMethods].
      rewrite lookup_alter_eq, lookup_insert_eq. simpl. eauto.
    + intros k. rewrite (activation_order_paymentMethod _ _ _ _ _ _ k Hsetup).
      reflexivity.
  - intros [= <- <-].
    split; [apply nextId_fresh|]. split.
    + apply activation_paymentMethods in Hsetup as [-> | (paypalSubscription & ->)];
        unfold after; cbn [db paymentMethods withPaymentMethods].
      * rewrite lookup_insert_eq. eauto.
      * rewrite lookup_alter_eq, lookup_insert_eq. simpl. eauto.
    + intros k. rewrite (activation_order_paymentMethod _ _ _ _ _ _ k Hsetup).
      reflexivity.
Qed.

Lemma move_to_paypal_failure_leaves_payment_method_witness :
  exists recorded,
    paymentMethods
      (db (snd (updateSubscriptionWithPaypal Sample.activateFails Sample.user
                  Sample.newOrder "I-NEW" (Sample.start Sample.catalog))))
      !! 8 = Some recorded /\
    PaymentMethod.token recorded = "I-NEW".
Proof.
  pose proof (move_to_paypal_failure_leaves_payment_method Sample.activateFails
                Sample.user Sample.newOrder "I-NEW" (Sample.start Sample.catalog)
                (match fst (updateSubscriptionWithPaypal Sample.activateFails
                              Sample.user Sample.newOrder "I-NEW"
                              (Sample.start Sample.catalog)) with
                 | Throw e => e
                 | Ok _ => DatabaseError
                 end)
                (snd (updateSubscriptionWithPaypal Sample.activateFails Sample.user
                        Sample.newOrder "I-NEW" (Sample.start Sample.catalog))))
    as Hleft.
  cbv zeta in Hleft.
  destruct Hleft as (_ & (recorded & Hrecorded & Htoken & _) & _).
  - reflexivity.
  - vm_compute. reflexivity.
  - exists recorded. split; [exact Hrecorded | exact Htoken].
Defined.


